(* ===== verification/_CoqProject ===== *)
-Q . S2P
Prelude.v
Patterns.v
ByteFind.v
Json.v
World.v
Patcher.v
SaveEditor.v
Clearing.v
Menu.v
Frame.v
Console.v
JsonText.v
