(* ===== verification/Prelude.v ===== *)
(** * Verification of the schedule-mod menu tool (src/main.py)

    The header of the root file documents the whole development.

    ** The program

    [src/main.py] is an interactive tool for the game "Schedule I".  Its
    parts, leaves first:
    - the four byte templates (lines 8-18): two x86 [cmp] encodings whose
      32-bit little-endian immediate is 2000 (original) or 2 (modified);
    - the pattern index [find_pattern] / [find_all_patterns] (lines
      49-70): read the whole DLL and search it with Python's
      [bytes.find], the second one in a loop that resumes at
      [index + 1];
    - the binary patcher [modify_trash_limit] / [permanent_trash_gen]
      (lines 72-103): choose a template from the [limit] flag, locate it
      once (single site) and everywhere (creation sites), then seek and
      overwrite;
    - the game locator [get_steam_install_path] /
      [get_game_assembly_path] (lines 22-47): registry lookup and path
      existence test;
    - the save editor (lines 106-217): find the Steam ID folder under
      [%APPDATA%], list the [SaveGame_*] folders with the organisation
      name of their [Game.json], prompt for one, then empty [Items] in
      [Trash/Trash.json] and [GeneratedItems] in every
      [Trash/Generators/Generator_*.json];
    - the menu loop [main] (lines 219-251): read an option, run the
      save editor (1), the patcher (2, 3) or exit (5), forever.
    The patcher and the save editor share nothing but the console and
    the file system; [main] calls both.

    ** Files and what they model

    - [Prelude.v] (this file): byte strings; Python's exceptions as the
      inductive [exc] and outcomes as [outcome]; the effect monad
      [PyM S A := S -> outcome A * S] (explicit state passing, an
      exception is a value) with [let*] in [py_scope], [try/except] as
      [py_try_except] and [for] as [py_for]; the string builtins the
      code calls ([str.isdigit], [int], [str.startswith], [sorted]); the
      hint databases [pyspec] and [pyrw].
    - [Patterns.v]: the four templates of lines 11-18, the choice of
      lines 74-75 and 85, the little-endian decoding of immediates.
    - [ByteFind.v]: CPython's [bytes.find] ([bytes_find]), the reference
      list of occurrences, the [BytesFind] class (the contract the code
      relies on) with its instance, and the loop of lines 62-66
      ([find_all_loop]) with explicit fuel.
    - [Json.v]: the values [json.load] returns, the three operations the
      code applies to them ([py_get], [py_contains], [py_setitem], with
      the exceptions Python raises on a non-dict), and the [JsonCodec]
      class: [json.load]/[json.dump] with the round-trip law; a model
      codec instance runs the examples.
    - [World.v]: the [world] record: a flat file system (association
      list from component paths to files and directories, in
      [os.listdir] order), the Steam registry value, [APPDATA], the
      console input lines, the console output as message events (one
      [msg] constructor per [print], carrying what it formats) and the
      log of [seek]+[write] calls; Python's primitives on it ([open],
      [read], [seek]/[write], [json.dump] to a file, [print], [input],
      [os.path.exists], [os.path.isdir], [os.listdir]); the invariant
      [wb] (never out of fuel, input only consumed) with its
      compositional lemmas and the tactic [solve_wb].
    - [Patcher.v]: lines 22-103 as [PyM world] programs, proved against
      [BytesFind].
    - [SaveEditor.v]: lines 106-217 as [PyM world] programs, proved
      against [JsonCodec].
    - [Clearing.v]: the abstract specification of option 1 once a save
      is chosen ([clears_trash], pointwise on paths through
      [clear_target]) and the proof that [clear_trash_task] refines it.
    - [Menu.v]: lines 219-251, with [task_of] (the [continue] arms) and
      the step relation [serves] of the loop.
    - [Frame.v]: no model of its own: the relation [frame] between the
      world before and after a run (no entry created, deleted or
      retyped; only [writable] files changed; registry and [APPDATA]
      unchanged), the lemmas composing it through [let*], [try],
      [for] and preconditions ([stable], [stable_at]), and the proof
      that every function of the program keeps it.
    - [Console.v]: the text of each message ([msg_text]: the f-strings
      with [hex()], [str()] of ints and of JSON values through
      [repr], [os.path.join] with the Windows separator) and of a whole
      run ([console_out]: [print] ends a line, [input] does not); the
      readers [parse_hex] and [read_patch_line] that take the numbers
      back from a line.
    - [JsonText.v]: Python's json library on a UTF-8 file: the encoder
      of [json.dump(..., indent=4)] ([dumps_at]), the strict UTF-8 codec,
      and the scanner of [json.load] as a [PyM text] program
      ([pvalue], [pelems], [pmembers], with fuel), together the
      [JsonCodec] instance [text_json_codec]; at its end the save
      editor's runs of SaveEditor.v with that instance: the bytes
      [clear_json_field] writes.

    ** Theorems

    - pattern index: the resumption loop terminates within its fuel and
      returns exactly the ascending list of all (overlapping included)
      occurrences; [find_pattern] is the head of [find_all_patterns].
    - patcher: the exact messages and writes of [modify_trash_limit] on
      every branch; no write unless both lookups succeed; a match at
      offset 0 is rejected by [if not offset]; because the code searches
      for the very template it writes, the DLL never changes, so a
      second run with the same request repeats the first report and
      writes, and the specification's example finds nothing; a missing
      game makes [open(None)] raise [TypeError].
    - game locator: [get_game_assembly_path] never raises and meets the
      GameLocator contract [locator_spec] of the specification.
    - console: the "Modified ..." lines of a patch, read back, give the
      offsets written and the limit set, in order; [select_save] prints
      save [i] on the line numbered [i + 1], and typing the first word of
      that line returns save [i] ([int] of [str]).
    - save editor: clearing a key rewrites an object file to one that
      loads back with the list emptied and nothing else changed; it is
      idempotent; a file [json.load] rejects is never written, and a
      non-UTF-8 file escapes the handler; the prompt loop reads lines
      up to the first that is [0] or a listed number, answers it, and
      never runs out of fuel; [get_saves_directory] on every branch.
    - menu: [main] always ends with a Python exception ([SystemExit],
      [EOFError] or one a command lets escape), never out of fuel;
      option 5 exits; option 2 without the game ends the program;
      other lines only show the menu again.
    - frame: [main] never creates, deletes or retypes a file-system
      entry, and writes only the DLL under the registered Steam
      directory and [Trash.json] / [Generator_*.json] of a [SaveGame_]
      folder of a Steam ID folder of the saves directory.
    - save scan: with readable dict files, [get_save_games] returns the
      [SaveGame_*] directories holding a [Game.json], in [sorted]
      order, with their organisation names; the only exceptions that
      escape it are [NotADirectoryError], [UnicodeDecodeError] and
      [AttributeError] (a [Game.json] that is not a dict); a trash
      document that is not a dict makes [in] or item assignment raise
      [TypeError], which escapes.
    - lemmas on the models of Python's builtins, used by the theorems
      above: [bytes.find] returns the least occurrence; [seek]+[write]
      inside a file keeps its length; the model of [sorted] equals
      stdpp's merge sort; [repr] of a string reads back; the name test
      of the generator glob accepts exactly ["Generator_" + middle +
      ".json"].
    - conformance examples, each checked against CPython's output for
      one input: whole sessions ([x] then [5]; a patch session [2], [3],
      [5]; a clearing session [1], [1], [5]), the specification's
      example buffer, and a clearing session on JSON text.
    - refinement: once a save is chosen, [clear_trash_task] returns and
      leaves exactly the file system [clears_trash] specifies, on a
      well-formed file system whose target files hold dicts.
    - type invariant: [main] keeps the file system well formed ([fs_wf]:
      each path once, nested entries inside directories) and its
      entries in the same order.
    - JSON text: the indented text of a well-formed value reads back as
      the value; the scanner never exhausts its fuel; a value read is
      well formed and only [JSONDecodeError] or [UnicodeDecodeError] is
      raised; the encoder and the loader agree with CPython on test
      vectors; clearing a field of a file the game wrote leaves on
      disk exactly the text CPython writes, which reads back as the
      cleared dict, and a whole session (1, 1, 5) leaves byte for byte
      the files CPython leaves.
    - liveness: from any world the menu reaches through [serves] (lines
      other than 5 whose tasks return), typing 5 exits.

    ** Fuel

    Three loops have no structural bound, each gets explicit fuel, and
    running out raises the model-only exception [OutOfFuel]:
    - [while index != -1] (lines 64-66) gets [length data + 1]
      iterations ([loop_fuel]): each found index is at most
      [length data] and the next search starts one past it;
      [find_all_loop_occ] proves this is enough;
    - the prompt of [select_save] (lines 162-168) and [while True] of
      [main] (lines 222-251) get one iteration more than the console
      lines left: every iteration reads a line, and by the [wb]
      invariant no operation adds input, so the input ends ([EOFError])
      before the fuel does ([select_loop_spec], [main_terminates]);
    - the JSON scanner of JsonText.v is recursive on nesting and gets
      twice the length of the text plus one: each call that recurses
      has consumed a character ([scanner_fuel]).

    ** Not modelled and why

    - The text of [str(e)] for an exception caught in [clear_trash_task]:
      the operating system's message; [msg_text] takes it as a
      parameter.  A character of a model string stands for a code point
      below 256 when [repr] escapes it.
    - [time.sleep] (no observable effect here) and the process exit,
      which is the [SystemExit] outcome.
    - In JSON text: floats, [NaN] and [Infinity], code points above
      U+00FF inside strings (rejected by the model, read by CPython),
      the 4300-digit limit on integers and [RecursionError] on deep
      nesting.  The save editor's theorems are proved against the
      [JsonCodec] interface and hold for [text_json_codec] as for any
      instance.
    - Strings are ASCII ([String.string]): [str.isnumeric] and
      [str.isdigit] on other Unicode digits are not modelled.
    - Windows specifics: case-insensitive [glob], drive-relative joins, other
      [OSError]s of [winreg]; a relative [%APPDATA%] is kept as written.
*)

From stdpp Require Export base list sets strings.
From Stdlib Require Export Strings.Byte.

(** ** Byte strings *)

Abbreviation bytes := (list byte).

#[export] Instance byte_eq_decision : EqDecision byte := Byte.byte_eq_dec.

(** [starts_with pat d] : [d] begins with [pat], the test behind
    [bytes.find] at one position. *)
Definition starts_with (pat d : bytes) : bool := bool_decide (pat `prefix_of` d).

(** ** Python exceptions and the effect monad *)

(** The exceptions the modelled code can raise or catch.  [OutOfFuel] is
    not a Python exception: it marks a bounded loop that ran out of fuel,
    and the development proves it is never raised. *)
Inductive exc :=
  | FileNotFoundError
  | PermissionError
  | NotADirectoryError
  | IOError
  | TypeError
  | AttributeError
  | JSONDecodeError
  | UnicodeDecodeError
  | EOFError
  | SystemExit
  | OutOfFuel.

#[export] Instance exc_eq_dec : EqDecision exc.
Proof. solve_decision. Defined.

(** The subclasses of [OSError] (alias [IOError]): what
    [except IOError] catches. *)
Definition is_oserror (e : exc) : bool :=
  match e with
  | FileNotFoundError | PermissionError | NotADirectoryError | IOError => true
  | _ => false
  end.

Inductive outcome (A : Type) :=
  | Ok (a : A)
  | Raise (e : exc).
Arguments Ok {A} a.
Arguments Raise {A} e.

(** A Python statement over a state [S]: the state is threaded
    explicitly, and an exception keeps the state reached when it was
    raised (writes done before it persist, as on disk). *)
Definition PyM (S A : Type) : Type := S -> outcome A * S.

Section Monad.
Context {S : Type}.

Definition py_ret {A} (a : A) : PyM S A := fun s => (Ok a, s).

Definition py_bind {A B} (m : PyM S A) (k : A -> PyM S B) : PyM S B :=
  fun s => match m s with
           | (Ok a, s') => k a s'
           | (Raise e, s') => (Raise e, s')
           end.

Definition py_raise {A} (e : exc) : PyM S A := fun s => (Raise e, s).

Definition py_get_state : PyM S S := fun s => (Ok s, s).

Definition py_modify (f : S -> S) : PyM S unit := fun s => (Ok tt, f s).

(** A value or exception computed without effects. *)
Definition py_lift {A} (o : outcome A) : PyM S A := fun s => (o, s).

(** [try: m except <the exceptions [catches] accepts> as e: handler(e)] *)
Definition py_try_except {A} (m : PyM S A) (catches : exc -> bool)
    (handler : exc -> PyM S A) : PyM S A :=
  fun s => match m s with
           | (Raise e, s') => if catches e then handler e s' else (Raise e, s')
           | r => r
           end.

(** [for x in xs: body(x)] *)
Fixpoint py_for {A} (xs : list A) (body : A -> PyM S unit) : PyM S unit :=
  match xs with
  | [] => py_ret tt
  | x :: xs' => py_bind (body x) (fun _ => py_for xs' body)
  end.
End Monad.

Declare Scope py_scope.
Delimit Scope py_scope with py.
Notation "'let*' x ':=' c1 'in' c2" := (py_bind c1 (fun x => c2))
  (at level 10, x pattern, c1 at level 100, c2 at level 200) : py_scope.
Open Scope py_scope.

(** ** The hint database of the development *)

Create HintDb pyspec discriminated.
Create Rewrite HintDb pyrw.

Section MonadLaws.
Context {S A B : Type}.

Lemma py_bind_ret_l (a : A) (k : A -> PyM S B) s :
  py_bind (py_ret a) k s = k a s.
Proof. reflexivity. Qed.

Lemma py_bind_raise (e : exc) (k : A -> PyM S B) s :
  py_bind (py_raise e) k s = (Raise e, s).
Proof. reflexivity. Qed.

Lemma py_bind_Ok (m : PyM S A) (k : A -> PyM S B) s a s' :
  m s = (Ok a, s') -> py_bind m k s = k a s'.
Proof. unfold py_bind. by intros ->. Qed.

Lemma py_bind_Raise (m : PyM S A) (k : A -> PyM S B) s e s' :
  m s = (Raise e, s') -> py_bind m k s = (Raise e, s').
Proof. unfold py_bind. by intros ->. Qed.
End MonadLaws.

#[export] Hint Rewrite @py_bind_ret_l @py_bind_raise : pyrw.

(** Unfold the monad combinators in the goal. *)
Ltac py_unfold := unfold py_bind, py_ret, py_raise, py_get_state, py_modify in *.

(** ** Shared list lemmas *)

Lemma starts_with_spec (pat d : bytes) :
  starts_with pat d = true <-> take (length pat) d = pat.
Proof.
  unfold starts_with. rewrite bool_decide_eq_true. split.
  - intros [k ->]. by rewrite take_app_length.
  - intros <-. exists (drop (length pat) d). by rewrite take_drop.
Qed.

Lemma starts_with_nil (pat : bytes) :
  starts_with pat [] = true <-> pat = [].
Proof. rewrite starts_with_spec. destruct pat; simpl; naive_solver. Qed.

Lemma starts_with_length (pat d : bytes) :
  starts_with pat d = true -> length pat <= length d.
Proof. unfold starts_with. rewrite bool_decide_eq_true. apply prefix_length. Qed.

#[export] Hint Resolve starts_with_length : pyspec.

Lemma last_app_cons {A} (l l' : list A) (x : A) :
  last (l ++ x :: l') = last (x :: l').
Proof.
  induction l as [|y l IH]; [done|]. rewrite <-app_comm_cons, <-IH.
  destruct l; simpl; [done|]. by destruct (l ++ x :: l').
Qed.

#[export] Hint Rewrite @last_app_cons : pyrw.

Lemma mapM_map_Some {A B} (f : A -> option B) (g : B -> A) (l : list B) :
  Forall (fun x => f (g x) = Some x) l -> mapM f (map g l) = Some l.
Proof. induction 1 as [|x l Hx _ IH]; simpl; [done|]. by rewrite Hx, IH. Qed.

(** ** Python string builtins on ASCII text *)

Definition is_ascii_digit (c : Ascii.ascii) : bool :=
  let n := Ascii.nat_of_ascii c in (48 <=? n) && (n <=? 57).

(** [s.isdigit()] (and [s.isnumeric()]): non-empty, all digits. *)
Definition is_digits (s : string) : bool :=
  negb (String.eqb s "") && forallb is_ascii_digit (String.list_ascii_of_string s).

(** [int(s)] on a string of digits. *)
Definition digits_value (s : string) : nat :=
  fold_left (fun acc c => 10 * acc + (Ascii.nat_of_ascii c - 48))
    (String.list_ascii_of_string s) 0.

(** [s.startswith(p)] *)
Definition starts_with_str (p s : string) : bool := String.prefix p s.

(** [s.endswith(p)] *)
Definition ends_with_str (p s : string) : bool :=
  String.prefix (String.string_of_list_ascii (rev (String.list_ascii_of_string p)))
    (String.string_of_list_ascii (rev (String.list_ascii_of_string s))).

(** [a <= b] on strings: lexicographic on character codes. *)
Fixpoint str_leb (a b : string) : bool :=
  match a, b with
  | EmptyString, _ => true
  | String _ _, EmptyString => false
  | String c a', String d b' =>
      let m := Ascii.nat_of_ascii c in let n := Ascii.nat_of_ascii d in
      (m <? n) || ((m =? n) && str_leb a' b')
  end.

Fixpoint insert_sorted (x : string) (l : list string) : list string :=
  match l with
  | [] => [x]
  | y :: l' => if str_leb x y then x :: l else y :: insert_sorted x l'
  end.

(** [sorted(l)] on strings. *)
Fixpoint sort_strings (l : list string) : list string :=
  match l with
  | [] => []
  | x :: l' => insert_sorted x (sort_strings l')
  end.

(** ** [sorted] on strings *)

From stdpp Require Import sorting.

(** The order [sorted] uses on [str]. *)
Definition str_le (a b : string) : Prop := str_leb a b = true.

#[export] Instance str_le_dec a b : Decision (str_le a b).
Proof. unfold str_le. apply _. Defined.

Lemma str_leb_total a b : str_leb a b = true \/ str_leb b a = true.
Proof.
  revert b. induction a as [|c a IH]; intros [|d b]; simpl; auto.
  destruct (Nat.lt_trichotomy (Ascii.nat_of_ascii c) (Ascii.nat_of_ascii d)) as [Hl|[He|Hl]].
  - left. apply orb_true_iff. left. by apply Nat.ltb_lt.
  - rewrite He, Nat.ltb_irrefl, Nat.eqb_refl. simpl. apply IH.
  - right. apply orb_true_iff. left. by apply Nat.ltb_lt.
Qed.

Lemma str_leb_trans a b c : str_leb a b = true -> str_leb b c = true -> str_leb a c = true.
Proof.
  revert b c. induction a as [|x a IH]; intros [|y b] [|z c]; simpl; try done.
  rewrite !orb_true_iff, !andb_true_iff, !Nat.ltb_lt, !Nat.eqb_eq.
  intros [?|[? Hab]] [?|[? Hbc]]; [left; lia | left; lia | left; lia |].
  right. split; [lia|]. by apply (IH b).
Qed.

Lemma str_leb_antisym a b : str_leb a b = true -> str_leb b a = true -> a = b.
Proof.
  revert b. induction a as [|x a IH]; intros [|y b]; simpl; try done.
  rewrite !orb_true_iff, !andb_true_iff, !Nat.ltb_lt, !Nat.eqb_eq.
  intros H1 H2. destruct H1 as [?|[Hxy Hab]]; [lia|]. destruct H2 as [?|[_ Hba]]; [lia|].
  assert (x = y) as ->
    by (rewrite <-(Ascii.ascii_nat_embedding x), <-(Ascii.ascii_nat_embedding y), Hxy; done).
  by rewrite (IH b).
Qed.

#[export] Instance str_le_total : Total str_le.
Proof. intros a b. apply str_leb_total. Qed.

#[export] Instance str_le_trans : Transitive str_le.
Proof. intros a b c. apply str_leb_trans. Qed.

#[export] Instance str_le_antisymm : AntiSymm (=) str_le.
Proof. intros a b. apply str_leb_antisym. Qed.

Lemma insert_sorted_perm x l : insert_sorted x l ≡ₚ x :: l.
Proof.
  induction l as [|y l IH]; simpl; [done|]. case_match; [done|].
  rewrite IH. apply Permutation_swap.
Qed.

Lemma insert_sorted_sorted x l : Sorted str_le l -> Sorted str_le (insert_sorted x l).
Proof.
  induction 1 as [|y l Hl IH Hhd]; simpl; [by repeat constructor|].
  destruct (str_leb x y) eqn:Hxy; [by repeat constructor|].
  constructor; [done|]. destruct Hhd as [|z l' Hyz]; simpl.
  - constructor. destruct (str_leb_total y x); congruence.
  - simpl in IH. destruct (str_leb x z); constructor; [|done].
    destruct (str_leb_total y x); congruence.
Qed.

Lemma sort_strings_perm l : sort_strings l ≡ₚ l.
Proof. induction l; simpl; [done|]. by rewrite insert_sorted_perm, IHl. Qed.

Lemma sort_strings_sorted l : Sorted str_le (sort_strings l).
Proof. induction l; simpl; [constructor|]. by apply insert_sorted_sorted. Qed.

(** [sorted(os.listdir(saves_dir))] (line 134): the insertion sort
    of the model returns what any correct sort returns, stdpp's merge
    sort included: the list ascending in code-point order and a
    permutation of its input. *)
Theorem sort_strings_merge_sort (l : list string) :
  sort_strings l = merge_sort str_le l /\ Sorted str_le (sort_strings l) /\ sort_strings l ≡ₚ l.
Proof.
  split; [|split; [apply sort_strings_sorted | apply sort_strings_perm]].
  apply (Sorted_unique str_le); [apply sort_strings_sorted | apply (Sorted_merge_sort str_le) |].
  by rewrite sort_strings_perm, merge_sort_Permutation.
Qed.

(** ** Shared list lemmas on partial maps *)

Lemma NoDup_omap_inj {A B} (f : A -> option B) (l : list A) :
  NoDup l -> (forall x y z, f x = Some z -> f y = Some z -> x = y) -> NoDup (omap f l).
Proof.
  intros Hl Hf. induction Hl as [|x l Hx Hl IH]; simpl; [constructor|].
  destruct (f x) as [z|] eqn:E; [|done]. constructor; [|done].
  intros (y & Hy & Ey)%list_elem_of_omap. apply Hx. by rewrite (Hf x y z).
Qed.

(** ** Strings as lists of characters *)

Lemma list_ascii_of_string_app (a b : string) :
  String.list_ascii_of_string (a ++ b) = String.list_ascii_of_string a ++ String.list_ascii_of_string b.
Proof. induction a as [|c a IH]; simpl; [done|]. by rewrite IH. Qed.

Lemma list_ascii_of_string_inj (a b : string) :
  String.list_ascii_of_string a = String.list_ascii_of_string b -> a = b.
Proof.
  intros E. by rewrite <-(String.string_of_list_ascii_of_string a), E,
    String.string_of_list_ascii_of_string.
Qed.

Lemma string_app_assoc (a b c : string) : ((a ++ b) ++ c = a ++ (b ++ c))%string.
Proof.
  induction a as [|x a IH]; [done|].
  change (String x ((a ++ b) ++ c) = String x (a ++ b ++ c))%string. by rewrite IH.
Qed.

Lemma string_app_nil_r (a : string) : (a ++ EmptyString)%string = a.
Proof.
  induction a as [|x a IH]; [done|].
  change (String x (a ++ EmptyString) = String x a)%string. by rewrite IH.
Qed.

(** [''.join] of a non-empty list. *)
Lemma string_concat_empty_cons (x : string) (l : list string) :
  String.concat EmptyString (x :: l) = (x ++ String.concat EmptyString l)%string.
Proof. destruct l; [by rewrite string_app_nil_r | done]. Qed.

Lemma string_length_list (s : string) : String.length s = length (String.list_ascii_of_string s).
Proof. induction s; simpl; auto. Qed.

(** [s.startswith(p)]: [s] is [p] followed by something. *)
Lemma starts_with_str_spec (p s : string) :
  starts_with_str p s = true <->
  String.list_ascii_of_string p `prefix_of` String.list_ascii_of_string s.
Proof.
  unfold starts_with_str. revert s. induction p as [|c p IH]; intros [|d s]; simpl.
  - split; [intros _; apply prefix_nil | done].
  - split; [intros _; apply prefix_nil | done].
  - split; [done|]. intros [k Hk]. discriminate.
  - destruct (Ascii.ascii_dec c d) as [->|Hcd].
    + rewrite IH. split; [apply prefix_cons | apply prefix_cons_inv_2].
    + split; [done|]. intros [k Hk]. simpl in Hk. injection Hk as ? _. congruence.
Qed.

(** [s.endswith(p)]: [s] is something followed by [p]. *)
Lemma ends_with_str_spec (p s : string) :
  ends_with_str p s = true <->
  String.list_ascii_of_string p `suffix_of` String.list_ascii_of_string s.
Proof.
  unfold ends_with_str. rewrite (starts_with_str_spec _ _ : String.prefix _ _ = true <-> _).
  rewrite !String.list_ascii_of_string_of_list_ascii. split.
  - intros [k Hk]. exists (rev k). by rewrite <-(rev_involutive (String.list_ascii_of_string s)),
      Hk, rev_app_distr, rev_involutive.
  - intros [k ->]. exists (rev k). by rewrite rev_app_distr.
Qed.
