(* ===== verification/Patterns.v ===== *)
(** * The byte templates of the patcher (src/main.py, lines 8-18, 74-75, 85)

    The four module-level constants, the choice [modify_trash_limit] makes
    between them from its [limit] flag, and the limit value it reports.
    The immediates are decoded as 32-bit little-endian numbers, which is
    what the source comment "D0 07 00 00 represents 2000" means. *)

From S2P Require Import Prelude.
From Stdlib Require Import NArith.

Module Templates.

(** [TRASH_LIMIT_PATTERN]: [cmp ebx, 2000] (line 11). *)
Definition TRASH_LIMIT_PATTERN : bytes := [x81; xfb; xd0; x07; x00; x00].

(** [TRASH_LIMIT_MOD_PATTERN]: [cmp ebx, 2] (line 13). *)
Definition TRASH_LIMIT_MOD_PATTERN : bytes := [x81; xfb; x02; x00; x00; x00].

(** [TRASH_CRT_PATTERN]: [cmp dword [rax+0x18], 2000] preceded by a
    zero byte (line 17). *)
Definition TRASH_CRT_PATTERN : bytes := [x00; x81; x78; x18; xd0; x07; x00; x00].

(** [TRASH_CRT_MOD_PATTERN] (line 18). *)
Definition TRASH_CRT_MOD_PATTERN : bytes := [x00; x81; x78; x18; x02; x00; x00; x00].

(** Line 74: [TRASH_LIMIT_MOD_PATTERN if limit else TRASH_LIMIT_PATTERN]. *)
Definition trash_limit_pattern_of (limit : bool) : bytes :=
  if limit then TRASH_LIMIT_MOD_PATTERN else TRASH_LIMIT_PATTERN.

(** Line 75: [TRASH_CRT_MOD_PATTERN if limit else TRASH_CRT_PATTERN]. *)
Definition trash_crt_pattern_of (limit : bool) : bytes :=
  if limit then TRASH_CRT_MOD_PATTERN else TRASH_CRT_PATTERN.

(** Line 85: [actual_limit = 2 if limit else 2000]. *)
Definition actual_limit_of (limit : bool) : N :=
  if limit then 2%N else 2000%N.

(** Little-endian value of a byte string (least significant byte first). *)
Fixpoint le_value (l : bytes) : N :=
  match l with
  | [] => 0%N
  | b :: l' => (Byte.to_N b + 256 * le_value l')%N
  end.

(** The immediate operand: the last four bytes of a template. *)
Definition imm32 (pat : bytes) : N := le_value (drop (length pat - 4) pat).

(** The opcode part: everything before the immediate. *)
Definition opcode (pat : bytes) : bytes := take (length pat - 4) pat.

End Templates.

Export Templates.

(** C8. The limit printed by [modify_trash_limit] (line 85) is the
    immediate of both templates it selects (lines 74-75), and each
    selected template has the opcode bytes and the length of the
    original one: the two templates of a site differ only in the 32-bit
    immediate, so a write never shifts the bytes after it. *)
Theorem templates_consistent (limit : bool) :
  imm32 (trash_limit_pattern_of limit) = actual_limit_of limit /\
  imm32 (trash_crt_pattern_of limit) = actual_limit_of limit /\
  opcode (trash_limit_pattern_of limit) = opcode TRASH_LIMIT_PATTERN /\
  opcode (trash_crt_pattern_of limit) = opcode TRASH_CRT_PATTERN /\
  length (trash_limit_pattern_of limit) = length TRASH_LIMIT_PATTERN /\
  length (trash_crt_pattern_of limit) = length TRASH_CRT_PATTERN.
Proof. destruct limit; vm_compute; repeat split. Qed.
