(* ===== verification/ByteFind.v ===== *)
(** * PatternIndex: searching a buffer (src/main.py, lines 49-70)

    - [bytes_find data pat start] is CPython's [data.find(pat, start)]
      (lines 53, 63, 66), with [None] for the sentinel [-1];
    - [occurrences data pat] is the reference: every offset where [pat]
      occurs, ascending, overlapping ones included;
    - [BytesFind] is the interface the program relies on (the documented
      contract of [bytes.find]), and [py_bytes_find] its instance;
    - [find_all_loop] is the [while index != -1] loop of
      [find_all_patterns] (lines 62-66), with fuel. *)

From S2P Require Import Prelude.

(** ** Reference: where a pattern occurs *)

(** [pat] occurs at offset [o] of [data]: [o] is a valid slice start
    and [data[o:o+len(pat)] == pat]. *)
Definition occurs_at (data pat : bytes) (o : nat) : Prop :=
  o <= length data /\ pat `prefix_of` drop o data.

#[export] Instance occurs_at_dec data pat o : Decision (occurs_at data pat o).
Proof. unfold occurs_at. solve_decision. Defined.

(** The occurrences at or after [o], ascending. *)
Definition occ_from (data pat : bytes) (o : nat) : list nat :=
  filter (occurs_at data pat) (seq o (S (length data) - o)).

(** All occurrences, ascending. *)
Definition occurrences (data pat : bytes) : list nat := occ_from data pat 0.

(** ** CPython's [bytes.find] *)

(** Scan [d], the suffix of the buffer that starts at offset [o]. *)
Fixpoint find_from (pat d : bytes) (o : nat) : option nat :=
  if starts_with pat d then Some o
  else match d with
       | [] => None
       | _ :: d' => find_from pat d' (S o)
       end.

(** [data.find(pat, start)]: the least [o >= start] with
    [data[o:o+len(pat)] == pat]; a start past the end finds nothing, even
    for an empty pattern. *)
Definition bytes_find (data pat : bytes) (start : nat) : option nat :=
  if decide (start <= length data) then find_from pat (drop start data) start
  else None.

(** ** Lemmas on the reference *)

From Stdlib Require Import Sorted.

(** Induction on the number of offsets left after [o]. *)
Ltac induction_offsets data o :=
  let k := fresh "k" in let Hk := fresh "Hk" in let IH := fresh "IH" in
  remember (length data - o) as k eqn:Hk; revert o Hk;
  induction k as [|k IH]; intros o Hk.

Lemma occ_from_unfold data pat o :
  occ_from data pat o =
    if decide (o <= length data) then
      (if decide (occurs_at data pat o) then o :: occ_from data pat (S o)
       else occ_from data pat (S o))
    else [].
Proof.
  unfold occ_from. case_decide as Ho.
  - replace (S (length data) - o) with (S (S (length data) - S o)) by lia.
    by rewrite <-cons_seq, filter_cons.
  - by replace (S (length data) - o) with 0 by lia.
Qed.

Lemma occ_from_past data pat o : length data < o -> occ_from data pat o = [].
Proof. intros Ho. rewrite occ_from_unfold. case_decide; [lia | done]. Qed.

Lemma elem_of_occ_from data pat o x :
  x ∈ occ_from data pat o <-> o <= x /\ occurs_at data pat x.
Proof.
  unfold occ_from. rewrite list_elem_of_filter, elem_of_seq.
  unfold occurs_at. naive_solver lia.
Qed.

Lemma occurs_at_starts_with data pat o :
  o <= length data -> occurs_at data pat o <-> starts_with pat (drop o data) = true.
Proof. intros Ho. unfold occurs_at, starts_with. rewrite bool_decide_eq_true. naive_solver. Qed.

Lemma occ_from_sorted data pat o : StronglySorted lt (occ_from data pat o).
Proof.
  induction_offsets data o; rewrite occ_from_unfold;
    repeat case_decide; try constructor;
    try (rewrite occ_from_past by lia; constructor);
    try (apply IH; lia).
  all: apply Forall_forall; intros x Hx;
    rewrite elem_of_occ_from in Hx; lia.
Qed.

(** The head of the occurrences from [o], when there is one, is followed
    by the occurrences from one past it. *)
Lemma occ_from_head data pat o i :
  head (occ_from data pat o) = Some i ->
  occ_from data pat o = i :: occ_from data pat (S i) /\ o <= i <= length data.
Proof.
  induction_offsets data o; rewrite occ_from_unfold;
    repeat case_decide; simpl; intros Hi; simplify_eq; try (split; [done | lia]).
  - rewrite occ_from_past in Hi by lia. done.
  - destruct (IH (S o)) as [-> ?]; [lia | done | split; [done | lia]].
Qed.

Lemma find_from_unfold pat d o :
  find_from pat d o =
    if starts_with pat d then Some o
    else match d with [] => None | _ :: d' => find_from pat d' (S o) end.
Proof. by destruct d. Qed.

(** [bytes_find] returns the first occurrence at or after the start. *)
Lemma bytes_find_first data pat o : bytes_find data pat o = head (occ_from data pat o).
Proof.
  unfold bytes_find. case_decide as Ho; [| by rewrite occ_from_past by lia].
  revert Ho. induction_offsets data o; intros Ho;
    rewrite find_from_unfold, occ_from_unfold, decide_True by done.
  all: destruct (starts_with pat (drop o data)) eqn:Hs;
    [by rewrite decide_True by (by apply occurs_at_starts_with)
    | rewrite decide_False by (rewrite occurs_at_starts_with; congruence)].
  all: destruct (drop o data) as [|b d] eqn:Hd;
    [rewrite occ_from_past; [done|]; apply drop_nil_inv in Hd; lia |].
  all: assert (o < length data) by
    (pose proof (f_equal length Hd) as Hl; rewrite length_drop in Hl; simpl in Hl; lia).
  all: replace d with (drop (S o) data)
    by (by rewrite <-Nat.add_1_r, <-drop_drop, Hd).
  - lia.
  - apply IH; lia.
Qed.

(** ** The interface: what the program assumes of [bytes.find] *)

Class BytesFind := {
  bfind : bytes -> bytes -> nat -> option nat;
  (** the first occurrence at or after the start, or none *)
  bfind_first : forall data pat o, bfind data pat o = head (occ_from data pat o)
}.

#[export] Instance py_bytes_find : BytesFind :=
  {| bfind := bytes_find; bfind_first := bytes_find_first |}.

(** ** The resumption loop of [find_all_patterns] *)

Section Loop.
Context `{BytesFind}.

(** Lines 64-66:
<<
      while index != -1:
          indexes.append(index)
          index = data.find(pattern, index + 1)
>>
    [None] is "out of fuel", not a Python outcome. *)
Fixpoint find_all_loop (fuel : nat) (data pat : bytes) (index : option nat)
    (indexes : list nat) : option (list nat) :=
  match index with
  | None => Some indexes
  | Some i =>
      match fuel with
      | O => None
      | S fuel' => find_all_loop fuel' data pat (bfind data pat (S i)) (indexes ++ [i])
      end
  end.

(** The fuel given to the loop: one more than the number of offsets. *)
Definition loop_fuel (data : bytes) : nat := S (length data).

(** Lines 62-66 as a function of the buffer: the list built by the
    loop, or [None] if the fuel ran out. *)
Definition find_all_indexes (data pat : bytes) : option (list nat) :=
  find_all_loop (loop_fuel data) data pat (bfind data pat 0) [].

(** Loop invariant: started on [bfind data pat o] with enough fuel, the
    loop appends exactly the occurrences from [o] to [indexes]. *)
Lemma find_all_loop_occ fuel data pat o indexes :
  S (length data) - o <= fuel ->
  find_all_loop fuel data pat (bfind data pat o) indexes
    = Some (indexes ++ occ_from data pat o).
Proof.
  revert o indexes. induction fuel as [|fuel IH]; intros o indexes Hf;
    rewrite bfind_first; destruct (occ_from data pat o) as [|i l] eqn:Hocc; simpl;
    try by rewrite app_nil_r.
  all: destruct (occ_from_head data pat o i) as [Heq Hi]; [by rewrite Hocc|].
  - lia.
  - rewrite IH by lia. rewrite Hocc in Heq. injection Heq as ->.
    by rewrite <-app_assoc.
Qed.
End Loop.

Lemma find_all_indexes_correct `{BytesFind} (data pat : bytes) :
  find_all_indexes data pat = Some (occurrences data pat).
Proof. unfold find_all_indexes, occurrences. by rewrite find_all_loop_occ by (unfold loop_fuel; lia). Qed.

(** ** Properties of the pattern index *)

(** C1. The search loop of [find_all_patterns] (lines 62-66) terminates
    within [length data + 1] iterations and builds exactly the reference
    list of occurrences: every offset where the pattern occurs, in
    ascending order, overlapping occurrences included. *)
Theorem find_all_indexes_occurrences `{BytesFind} (data pat : bytes) :
  find_all_indexes data pat = Some (occurrences data pat).
Proof. apply find_all_indexes_correct. Qed.

(** The contract of [findAll] (spec section 8): the loop returns a
    strictly ascending list whose elements are exactly the offsets [o]
    with [data[o:o+len(pat)] == pat]. *)
Theorem find_all_indexes_spec `{BytesFind} (data pat : bytes) :
  exists l, find_all_indexes data pat = Some l /\ StronglySorted lt l /\
    forall o, o ∈ l <-> occurs_at data pat o.
Proof.
  exists (occurrences data pat). split; [apply find_all_indexes_correct|].
  split; [apply occ_from_sorted|]. intros o. unfold occurrences.
  rewrite elem_of_occ_from. split; [tauto | split; [lia | done]].
Qed.

Lemma head_occ_from_iff data pat start o :
  head (occ_from data pat start) = Some o <->
  start <= o /\ occurs_at data pat o /\
    forall o', start <= o' < o -> ~ occurs_at data pat o'.
Proof.
  split.
  - intros Hh. destruct (occ_from_head _ _ _ _ Hh) as [Heq Hi].
    assert (o ∈ occ_from data pat start) as Ho by (rewrite Heq; set_solver).
    apply elem_of_occ_from in Ho.
    split; [lia|]. split; [tauto|]. intros o' Ho' Hocc.
    assert (o' ∈ occ_from data pat start) as Hin by (apply elem_of_occ_from; lia || tauto).
    rewrite Heq, elem_of_cons, elem_of_occ_from in Hin. lia.
  - intros (Hs & Ho & Hmin).
    destruct (occ_from data pat start) as [|i l] eqn:Heq.
    + assert (o ∈ occ_from data pat start) as Hin by (apply elem_of_occ_from; tauto).
      rewrite Heq in Hin. set_solver.
    + destruct (occ_from_head data pat start i) as [Heq' _]; [by rewrite Heq|].
      assert (i ∈ occ_from data pat start) as Hi by (rewrite Heq; set_solver).
      assert (o ∈ occ_from data pat start) as Hin by (apply elem_of_occ_from; tauto).
      apply elem_of_occ_from in Hi.
      rewrite Heq', elem_of_cons, elem_of_occ_from in Hin.
      destruct (decide (i < o)); [exfalso; apply (Hmin i); tauto || lia|].
      simpl. f_equal. lia.
Qed.

(** CPython's [data.find(pat, start)] returns the least offset at or
    after [start] where [pat] occurs, and only such an offset. *)
Theorem bytes_find_least (data pat : bytes) (start o : nat) :
  bytes_find data pat start = Some o <->
  start <= o /\ occurs_at data pat o /\
    forall o', start <= o' < o -> ~ occurs_at data pat o'.
Proof. rewrite bytes_find_first. apply head_occ_from_iff. Qed.
