(* ===== verification/Json.v ===== *)
(** * JSON documents of the save files (src/main.py, lines 140-142, 185-192, 203-210)

    The values [json.load] returns, the three Python operations the save
    editor applies to them ([d.get(k, default)], [k in d], [d[k] = v]),
    with the exceptions Python raises when the document is not an object,
    and the [JsonCodec] interface: what the program assumes of
    [json.load] and [json.dump]. *)

From S2P Require Import Prelude.
From Stdlib Require Import ZArith.

(** A JSON value as [json.load] builds it; an object keeps its keys in
    document order, as a Python dict does.  Floats are not modelled. *)
Inductive json :=
  | JNull
  | JBool (b : bool)
  | JInt (z : Z)
  | JStr (s : string)
  | JArr (l : list json)
  | JObj (kvs : list (string * json)).

(** Induction with hypotheses for the elements of arrays and objects. *)
Section JsonInd.
Variable P : json -> Prop.
Hypothesis HNull : P JNull.
Hypothesis HBool : forall b, P (JBool b).
Hypothesis HInt : forall z, P (JInt z).
Hypothesis HStr : forall s, P (JStr s).
Hypothesis HArr : forall l, Forall P l -> P (JArr l).
Hypothesis HObj : forall kvs, Forall (fun kv => P kv.2) kvs -> P (JObj kvs).

Fixpoint json_ind' (j : json) : P j :=
  match j with
  | JNull => HNull
  | JBool b => HBool b
  | JInt z => HInt z
  | JStr s => HStr s
  | JArr l => HArr l ((fix go (l : list json) : Forall P l :=
                        match l with
                        | [] => Forall_nil_2 _
                        | x :: l' => Forall_cons_2 _ _ _ (json_ind' x) (go l')
                        end) l)
  | JObj kvs => HObj kvs ((fix go (kvs : list (string * json)) : Forall (fun kv => P kv.2) kvs :=
                        match kvs with
                        | [] => Forall_nil_2 _
                        | kv :: kvs' => Forall_cons_2 _ _ _ (json_ind' kv.2) (go kvs')
                        end) kvs)
  end.
End JsonInd.

(** A Python dict has each key once, at every level: what [json.load]
    produces (a repeated key keeps its last value). *)
Fixpoint json_wf (j : json) : bool :=
  match j with
  | JArr l => forallb json_wf l
  | JObj kvs => bool_decide (NoDup kvs.*1) && forallb (fun kv => json_wf kv.2) kvs
  | _ => true
  end.

(** ** Python's operations on a loaded document *)

(** Substring test of [k in s] for a string [s]. *)
Fixpoint str_contains (k s : string) : bool :=
  String.prefix k s || match s with EmptyString => false | String _ s' => str_contains k s' end.

(** First value of key [k] in a dict. *)
Fixpoint dict_lookup (kvs : list (string * json)) (k : string) : option json :=
  match kvs with
  | [] => None
  | (k', v) :: kvs' => if decide (k' = k) then Some v else dict_lookup kvs' k
  end.

(** [d[k] = v] on a dict: replace in place, or add at the end. *)
Fixpoint dict_set (kvs : list (string * json)) (k : string) (v : json) : list (string * json) :=
  match kvs with
  | [] => [(k, v)]
  | (k', v') :: kvs' => if decide (k' = k) then (k', v) :: kvs' else (k', v') :: dict_set kvs' k v
  end.

(** [d.get(k, default)] (line 142): only a dict has [get]. *)
Definition py_get (d : json) (k : string) (default : json) : outcome json :=
  match d with
  | JObj kvs => Ok (match dict_lookup kvs k with Some v => v | None => default end)
  | _ => Raise AttributeError
  end.

(** [k in d] (lines 188, 206): key of a dict, element of a list,
    substring of a string; numbers, booleans and [None] are not
    iterable. *)
Definition py_contains (d : json) (k : string) : outcome bool :=
  match d with
  | JObj kvs => Ok (bool_decide (k ∈ kvs.*1))
  | JArr l => Ok (existsb (fun x => if x is JStr s then bool_decide (s = k) else false) l)
  | JStr s => Ok (str_contains k s)
  | _ => Raise TypeError
  end.

(** [d[k] = v] (lines 189, 207): only a dict accepts a string index. *)
Definition py_setitem (d : json) (k : string) (v : json) : outcome json :=
  match d with
  | JObj kvs => Ok (JObj (dict_set kvs k v))
  | _ => Raise TypeError
  end.

(** ** Lemmas on dicts *)

Lemma dict_set_keys kvs k v : k ∈ kvs.*1 -> (dict_set kvs k v).*1 = kvs.*1.
Proof.
  induction kvs as [|[k' v'] kvs IH]; simpl; [set_solver|].
  intros Hk. case_decide; simpl; [by subst|]. f_equal. apply IH.
  apply elem_of_cons in Hk as [->|]; [done|]. done.
Qed.

Lemma dict_set_keys_fresh kvs k v : k ∉ kvs.*1 -> (dict_set kvs k v).*1 = kvs.*1 ++ [k].
Proof.
  induction kvs as [|[k' v'] kvs IH]; simpl; [done|].
  intros Hk. rewrite decide_False by set_solver. simpl. f_equal. apply IH. set_solver.
Qed.

Lemma dict_lookup_set kvs k v k' :
  dict_lookup (dict_set kvs k v) k' = if decide (k = k') then Some v else dict_lookup kvs k'.
Proof.
  induction kvs as [|[k1 v1] kvs IH]; simpl; repeat case_decide; simpl;
    repeat case_decide; subst; done.
Qed.

Lemma dict_set_set kvs k v : dict_set (dict_set kvs k v) k v = dict_set kvs k v.
Proof.
  induction kvs as [|[k1 v1] kvs IH]; simpl; repeat case_decide; simpl;
    repeat case_decide; subst; try done; by rewrite IH.
Qed.

Lemma forallb_dict_set (f : json -> bool) kvs k v :
  forallb (fun kv => f kv.2) kvs = true -> f v = true ->
  forallb (fun kv => f kv.2) (dict_set kvs k v) = true.
Proof.
  induction kvs as [|[k1 v1] kvs IH]; simpl; intros Hall Hv; [by rewrite Hv|].
  apply andb_true_iff in Hall as [H1 H2].
  case_decide; simpl; apply andb_true_iff; auto.
Qed.

(** Setting a key of a well-formed dict keeps it well-formed. *)
Lemma json_wf_dict_set kvs k v :
  json_wf (JObj kvs) = true -> json_wf v = true -> json_wf (JObj (dict_set kvs k v)) = true.
Proof.
  simpl. intros [Hnd Hall]%andb_true_iff Hv. apply andb_true_iff. split.
  - apply bool_decide_eq_true. apply bool_decide_eq_true in Hnd.
    destruct (decide (k ∈ kvs.*1)).
    + by rewrite dict_set_keys.
    + rewrite dict_set_keys_fresh by done. apply NoDup_app. split; [done|].
      split; [set_solver|]. apply NoDup_singleton.
  - by apply forallb_dict_set.
Qed.

(** ** The codec interface *)

Class JsonCodec := {
  (** [json.load(f)] on the bytes of a file opened as UTF-8 text *)
  json_load : bytes -> outcome json;
  (** [json.dump(data, f, indent=4)]: the bytes written *)
  json_dump : json -> bytes;
  json_load_dump : forall j, json_wf j = true -> json_load (json_dump j) = Ok j;
  json_load_wf : forall b j, json_load b = Ok j -> json_wf j = true;
  json_load_error : forall b e, json_load b = Raise e ->
    e = JSONDecodeError \/ e = UnicodeDecodeError
}.

(** ** A model codec

    An instance of [JsonCodec] for running concrete examples: the value
    is serialised through stdpp's countable encoding instead of JSON
    text.  The theorems of the save editor hold for every instance. *)

From stdpp Require Import countable.

Fixpoint json_to_tree (j : json) : gen_tree (bool + (Z + string)) :=
  match j with
  | JNull => GenNode 0 []
  | JBool b => GenLeaf (inl b)
  | JInt z => GenLeaf (inr (inl z))
  | JStr s => GenLeaf (inr (inr s))
  | JArr l => GenNode 1 (map json_to_tree l)
  | JObj kvs => GenNode 2 (map (fun kv => GenNode 3 [GenLeaf (inr (inr kv.1)); json_to_tree kv.2]) kvs)
  end.

Fixpoint tree_to_json (t : gen_tree (bool + (Z + string))) : option json :=
  match t with
  | GenLeaf (inl b) => Some (JBool b)
  | GenLeaf (inr (inl z)) => Some (JInt z)
  | GenLeaf (inr (inr s)) => Some (JStr s)
  | GenNode 0 [] => Some JNull
  | GenNode 1 ts => JArr <$> mapM tree_to_json ts
  | GenNode 2 ts =>
      JObj <$> mapM (fun t => match t with
                             | GenNode 3 [GenLeaf (inr (inr k)); v] => pair k <$> tree_to_json v
                             | _ => None
                             end) ts
  | _ => None
  end.

Lemma tree_to_json_to_tree j : tree_to_json (json_to_tree j) = Some j.
Proof.
  induction j as [| | | |l IH|kvs IH] using json_ind'; try done; simpl.
  - by rewrite mapM_map_Some.
  - rewrite mapM_map_Some; [done|].
    apply Forall_forall. intros [k v] Hin. rewrite Forall_forall in IH.
    specialize (IH _ Hin). simpl in *. by rewrite IH.
Qed.

#[export] Instance json_eq_dec : EqDecision json.
Proof.
  intros x y. destruct (decide (json_to_tree x = json_to_tree y)) as [E|E].
  - left. apply (f_equal tree_to_json) in E. rewrite !tree_to_json_to_tree in E. congruence.
  - right. by intros ->.
Defined.

#[export] Instance json_countable : Countable json :=
  inj_countable json_to_tree tree_to_json tree_to_json_to_tree.

Fixpoint pos_to_bytes (p : positive) : bytes :=
  match p with
  | xH => [x01]
  | xO p' => x02 :: pos_to_bytes p'
  | xI p' => x03 :: pos_to_bytes p'
  end.

Fixpoint bytes_to_pos (b : bytes) : option positive :=
  match b with
  | [x01] => Some xH
  | x02 :: b' => xO <$> bytes_to_pos b'
  | x03 :: b' => xI <$> bytes_to_pos b'
  | _ => None
  end.

Lemma bytes_to_pos_to_bytes p : bytes_to_pos (pos_to_bytes p) = Some p.
Proof. induction p; simpl; rewrite ?IHp; try done; by destruct p. Qed.

Definition model_json_load (b : bytes) : outcome json :=
  match bytes_to_pos b ≫= decode with
  | Some j => if json_wf j then Ok j else Raise JSONDecodeError
  | None => Raise JSONDecodeError
  end.

Definition model_json_dump (j : json) : bytes := pos_to_bytes (encode j).

#[export] Program Instance model_json_codec : JsonCodec :=
  {| json_load := model_json_load; json_dump := model_json_dump |}.
Next Obligation.
  intros j Hwf. unfold model_json_load, model_json_dump.
  rewrite bytes_to_pos_to_bytes. simpl. rewrite decode_encode. by rewrite Hwf.
Qed.
Next Obligation.
  intros b j. unfold model_json_load.
  destruct (bytes_to_pos b ≫= decode) as [j'|]; [|done].
  destruct (json_wf j') eqn:Hw; [|done]. by intros [= <-].
Qed.
Next Obligation.
  intros b e. unfold model_json_load.
  destruct (bytes_to_pos b ≫= decode) as [j'|]; [destruct (json_wf j')|]; intros [= <-]; auto.
Qed.
