(* ===== verification/World.v ===== *)
(** * The state the program threads through the operating system

    The file system (a flat association list from component paths to
    files and directories, in the order [os.listdir] lists them), the
    Steam registry value read by [get_steam_install_path], the
    [APPDATA] variable, the lines typed at the console, the console
    output as a list of message events, and the log of [seek]+[write]
    calls.  Python's primitives used by src/main.py ([open], [read],
    [seek], [write], [print], [input], [os.path.exists],
    [os.path.isdir], [os.listdir]) are the operations of this file. *)

From S2P Require Import Prelude Json.
From Stdlib Require Import NArith.

(** A path as its components: [os.path.join(a, "b", "c")] is
    [a ++ ["b"; "c"]]. *)
Abbreviation path := (list string).

Inductive node :=
  | NFile (contents : bytes)
  | NDir.

#[export] Instance node_eq_dec : EqDecision node.
Proof. solve_decision. Defined.

(** One constructor per [print] of src/main.py, carrying the values the
    message formats. *)
Inductive msg :=
  | MsgSteamNotFound                        (* line 36 *)
  | MsgAssemblyNotFound                     (* line 44 *)
  | MsgPatternNotFound                      (* lines 55 and 68: same text *)
  | MsgOffsetNotFound                       (* line 81 *)
  | MsgModifiedLimit (offset : nat) (limit : N)   (* line 91 *)
  | MsgModifiedCrt (offset : nat) (limit : N)     (* line 98 *)
  | MsgSavesPath (p : path)                 (* line 111 *)
  | MsgNoSavesDir                           (* line 113 *)
  | MsgNoSteamId                            (* line 122 *)
  | MsgReadWarning (p : path)               (* line 145 *)
  | MsgNoSaves                              (* line 154 *)
  | MsgAvailable                            (* line 157 *)
  | MsgReturnOption                         (* line 158 *)
  | MsgSaveOption (i : nat) (org : json)    (* line 160 *)
  | MsgInvalidSelection                     (* line 168 *)
  | MsgClearedTrash (p : path)              (* line 194 *)
  | MsgTrashError (e : exc)                 (* line 197 *)
  | MsgClearedGenerated (p : path)          (* line 212 *)
  | MsgGeneratorError (p : path) (e : exc)  (* line 215 *)
  | MsgAllCleared                           (* line 217 *)
  | MsgBanner                               (* line 220 *)
  | MsgMenuLine (n : nat)                   (* lines 223-227, n = 0..4 *)
  | MsgSeparator                            (* line 229 *)
  | MsgInvalidInput                         (* line 232 *)
  | MsgExiting                              (* line 248 *)
  | MsgThanks                               (* line 249 *)
  | MsgPrompt (prompt : string).            (* the prompt [input] echoes *)

#[export] Instance msg_eq_dec : EqDecision msg.
Proof. solve_decision. Defined.

Record world := mkWorld {
  w_fs : list (path * node);
  (** [HKLM\SOFTWARE\WOW6432Node\Valve\Steam], value [InstallPath];
      [None] when the key or the value is missing *)
  w_steam_install : option path;
  (** [%APPDATA%]; [None] when the variable is not set *)
  w_appdata : option path;
  (** the lines still to be typed at the console *)
  w_stdin : list string;
  w_stdout : list msg;
  (** every [f.seek(off); f.write(data)], oldest first *)
  w_writes : list (path * nat * bytes)
}.

(** ** The file system as an association list *)

Fixpoint fs_lookup (fs : list (path * node)) (p : path) : option node :=
  match fs with
  | [] => None
  | (q, n) :: fs' => if decide (q = p) then Some n else fs_lookup fs' p
  end.

(** Replace the entry of [p] in place, or add it at the end. *)
Fixpoint fs_update (fs : list (path * node)) (p : path) (n : node) : list (path * node) :=
  match fs with
  | [] => [(p, n)]
  | (q, m) :: fs' => if decide (q = p) then (q, n) :: fs' else (q, m) :: fs_update fs' p n
  end.

(** [f.seek(off); f.write(data)] on a file opened ["r+b"]: overwrite in
    place, zero-fill a gap when [off] is past the end, extend the file
    when the write runs past it.  Never an insertion. *)
Definition write_at (contents : bytes) (off : nat) (data : bytes) : bytes :=
  take off contents ++ replicate (off - length contents) x00 ++ data
    ++ drop (off + length data) contents.

(** ** World updates *)

(** Append messages to the console and calls to the write log. *)
Definition log_io (w : world) (ms : list msg) (ws : list (path * nat * bytes)) : world :=
  mkWorld (w_fs w) (w_steam_install w) (w_appdata w) (w_stdin w)
    (w_stdout w ++ ms) (w_writes w ++ ws).

Definition add_stdout (m : msg) (w : world) : world := log_io w [m] [].

Definition set_fs (fs : list (path * node)) (w : world) : world :=
  mkWorld fs (w_steam_install w) (w_appdata w) (w_stdin w) (w_stdout w) (w_writes w).

Definition set_stdin (inp : list string) (w : world) : world :=
  mkWorld (w_fs w) (w_steam_install w) (w_appdata w) inp (w_stdout w) (w_writes w).

Definition set_file (p : path) (c : bytes) (off : nat) (data : bytes) (w : world) : world :=
  log_io (set_fs (fs_update (w_fs w) p (NFile c)) w) [] [(p, off, data)].

(** ** Python primitives as [PyM world] statements *)

(** [print(...)] *)
Definition print (m : msg) : PyM world unit := py_modify (add_stdout m).

(** [input(prompt)]: echo the prompt, take the next line; no line left
    raises [EOFError]. *)
Definition py_input (prompt : string) : PyM world string :=
  fun w =>
    let w' := add_stdout (MsgPrompt prompt) w in
    match w_stdin w with
    | [] => (Raise EOFError, w')
    | l :: ls => (Ok l, set_stdin ls w')
    end.

(** [os.path.exists(p)] *)
Definition path_exists (p : path) : PyM world bool :=
  fun w => (Ok (bool_decide (is_Some (fs_lookup (w_fs w) p))), w).

(** [os.path.isdir(p)] *)
Definition path_isdir (p : path) : PyM world bool :=
  fun w => (Ok (bool_decide (fs_lookup (w_fs w) p = Some NDir)), w).

(** The name of [q] when it is an entry of directory [d]. *)
Definition child_name (d q : path) : option string :=
  match drop (length d) q with
  | [x] => if decide (take (length d) q = d) then Some x else None
  | _ => None
  end.

(** [os.listdir(d)]: the names of the entries of [d], in file-system
    order. *)
Definition listdir (d : path) : PyM world (list string) :=
  fun w =>
    match fs_lookup (w_fs w) d with
    | Some NDir => (Ok (omap (fun e => child_name d e.1) (w_fs w)), w)
    | Some (NFile _) => (Raise NotADirectoryError, w)
    | None => (Raise FileNotFoundError, w)
    end.

(** [open(p, "rb")] or [open(p, "r+b")]: [None] is not a path
    ([TypeError]); a missing file raises [FileNotFoundError]; a directory
    raises [PermissionError] (Windows).  The handle is the path. *)
Definition open_file (p : option path) : PyM world path :=
  fun w =>
    match p with
    | None => (Raise TypeError, w)
    | Some q =>
        match fs_lookup (w_fs w) q with
        | Some (NFile _) => (Ok q, w)
        | Some NDir => (Raise PermissionError, w)
        | None => (Raise FileNotFoundError, w)
        end
    end.

(** [f.read()] on a handle opened ["rb"]. *)
Definition read_all (h : path) : PyM world bytes :=
  fun w =>
    match fs_lookup (w_fs w) h with
    | Some (NFile c) => (Ok c, w)
    | _ => (Raise IOError, w)
    end.

(** [open(p, "w")] then writing [data]: truncate or create the file; its
    directory must exist. *)
Definition write_file (p : path) (data : bytes) : PyM world unit :=
  fun w =>
    match fs_lookup (w_fs w) p with
    | Some NDir => (Raise PermissionError, w)
    | _ =>
        if decide (fs_lookup (w_fs w) (removelast p) = Some NDir)
        then (Ok tt, set_fs (fs_update (w_fs w) p (NFile data)) w)
        else (Raise FileNotFoundError, w)
    end.

(** [f.seek(off); f.write(data)] on a handle opened ["r+b"]. *)
Definition seek_write (h : path) (off : nat) (data : bytes) : PyM world unit :=
  fun w =>
    match fs_lookup (w_fs w) h with
    | Some (NFile c) => (Ok tt, set_file h (write_at c off data) off data w)
    | _ => (Raise IOError, w)
    end.

(** ** Lemmas on the file system and on writes *)

Lemma fs_lookup_update fs p n q :
  fs_lookup (fs_update fs p n) q = if decide (p = q) then Some n else fs_lookup fs q.
Proof.
  induction fs as [|[r m] fs IH]; simpl; repeat case_decide; simpl;
    repeat case_decide; subst; done.
Qed.

Lemma fs_update_id fs p n : fs_lookup fs p = Some n -> fs_update fs p n = fs.
Proof.
  induction fs as [|[r m] fs IH]; simpl; [done|].
  case_decide; [by intros [= ->] | intros Hl; by rewrite IH].
Qed.

#[export] Hint Rewrite fs_lookup_update : pyrw.

Lemma fs_lookup_is_Some fs q : is_Some (fs_lookup fs q) <-> q ∈ fs.*1.
Proof.
  induction fs as [|[r m] fs IH]; simpl; [split; [by intros []|set_solver]|].
  case_decide; subst; [split; [set_solver|eauto]|]. rewrite IH. set_solver.
Qed.

(** Overwriting an entry keeps the entries and their order. *)
Lemma fs_update_keys fs p n : is_Some (fs_lookup fs p) -> (fs_update fs p n).*1 = fs.*1.
Proof.
  induction fs as [|[r m] fs IH]; simpl; [by intros []|].
  case_decide; simpl; [done|]. intros Hp. f_equal. by apply IH.
Qed.

Lemma child_name_app d n : child_name d (d ++ [n]) = Some n.
Proof. unfold child_name. rewrite drop_app_length, take_app_length. by rewrite decide_True. Qed.

Lemma child_name_Some d q n : child_name d q = Some n -> q = d ++ [n].
Proof.
  unfold child_name. destruct (drop (length d) q) as [|x [|y r]] eqn:E; try done.
  case_decide as Ht; [|done]. intros [= <-]. by rewrite <-(take_drop (length d) q), Ht, E.
Qed.

(** ** Well-formed file systems

    What [os] presents: each path once, and every entry below the top
    level inside a directory. *)

Definition parent_ok (fs : list (path * node)) (p : path) : bool :=
  match p with
  | [] | [_] => true
  | _ => bool_decide (fs_lookup fs (removelast p) = Some NDir)
  end.

Definition fs_wf (fs : list (path * node)) : bool :=
  bool_decide (NoDup fs.*1) && forallb (parent_ok fs) fs.*1.

Lemma log_io_nil w : log_io w [] [] = w.
Proof. destruct w. unfold log_io. simpl. by rewrite !app_nil_r. Qed.

Lemma log_io_log_io w ms ws ms' ws' :
  log_io (log_io w ms ws) ms' ws' = log_io w (ms ++ ms') (ws ++ ws').
Proof. unfold log_io. simpl. by rewrite <-!app_assoc. Qed.

#[export] Hint Rewrite log_io_nil log_io_log_io : pyrw.

(** Writing bytes where they already are leaves the file as it was. *)
Lemma write_at_id (c data : bytes) (off : nat) :
  off <= length c -> data `prefix_of` drop off c -> write_at c off data = c.
Proof.
  intros Hoff [k Hk]. unfold write_at.
  replace (off - length c) with 0 by lia. simpl.
  rewrite <-drop_drop, Hk, drop_app_length, <-Hk. apply take_drop.
Qed.

Lemma write_at_lookup (c data : bytes) (off i : nat) :
  off <= length c ->
  write_at c off data !! i =
    if decide (off <= i < off + length data) then data !! (i - off) else c !! i.
Proof.
  intros Hoff. unfold write_at. replace (off - length c) with 0 by lia. simpl.
  case_decide.
  - rewrite lookup_app_r, length_take by (rewrite length_take; lia).
    rewrite lookup_app_l by lia. f_equal. lia.
  - destruct (decide (i < off)).
    + rewrite lookup_app_l by (rewrite length_take; lia). rewrite lookup_take; by case_decide.
    + rewrite lookup_app_r, length_take by (rewrite length_take; lia).
      rewrite lookup_app_r by lia. rewrite lookup_drop. f_equal. lia.
Qed.

Lemma length_write_at (c data : bytes) (off : nat) :
  off + length data <= length c -> length (write_at c off data) = length c.
Proof.
  intros H. unfold write_at. replace (off - length c) with 0 by lia.
  rewrite !length_app, length_take, length_drop. simpl. lia.
Qed.

(** [f.seek(off); f.write(data)] inside a file (lines 89-90, 96-97)
    is a pure overwrite: the file keeps its length, [data] can be read
    back at [off], and every byte outside [off, off + len(data)) is
    unchanged. *)
Theorem write_at_spec (c data : bytes) (off : nat) :
  off + length data <= length c ->
  length (write_at c off data) = length c /\
  take (length data) (drop off (write_at c off data)) = data /\
  forall i, ~ (off <= i < off + length data) -> write_at c off data !! i = c !! i.
Proof.
  intros H. split; [by apply length_write_at|]. split.
  - apply list_eq. intros i. rewrite lookup_take, lookup_drop, write_at_lookup by lia.
    repeat case_decide; try lia.
    + f_equal. lia.
    + symmetry. apply lookup_ge_None. lia.
  - intros i Hi. rewrite write_at_lookup by lia. by rewrite decide_False.
Qed.

(** [write_at_spec] at the first creation site of the specification's
    example buffer. *)
Lemma write_at_spec_witness :
  let c := [x00; x81; x78; x18; xd0; x07; x00; x00; x90] in
  let d := [x00; x81; x78; x18; x02; x00; x00; x00] in
  0 + length d <= length c /\
  length (write_at c 0 d) = length c /\
  take (length d) (drop 0 (write_at c 0 d)) = d /\
  (forall i, ~ (0 <= i < 0 + length d) -> write_at c 0 d !! i = c !! i).
Proof. intros c d. split; [simpl; lia|]. apply write_at_spec. simpl. lia. Defined.

(** Run a [PyM world] statement whose file lookups are given by [H]. *)
Ltac world_run H := py_unfold; repeat (rewrite H; simpl).

Lemma set_fs_id w : set_fs (w_fs w) w = w.
Proof. by destruct w. Qed.

Lemma w_fs_log_io w ms ws : w_fs (log_io w ms ws) = w_fs w.
Proof. done. Qed.

#[export] Hint Rewrite set_fs_id w_fs_log_io : pyrw.

(** ** Well-behaved statements

    A statement is well-behaved when it never runs out of fuel and only
    consumes console input (what is left is a suffix of what was there).
    The loops of [select_save] and [main] are given one iteration per
    console line, which is enough because every statement they run is
    well-behaved. *)

Definition wb {A} (m : PyM world A) : Prop :=
  forall w, fst (m w) <> Raise OutOfFuel /\ exists k, w_stdin (snd (m w)) = drop k (w_stdin w).

Create HintDb pywb discriminated.

Section WellBehaved.
Context {A B : Type}.

Lemma wb_ret (a : A) : wb (py_ret a).
Proof. intros w. split; [done|]. by exists 0. Qed.

Lemma wb_raise (e : exc) : e <> OutOfFuel -> wb (@py_raise world A e).
Proof. intros He w. split; [simpl; congruence|]. by exists 0. Qed.

Lemma wb_lift (o : outcome A) : o <> Raise OutOfFuel -> wb (py_lift o).
Proof. intros Ho w. split; [done|]. by exists 0. Qed.

Lemma wb_bind (m : PyM world A) (k : A -> PyM world B) :
  wb m -> (forall a, wb (k a)) -> wb (py_bind m k).
Proof.
  intros Hm Hk w. unfold py_bind. destruct (Hm w) as [Hm1 [i Hi]].
  destruct (m w) as [[a|e] w'] eqn:E; simpl in *.
  - destruct (Hk a w') as [Hk1 [j Hj]]. split; [done|].
    exists (i + j). by rewrite Hj, Hi, drop_drop.
    - split; [intros [= ->]; by apply Hm1|]. by exists i.
Qed.

Lemma wb_try (m : PyM world A) (c : exc -> bool) (h : exc -> PyM world A) :
  wb m -> (forall e, wb (h e)) -> wb (py_try_except m c h).
Proof.
  intros Hm Hh w. unfold py_try_except. destruct (Hm w) as [Hm1 [i Hi]].
  destruct (m w) as [[a|e] w'] eqn:E; simpl in *; [split; [done|]; by exists i|].
  destruct (c e); simpl; [|split; [done|]; by exists i].
  destruct (Hh e w') as [Hh1 [j Hj]]. split; [done|].
  exists (i + j). by rewrite Hj, Hi, drop_drop.
Qed.

Lemma wb_state (f : world -> A) (g : world -> world) :
  (forall w, w_stdin (g w) = w_stdin w) -> wb (fun w => (Ok (f w), g w)).
Proof. intros Hg w. split; [done|]. exists 0. simpl. by rewrite Hg. Qed.

Lemma wb_state_ok_or_raise (f : world -> outcome A) (g : world -> world) :
  (forall w, f w <> Raise OutOfFuel) -> (forall w, w_stdin (g w) = w_stdin w) ->
  wb (fun w => (f w, g w)).
Proof. intros Hf Hg w. split; [apply Hf|]. exists 0. simpl. by rewrite Hg. Qed.
End WellBehaved.

Lemma wb_for {A} (xs : list A) (body : A -> PyM world unit) :
  (forall x, wb (body x)) -> wb (py_for xs body).
Proof.
  intros Hb. induction xs as [|x xs IH]; simpl; [apply wb_ret|].
  by apply wb_bind.
Qed.

Lemma wb_print m : wb (print m).
Proof. by apply wb_state. Qed.

Lemma wb_input prompt : wb (py_input prompt).
Proof.
  intros w. unfold py_input. destruct (w_stdin w) as [|l ls] eqn:E; simpl.
  - split; [done|]. exists 0. unfold add_stdout, log_io. simpl. by rewrite E.
  - split; [done|]. exists 1. done.
Qed.

Lemma wb_path_exists p : wb (path_exists p).
Proof. by apply wb_state. Qed.

Lemma wb_path_isdir p : wb (path_isdir p).
Proof. by apply wb_state. Qed.

Lemma wb_listdir d : wb (listdir d).
Proof.
  intros w. unfold listdir. split; [by destruct (fs_lookup _ _) as [[]|]|].
  exists 0. by destruct (fs_lookup _ _) as [[]|].
Qed.

Lemma wb_open_file p : wb (open_file p).
Proof.
  intros w. unfold open_file. split; [by destruct p; [destruct (fs_lookup _ _) as [[]|]|]|].
  exists 0. by destruct p; [destruct (fs_lookup _ _) as [[]|]|].
Qed.

Lemma wb_read_all h : wb (read_all h).
Proof.
  intros w. unfold read_all. split; [by destruct (fs_lookup _ _) as [[]|]|].
  exists 0. by destruct (fs_lookup _ _) as [[]|].
Qed.

Lemma wb_seek_write h off data : wb (seek_write h off data).
Proof.
  intros w. unfold seek_write. split; [by destruct (fs_lookup _ _) as [[]|]|].
  exists 0. by destruct (fs_lookup _ _) as [[]|].
Qed.

Lemma wb_write_file p data : wb (write_file p data).
Proof.
  intros w. unfold write_file.
  split; [destruct (fs_lookup _ _) as [[]|]; try done; by case_decide|].
  exists 0. destruct (fs_lookup _ _) as [[]|]; try done; by case_decide.
Qed.

#[export] Hint Resolve wb_ret wb_print wb_input wb_path_exists wb_path_isdir wb_listdir
  wb_open_file wb_read_all wb_seek_write wb_write_file : pywb.

(** Prove [wb] of a statement built from the primitives: follow binds,
    loops, handlers and case splits. *)
Ltac solve_wb :=
  repeat match goal with
  | |- wb (py_bind _ _) => apply wb_bind; intros
  | |- wb (py_try_except _ _ _) => apply wb_try; intros
  | |- wb (py_for _ _) => apply wb_for; intros
  | |- wb (match ?x with _ => _ end) => destruct x
  | |- wb (if ?b then _ else _) => destruct b
  | |- wb (py_raise _) => apply wb_raise; discriminate
  | |- wb _ => eauto with pywb
  end.

Lemma set_stdin_log_io r w ms ws : set_stdin r (log_io w ms ws) = log_io (set_stdin r w) ms ws.
Proof. done. Qed.

Lemma add_stdout_log_io m w : add_stdout m w = log_io w [m] [].
Proof. done. Qed.

#[export] Hint Rewrite set_stdin_log_io add_stdout_log_io : pyrw.

Lemma py_input_run prompt w l ls :
  w_stdin w = l :: ls ->
  py_input prompt w = (Ok l, log_io (set_stdin ls w) [MsgPrompt prompt] []).
Proof. intros Hin. unfold py_input. by rewrite Hin. Qed.

Lemma parent_ok_update fs p c c' q :
  fs_lookup fs p = Some (NFile c) -> parent_ok (fs_update fs p (NFile c')) q = parent_ok fs q.
Proof.
  intros Hp. destruct q as [|x [|y q]]; simpl; try done.
  apply bool_decide_ext. rewrite fs_lookup_update. case_decide as E; [|done].
  rewrite <-E, Hp. split; discriminate.
Qed.

(** Overwriting a file keeps a file system well formed. *)
Lemma fs_wf_update fs p c c' :
  fs_lookup fs p = Some (NFile c) -> fs_wf (fs_update fs p (NFile c')) = fs_wf fs.
Proof.
  intros Hp. unfold fs_wf. rewrite fs_update_keys by (rewrite Hp; eauto). f_equal.
  induction fs.*1 as [|q qs IH]; simpl; [done|]. by rewrite IH, (parent_ok_update _ _ c).
Qed.

Lemma fs_wf_parent fs q :
  fs_wf fs = true -> q ∈ fs.*1 -> 2 <= length q -> fs_lookup fs (removelast q) = Some NDir.
Proof.
  unfold fs_wf. intros [_ Hall]%andb_true_iff Hq Hl.
  pose proof (proj1 (forallb_forall _ _) Hall q (proj1 (list_elem_of_In _ _) Hq)) as Hp.
  destruct q as [|x [|y q]]; simpl in Hl; try lia. by apply bool_decide_eq_true in Hp.
Qed.

Lemma fs_wf_nodup fs : fs_wf fs = true -> NoDup fs.*1.
Proof. unfold fs_wf. by intros [?%bool_decide_eq_true _]%andb_true_iff. Qed.
