(* ===== verification/Patcher.v ===== *)
(** * BinaryPatcher and GameLocator (src/main.py, lines 22-103)

    [find_pattern], [find_all_patterns], [modify_trash_limit],
    [permanent_trash_gen], [get_steam_install_path] and
    [get_game_assembly_path] as [PyM world] statements, proved against
    the [BytesFind] interface of [ByteFind.v]. *)

From S2P Require Import Prelude Patterns ByteFind World.
From Stdlib Require Import NArith.

Section Patcher.
Context `{BytesFind}.

(** Lines 50-57. *)
Definition find_pattern (dll_path : option path) (pattern : bytes) : PyM world (option nat) :=
  let* f := open_file dll_path in
  let* data := read_all f in
  match bfind data pattern 0 with
  | None =>
      let* _ := print MsgPatternNotFound in
      py_ret None
  | Some index => py_ret (Some index)
  end.

(** Lines 59-70; the loop is [find_all_indexes]. *)
Definition find_all_patterns (dll_path : option path) (pattern : bytes)
    : PyM world (option (list nat)) :=
  let* f := open_file dll_path in
  let* data := read_all f in
  match find_all_indexes data pattern with
  | None => py_raise OutOfFuel
  | Some [] =>
      let* _ := print MsgPatternNotFound in
      py_ret None
  | Some indexes => py_ret (Some indexes)
  end.

(** Lines 94-98: the body of [for off in crt_offsets]. *)
Definition write_crt_sites (f : path) (crt_offsets : list nat) (pattern : bytes)
    (actual_limit : N) : PyM world unit :=
  py_for crt_offsets (fun off =>
    let* _ := seek_write f off pattern in
    print (MsgModifiedCrt off actual_limit)).

(** Lines 73-98.  [if not offset or not crt_offsets] is false exactly
    when [offset] is a non-zero int and [crt_offsets] a non-empty
    list. *)
Definition modify_trash_limit (dll_path : option path) (limit : bool) : PyM world unit :=
  let trash_limit_pattern := trash_limit_pattern_of limit in
  let trash_crt_pattern := trash_crt_pattern_of limit in
  let* offset := find_pattern dll_path trash_limit_pattern in
  let* crt_offsets := find_all_patterns dll_path trash_crt_pattern in
  match offset, crt_offsets with
  | Some (S _ as off), Some ((_ :: _) as offs) =>
      let actual_limit := actual_limit_of limit in
      let* f := open_file dll_path in
      let* _ := seek_write f off trash_limit_pattern in
      let* _ := print (MsgModifiedLimit off actual_limit) in
      let* f := open_file dll_path in
      write_crt_sites f offs trash_crt_pattern actual_limit
  | _, _ => print MsgOffsetNotFound
  end.
End Patcher.

(** Lines 22-28: [None] when the registry key or value is missing. *)
Definition get_steam_install_path : PyM world (option path) :=
  fun w => (Ok (w_steam_install w), w).

(** The location of the DLL under the Steam directory (line 40). *)
Definition game_assembly_of (steam_path : path) : path :=
  steam_path ++ ["steamapps"; "common"; "Schedule I"; "GameAssembly.dll"].

(** Lines 30-47.  [if not steam_path] also rejects the empty string,
    modelled as the empty path. *)
Definition get_game_assembly_path : PyM world (option path) :=
  let* steam_path := get_steam_install_path in
  match steam_path with
  | None | Some [] =>
      let* _ := print MsgSteamNotFound in
      py_ret None
  | Some sp =>
      let game_assembly_path := game_assembly_of sp in
      let* ex := path_exists game_assembly_path in
      if ex then py_ret (Some game_assembly_path)
      else
        let* _ := print MsgAssemblyNotFound in
        py_ret None
  end.

(** Lines 100-103. *)
Definition permanent_trash_gen `{BytesFind} (limit : bool) : PyM world unit :=
  let* p := get_game_assembly_path in
  let* _ := modify_trash_limit p limit in
  py_ret tt.

(** ** Running the patcher on a world where the DLL is a file *)

(** The messages [modify_trash_limit] prints when the DLL holds [c]:
    the report of spec section 4.3, as the code produces it. *)
Definition patch_messages `{BytesFind} (c : bytes) (limit : bool) : list msg :=
  let off := bfind c (trash_limit_pattern_of limit) 0 in
  let occ := occurrences c (trash_crt_pattern_of limit) in
  (if off is None then [MsgPatternNotFound] else []) ++
  (if occ is [] then [MsgPatternNotFound] else []) ++
  match off, occ with
  | Some (S k), _ :: _ =>
      MsgModifiedLimit (S k) (actual_limit_of limit)
        :: map (fun o => MsgModifiedCrt o (actual_limit_of limit)) occ
  | _, _ => [MsgOffsetNotFound]
  end.

(** The [seek]+[write] calls it makes, in order. *)
Definition patch_writes `{BytesFind} (p : path) (c : bytes) (limit : bool)
    : list (path * nat * bytes) :=
  let off := bfind c (trash_limit_pattern_of limit) 0 in
  let occ := occurrences c (trash_crt_pattern_of limit) in
  match off, occ with
  | Some (S k), _ :: _ =>
      (p, S k, trash_limit_pattern_of limit)
        :: map (fun o => (p, o, trash_crt_pattern_of limit)) occ
  | _, _ => []
  end.

Section Run.
Context `{BytesFind}.

Lemma find_pattern_run p c pat w :
  fs_lookup (w_fs w) p = Some (NFile c) ->
  find_pattern (Some p) pat w =
    match bfind c pat 0 with
    | None => (Ok None, add_stdout MsgPatternNotFound w)
    | Some i => (Ok (Some i), w)
    end.
Proof.
  intros Hp. unfold find_pattern, open_file, read_all, print. py_unfold.
  world_run Hp. by destruct (bfind c pat 0).
Qed.

Lemma find_all_patterns_run p c pat w :
  fs_lookup (w_fs w) p = Some (NFile c) ->
  find_all_patterns (Some p) pat w =
    match occurrences c pat with
    | [] => (Ok None, add_stdout MsgPatternNotFound w)
    | l => (Ok (Some l), w)
    end.
Proof.
  intros Hp. unfold find_all_patterns, open_file, read_all, print. py_unfold.
  world_run Hp. rewrite find_all_indexes_correct. by destruct (occurrences c pat).
Qed.

Lemma bfind_occurs data pat o i : bfind data pat o = Some i -> occurs_at data pat i.
Proof. rewrite bfind_first, head_occ_from_iff. tauto. Qed.

Lemma occurrences_occur data pat : Forall (occurs_at data pat) (occurrences data pat).
Proof. apply Forall_forall. intros x Hx. apply elem_of_occ_from in Hx. tauto. Qed.

Lemma open_file_run p c w :
  fs_lookup (w_fs w) p = Some (NFile c) -> open_file (Some p) w = (Ok p, w).
Proof. intros Hp. unfold open_file. by rewrite Hp. Qed.

Lemma print_run m w : print m w = (Ok tt, add_stdout m w).
Proof. reflexivity. Qed.

(** A write of bytes already in place only logs the call. *)
Lemma seek_write_in_place p c off pat w :
  fs_lookup (w_fs w) p = Some (NFile c) -> occurs_at c pat off ->
  seek_write p off pat w =
    (Ok tt, log_io w [] [(p, off, pat)]).
Proof.
  intros Hp [Hoff Hpre]. unfold seek_write, set_file. rewrite Hp.
  rewrite write_at_id, fs_update_id by done. by rewrite set_fs_id.
Qed.

Lemma write_crt_sites_run p c offs pat lim w :
  fs_lookup (w_fs w) p = Some (NFile c) ->
  Forall (occurs_at c pat) offs ->
  write_crt_sites p offs pat lim w =
    (Ok tt, log_io w (map (fun o => MsgModifiedCrt o lim) offs)
              (map (fun o => (p, o, pat)) offs)).
Proof.
  revert w. induction offs as [|o offs IH]; intros w Hp Hocc.
  - by rewrite log_io_nil.
  - inv Hocc. unfold write_crt_sites. simpl. py_unfold.
    rewrite (seek_write_in_place p c) by done.
    unfold print, py_modify, add_stdout.
    match goal with |- context [py_for offs ?b ?w'] =>
      change (py_for offs b w') with (write_crt_sites p offs pat lim w') end.
    rewrite IH by done. by autorewrite with pyrw.
Qed.

(** Steps of [modify_trash_limit] after both lookups. *)
Lemma modify_tail_run p c w off offs limit :
  fs_lookup (w_fs w) p = Some (NFile c) ->
  occurs_at c (trash_limit_pattern_of limit) off ->
  Forall (occurs_at c (trash_crt_pattern_of limit)) offs ->
  (let* f := open_file (Some p) in
   let* _ := seek_write f off (trash_limit_pattern_of limit) in
   let* _ := print (MsgModifiedLimit off (actual_limit_of limit)) in
   let* f := open_file (Some p) in
   write_crt_sites f offs (trash_crt_pattern_of limit) (actual_limit_of limit)) w =
  (Ok tt, log_io w (MsgModifiedLimit off (actual_limit_of limit)
                       :: map (fun o => MsgModifiedCrt o (actual_limit_of limit)) offs)
            ((p, off, trash_limit_pattern_of limit)
               :: map (fun o => (p, o, trash_crt_pattern_of limit)) offs)).
Proof.
  intros Hp Hoff Hoffs.
  rewrite (py_bind_Ok _ _ _ p w) by (by eapply open_file_run).
  rewrite (py_bind_Ok _ _ _ tt _) by (by eapply seek_write_in_place).
  rewrite (py_bind_Ok _ _ _ tt _) by apply print_run.
  rewrite (py_bind_Ok _ _ _ p _) by (by eapply open_file_run).
  rewrite (write_crt_sites_run _ c) by done.
  unfold add_stdout. by autorewrite with pyrw.
Qed.
End Run.

(** ** Properties of the patcher *)

Lemma modify_trash_limit_outputs `{BytesFind} (p : path) (limit : bool) (c : bytes) (w : world) :
  fs_lookup (w_fs w) p = Some (NFile c) ->
  modify_trash_limit (Some p) limit w =
    (Ok tt, log_io w (patch_messages c limit) (patch_writes p c limit)).
Proof.
  intros Hp. unfold modify_trash_limit, patch_messages, patch_writes.
  unfold py_bind at 1. rewrite (find_pattern_run p c) by done.
  destruct (bfind c (trash_limit_pattern_of limit) 0) as [[|k]|] eqn:Hf;
    unfold py_bind at 1; rewrite (find_all_patterns_run p c) by exact Hp;
    destruct (occurrences c (trash_crt_pattern_of limit)) as [|o os] eqn:Ho; simpl;
    try (rewrite !print_run; unfold add_stdout; by autorewrite with pyrw).
  etransitivity; [apply (modify_tail_run p c) | done];
    [done | by eapply bfind_occurs | rewrite <-Ho; apply occurrences_occur].
Qed.

(** C2. Behaviour of [modify_trash_limit] (lines 73-98) on every branch,
    when the DLL is a file holding [c]: it prints [patch_messages c
    limit] (a "not found" line for each failed lookup, then either
    "Offset not found" or one line per patched site) and makes exactly
    the writes [patch_writes p c limit], in that order; the file system
    is left as it was. *)
Theorem modify_trash_limit_run `{BytesFind} (p : path) (limit : bool) (c : bytes) (w : world) :
  fs_lookup (w_fs w) p = Some (NFile c) ->
  modify_trash_limit (Some p) limit w =
    (Ok tt, log_io w (patch_messages c limit) (patch_writes p c limit)).
Proof. apply modify_trash_limit_outputs. Qed.

(** C3. Whatever the world, [modify_trash_limit] never changes a byte of
    any file: it searches for the very template it then writes (lines
    74-77, 90, 97), so every write puts back the bytes already there, and
    "Disable trash generation" cannot turn 2000 into 2. *)
Theorem modify_trash_limit_preserves_fs `{BytesFind} (dll_path : option path)
    (limit : bool) (w : world) :
  w_fs (snd (modify_trash_limit dll_path limit w)) = w_fs w.
Proof.
  destruct dll_path as [p|]; [|done].
  destruct (fs_lookup (w_fs w) p) as [[c|]|] eqn:Hp.
  - by rewrite (modify_trash_limit_outputs p limit c).
  - unfold modify_trash_limit, find_pattern, open_file. py_unfold. by rewrite Hp.
  - unfold modify_trash_limit, find_pattern, open_file. py_unfold. by rewrite Hp.
Qed.

(** C4. Both lookups happen before any write: when the single-site
    template is absent or the creation-site template occurs nowhere, no
    [seek]+[write] is made and the last line printed is "Offset not
    found". *)
Theorem modify_trash_limit_no_partial_write `{BytesFind} (p : path) (limit : bool)
    (c : bytes) (w : world) :
  fs_lookup (w_fs w) p = Some (NFile c) ->
  bfind c (trash_limit_pattern_of limit) 0 = None \/
    occurrences c (trash_crt_pattern_of limit) = [] ->
  w_writes (snd (modify_trash_limit (Some p) limit w)) = w_writes w /\
  last (w_stdout (snd (modify_trash_limit (Some p) limit w))) = Some MsgOffsetNotFound.
Proof.
  intros Hp Hmiss. rewrite (modify_trash_limit_outputs p limit c) by done. simpl.
  unfold patch_writes, patch_messages.
  destruct (bfind c (trash_limit_pattern_of limit) 0) as [[|k]|],
    (occurrences c (trash_crt_pattern_of limit)) as [|o os];
    destruct Hmiss as [Hm|Hm]; try discriminate Hm; simpl;
    rewrite ?app_nil_r; autorewrite with pyrw; done.
Qed.

(** C5. [if not offset] (line 80) treats offset 0 as "not found": when
    the single-site template begins the file, nothing is written and
    "Offset not found" is printed, even though the template was found. *)
Theorem modify_trash_limit_offset_zero `{BytesFind} (p : path) (limit : bool)
    (c : bytes) (w : world) :
  fs_lookup (w_fs w) p = Some (NFile c) ->
  occurs_at c (trash_limit_pattern_of limit) 0 ->
  w_writes (snd (modify_trash_limit (Some p) limit w)) = w_writes w /\
  last (w_stdout (snd (modify_trash_limit (Some p) limit w))) = Some MsgOffsetNotFound.
Proof.
  intros Hp Hocc. rewrite (modify_trash_limit_outputs p limit c) by done. simpl.
  assert (bfind c (trash_limit_pattern_of limit) 0 = Some 0) as Hf.
  { rewrite bfind_first, head_occ_from_iff. split; [lia|]. split; [done|]. lia. }
  unfold patch_writes, patch_messages. rewrite Hf.
  destruct (occurrences _ _); simpl; rewrite ?app_nil_r; autorewrite with pyrw; done.
Qed.

(** C6. [find_pattern] returns the first of the offsets
    [find_all_patterns] returns (spec section 8), and each fails exactly
    when the other does. *)
Theorem find_pattern_first_of_all `{BytesFind} (p : path) (pat : bytes) (c : bytes) (w : world) :
  fs_lookup (w_fs w) p = Some (NFile c) ->
  fst (find_pattern (Some p) pat w) = Ok (head (occurrences c pat)) /\
  fst (find_all_patterns (Some p) pat w) =
    Ok (match occurrences c pat with [] => None | l => Some l end).
Proof.
  intros Hp. rewrite (find_pattern_run p c), (find_all_patterns_run p c) by done.
  rewrite bfind_first. unfold occurrences.
  by destruct (occ_from c pat 0).
Qed.

Lemma permanent_trash_gen_no_path `{BytesFind} (limit : bool) (w : world) :
  (forall sp, w_steam_install w = Some sp -> sp <> [] ->
     fs_lookup (w_fs w) (game_assembly_of sp) = None) ->
  fst (permanent_trash_gen limit w) = Raise TypeError /\
  w_writes (snd (permanent_trash_gen limit w)) = w_writes w.
Proof.
  intros Hmiss. unfold permanent_trash_gen, get_game_assembly_path,
    get_steam_install_path, path_exists.
  py_unfold. simpl. destruct (w_steam_install w) as [[|d sp]|] eqn:Hs; simpl;
    [| rewrite Hmiss by done; simpl |]; split; try done; apply app_nil_r.
Qed.

(** C7. When the game cannot be located (no Steam registry value, an
    empty one, or no GameAssembly.dll under it), [permanent_trash_gen]
    passes [None] to [modify_trash_limit], whose [open(None, "rb")]
    raises [TypeError]: the menu crashes instead of reporting the
    missing game, and nothing is written. *)
Theorem permanent_trash_gen_not_installed `{BytesFind} (limit : bool) (w : world) :
  (forall sp, w_steam_install w = Some sp -> sp <> [] ->
     fs_lookup (w_fs w) (game_assembly_of sp) = None) ->
  fst (permanent_trash_gen limit w) = Raise TypeError /\
  w_writes (snd (permanent_trash_gen limit w)) = w_writes w.
Proof. apply permanent_trash_gen_no_path. Qed.

(** ** GameLocator against its contract (spec section 6) *)

(** [resolveBinaryPath() -> path | NotFound], as the code promises it:
    only the console changes; a path returned is [GameAssembly.dll] under
    the registry's (non-empty) Steam folder and exists; [None] comes with
    exactly one failure line, and only when no such file exists. *)
Definition locator_spec (w : world) (r : option path) (w' : world) : Prop :=
  w_fs w' = w_fs w /\ w_stdin w' = w_stdin w /\ w_writes w' = w_writes w /\
  match r with
  | Some p =>
      (exists sp, w_steam_install w = Some sp /\ sp <> [] /\ p = game_assembly_of sp) /\
      is_Some (fs_lookup (w_fs w) p) /\ w_stdout w' = w_stdout w
  | None =>
      (forall sp, w_steam_install w = Some sp -> sp <> [] ->
         fs_lookup (w_fs w) (game_assembly_of sp) = None) /\
      exists m, m ∈ [MsgSteamNotFound; MsgAssemblyNotFound] /\ w_stdout w' = w_stdout w ++ [m]
  end.

(** C27. [get_game_assembly_path] (lines 30-47) implements the
    GameLocator contract: it never raises, and its result and the world
    it leaves satisfy [locator_spec]. *)
Theorem get_game_assembly_path_refines (w : world) :
  exists r, fst (get_game_assembly_path w) = Ok r /\
            locator_spec w r (snd (get_game_assembly_path w)).
Proof.
  unfold get_game_assembly_path, get_steam_install_path, path_exists, locator_spec.
  py_unfold. simpl.
  destruct (w_steam_install w) as [[|d sp]|] eqn:Hs; simpl.
  - eexists; split; [done|]. rewrite !app_nil_r. do 3 (split; [done|]).
    split; [intros sp' [= <-]; done|]. eexists; split; [by left|done].
  - case_bool_decide as Hex; simpl; eexists; (split; [done|]); rewrite ?app_nil_r;
      do 3 (split; [done|]).
    + split; [|done]. by eexists.
    + split; [|eexists; split; [by right; left|done]].
      intros sp' [= <-] _. by destruct (fs_lookup _ _); [destruct Hex|].
  - eexists; split; [done|]. rewrite !app_nil_r. do 3 (split; [done|]).
    split; [done|]. eexists; split; [by left|done].
Qed.

(** A second run repeats the first (spec sections 4.2 and 4.3
    expect "nothing to patch"): since the first run left the DLL as it
    was, running [modify_trash_limit] again with the same request prints
    the same report and makes the same writes again. *)
Theorem modify_trash_limit_rerun `{BytesFind} (p : path) (limit : bool) (c : bytes) (w : world) :
  fs_lookup (w_fs w) p = Some (NFile c) ->
  let w1 := snd (modify_trash_limit (Some p) limit w) in
  modify_trash_limit (Some p) limit w1 =
    (Ok tt, log_io w1 (patch_messages c limit) (patch_writes p c limit)).
Proof.
  intros Hp w1. apply modify_trash_limit_outputs.
  subst w1. by rewrite (modify_trash_limit_outputs p limit c).
Qed.

(** ** The specification's end-to-end example, and witnesses *)

Definition example_dll_path : path :=
  ["C:"; "Steam"; "steamapps"; "common"; "Schedule I"; "GameAssembly.dll"].

(** [81 FB D0 07 00 00] once (offset 1) and [00 81 78 18 D0 07 00 00]
    three times (offsets 8, 17 and 24; the last two share a zero byte). *)
Definition example_dll : bytes :=
  [x90] ++ TRASH_LIMIT_PATTERN ++ [x90] ++ TRASH_CRT_PATTERN ++ [x90]
    ++ TRASH_CRT_PATTERN ++ drop 1 TRASH_CRT_PATTERN.

Definition example_world (dll : bytes) : world :=
  mkWorld [(["C:"; "Steam"], NDir); (example_dll_path, NFile dll)]
    (Some ["C:"; "Steam"]) None [] [] [].

(** The specification's end-to-end example (section 8) does not
    hold of the code: asked for [Limited] ([limit = True], menu option 2)
    on a buffer holding the original templates, [modify_trash_limit]
    looks for the modified templates, finds neither, prints two "not
    found" lines and "Offset not found", and writes nothing. *)
Example spec_example_limited :
  modify_trash_limit (Some example_dll_path) true (example_world example_dll) =
    (Ok tt, log_io (example_world example_dll)
              [MsgPatternNotFound; MsgPatternNotFound; MsgOffsetNotFound] []).
Proof. vm_compute. reflexivity. Qed.

Lemma modify_trash_limit_run_witness :
  fs_lookup (w_fs (example_world example_dll)) example_dll_path = Some (NFile example_dll) /\
  modify_trash_limit (Some example_dll_path) false (example_world example_dll) =
    (Ok tt, log_io (example_world example_dll) (patch_messages example_dll false)
              (patch_writes example_dll_path example_dll false)).
Proof. split; [reflexivity|]. apply modify_trash_limit_run. reflexivity. Defined.

Lemma modify_trash_limit_no_partial_write_witness :
  fs_lookup (w_fs (example_world example_dll)) example_dll_path = Some (NFile example_dll) /\
  (bfind example_dll (trash_limit_pattern_of true) 0 = None \/
     occurrences example_dll (trash_crt_pattern_of true) = []) /\
  w_writes (snd (modify_trash_limit (Some example_dll_path) true (example_world example_dll))) = [] /\
  last (w_stdout (snd (modify_trash_limit (Some example_dll_path) true (example_world example_dll))))
    = Some MsgOffsetNotFound.
Proof.
  assert (Hp : fs_lookup (w_fs (example_world example_dll)) example_dll_path
                 = Some (NFile example_dll)) by reflexivity.
  assert (Hm : bfind example_dll (trash_limit_pattern_of true) 0 = None)
    by (vm_compute; reflexivity).
  split; [done|]. split; [by left|].
  apply (modify_trash_limit_no_partial_write example_dll_path true example_dll _ Hp).
  by left.
Defined.

Lemma modify_trash_limit_offset_zero_witness :
  let dll := TRASH_LIMIT_PATTERN ++ TRASH_CRT_PATTERN in
  fs_lookup (w_fs (example_world dll)) example_dll_path = Some (NFile dll) /\
  occurs_at dll (trash_limit_pattern_of false) 0 /\
  w_writes (snd (modify_trash_limit (Some example_dll_path) false (example_world dll))) = [] /\
  last (w_stdout (snd (modify_trash_limit (Some example_dll_path) false (example_world dll))))
    = Some MsgOffsetNotFound.
Proof.
  intros dll.
  assert (Hp : fs_lookup (w_fs (example_world dll)) example_dll_path = Some (NFile dll))
    by reflexivity.
  assert (Ho : occurs_at dll (trash_limit_pattern_of false) 0).
  { split; [simpl; lia | exists TRASH_CRT_PATTERN; reflexivity]. }
  split; [done|]. split; [done|].
  exact (modify_trash_limit_offset_zero example_dll_path false dll _ Hp Ho).
Defined.

Lemma find_pattern_first_of_all_witness :
  fs_lookup (w_fs (example_world example_dll)) example_dll_path = Some (NFile example_dll) /\
  fst (find_pattern (Some example_dll_path) TRASH_CRT_PATTERN (example_world example_dll))
    = Ok (head (occurrences example_dll TRASH_CRT_PATTERN)) /\
  fst (find_all_patterns (Some example_dll_path) TRASH_CRT_PATTERN (example_world example_dll))
    = Ok (match occurrences example_dll TRASH_CRT_PATTERN with [] => None | l => Some l end).
Proof. split; [reflexivity|]. apply find_pattern_first_of_all. reflexivity. Defined.

Lemma permanent_trash_gen_not_installed_witness :
  let w := mkWorld [(example_dll_path, NFile example_dll)] None None [] [] [] in
  (forall sp, w_steam_install w = Some sp -> sp <> [] ->
     fs_lookup (w_fs w) (game_assembly_of sp) = None) /\
  fst (permanent_trash_gen true w) = Raise TypeError /\
  w_writes (snd (permanent_trash_gen true w)) = w_writes w.
Proof.
  intros w. assert (Hw : forall sp, w_steam_install w = Some sp -> sp <> [] ->
     fs_lookup (w_fs w) (game_assembly_of sp) = None) by (intros sp Hsp; discriminate Hsp).
  split; [done|]. exact (permanent_trash_gen_not_installed true w Hw).
Defined.

(** ** The patcher never runs out of fuel and reads no console input *)

Lemma wb_find_all_patterns `{BytesFind} p pat : wb (find_all_patterns p pat).
Proof.
  unfold find_all_patterns.
  apply wb_bind; [solve_wb | intros f]. apply wb_bind; [solve_wb | intros data].
  rewrite find_all_indexes_correct. destruct (occurrences _ _) as [|? [|]]; solve_wb.
Qed.

Lemma wb_get_game_assembly_path : wb get_game_assembly_path.
Proof.
  unfold get_game_assembly_path, get_steam_install_path.
  apply wb_bind; [by apply wb_state|]. intros [[|]|]; solve_wb.
Qed.

#[export] Hint Resolve wb_find_all_patterns wb_get_game_assembly_path : pywb.

Lemma wb_permanent_trash_gen `{BytesFind} limit : wb (permanent_trash_gen limit).
Proof.
  unfold permanent_trash_gen, modify_trash_limit, find_pattern, write_crt_sites.
  solve_wb.
Qed.

#[export] Hint Resolve wb_permanent_trash_gen : pywb.

Lemma modify_trash_limit_rerun_witness :
  fs_lookup (w_fs (example_world example_dll)) example_dll_path = Some (NFile example_dll) /\
  modify_trash_limit (Some example_dll_path) false
    (snd (modify_trash_limit (Some example_dll_path) false (example_world example_dll))) =
    (Ok tt, log_io (snd (modify_trash_limit (Some example_dll_path) false (example_world example_dll)))
              (patch_messages example_dll false) (patch_writes example_dll_path example_dll false)).
Proof. split; [reflexivity|]. exact (modify_trash_limit_rerun example_dll_path false example_dll (example_world example_dll) eq_refl). Defined.
