(* ===== verification/SaveEditor.v ===== *)
(** * SaveEditor: clearing trash from a saved game (src/main.py, lines 106-217)

    [get_saves_directory], [get_save_games], [select_save] (its prompt
    loop over the console input, with fuel) and [clear_trash_task], as
    [PyM world] statements, proved against the [JsonCodec] interface of
    [Json.v]. *)

From S2P Require Import Prelude Json World.

Section SaveEditor.
Context `{JsonCodec}.

(** [except (json.JSONDecodeError, IOError)] (lines 144, 196, 214). *)
Definition json_or_io_error (e : exc) : bool :=
  bool_decide (e = JSONDecodeError) || is_oserror e.

(** [os.path.expandvars(r"%APPDATA%")]: an unset variable is left as
    written. *)
Definition expand_appdata : PyM world path :=
  fun w => (Ok (match w_appdata w with Some p => p | None => ["%APPDATA%"] end), w).

(** Line 110: [os.path.join(os.path.dirname(appdata), "LocalLow", "TVGS",
    "Schedule I", "Saves")]. *)
Definition saves_base_of (appdata : path) : path :=
  removelast appdata ++ ["LocalLow"; "TVGS"; "Schedule I"; "Saves"].

(** Lines 117-120: the first entry that is a directory with an all-digit
    name. *)
Fixpoint first_steam_id (base_path : path) (folders : list string) : PyM world (option path) :=
  match folders with
  | [] => py_ret None
  | folder :: rest =>
      let steam_id_path := base_path ++ [folder] in
      let* isd := path_isdir steam_id_path in
      if isd && is_digits folder then py_ret (Some steam_id_path)
      else first_steam_id base_path rest
  end.

(** Lines 108-123. *)
Definition get_saves_directory : PyM world (option path) :=
  let* appdata := expand_appdata in
  let base_path := saves_base_of appdata in
  let* _ := print (MsgSavesPath base_path) in
  let* ex := path_exists base_path in
  if negb ex then
    let* _ := print MsgNoSavesDir in
    py_ret None
  else
    let* folders := listdir base_path in
    let* found := first_steam_id base_path folders in
    match found with
    | Some p => py_ret (Some p)
    | None =>
        let* _ := print MsgNoSteamId in
        py_ret None
    end.

(** [with open(p, "r", encoding="utf-8") as f: data = json.load(f)]. *)
Definition read_json (p : path) : PyM world json :=
  let* f := open_file (Some p) in
  let* data := read_all f in
  py_lift (json_load data).

(** Lines 138-145: the body of the loop for one folder. *)
Definition save_entry (saves_dir : path) (folder : string)
    : PyM world (list (string * json * path)) :=
  let save_path := saves_dir ++ [folder] in
  let game_json_path := save_path ++ ["Game.json"] in
  let* isd := path_isdir save_path in
  let* ex := path_exists game_json_path in
  if isd && starts_with_str "SaveGame_" folder && ex then
    py_try_except
      (let* data := read_json game_json_path in
       let* org_name := py_lift (py_get data "OrganisationName" (JStr "Unknown Save")) in
       py_ret [(folder, org_name, save_path)])
      json_or_io_error
      (fun _ =>
         let* _ := print (MsgReadWarning game_json_path) in
         py_ret [])
  else py_ret [].

(** Lines 134-145: [for folder in sorted(os.listdir(saves_dir))]. *)
Fixpoint collect_saves (saves_dir : path) (folders : list string)
    : PyM world (list (string * json * path)) :=
  match folders with
  | [] => py_ret []
  | folder :: rest =>
      let* e := save_entry saves_dir folder in
      let* es := collect_saves saves_dir rest in
      py_ret (e ++ es)
  end.

(** Lines 125-147. *)
Definition get_save_games : PyM world (list (string * json * path)) :=
  let* saves_dir := get_saves_directory in
  match saves_dir with
  | None => py_ret []
  | Some d =>
      let* folders := listdir d in
      collect_saves d (sort_strings folders)
  end.

(** Line 166: [choice.isdigit() and 1 <= int(choice) <= len(save_games)]. *)
Definition valid_choice (n : nat) (choice : string) : bool :=
  is_digits choice && (1 <=? digits_value choice) && (digits_value choice <=? n).

(** Lines 162-168: [while True], one console line per iteration.
    [OutOfFuel] is not a Python outcome. *)
Fixpoint select_loop (fuel : nat) (save_games : list (string * json * path))
    : PyM world (option path) :=
  match fuel with
  | O => py_raise OutOfFuel
  | S fuel' =>
      let* choice := py_input "Select a save number: " in
      if String.eqb choice "0" then py_ret None
      else if valid_choice (length save_games) choice then
        py_ret ((fun e => e.2) <$> save_games !! (digits_value choice - 1))
      else
        let* _ := print MsgInvalidSelection in
        select_loop fuel' save_games
  end.

(** Lines 149-168; the loop gets one more iteration than there are
    console lines left. *)
Definition select_save : PyM world (option path) :=
  let* save_games := get_save_games in
  match save_games with
  | [] =>
      let* _ := print MsgNoSaves in
      py_ret None
  | _ =>
      let* _ := print MsgAvailable in
      let* _ := print MsgReturnOption in
      let* _ := py_for (zip (seq 1 (length save_games)) save_games)
                  (fun ie => print (MsgSaveOption ie.1 ie.2.1.2)) in
      let* w := py_get_state in
      select_loop (S (length (w_stdin w))) save_games
  end.

(** Lines 184-197 and 202-215: load a document, empty the list under
    [key] if the key is there, write the document back. *)
Definition clear_json_field (file : path) (key : string) (ok_msg : msg)
    (err_msg : exc -> msg) : PyM world unit :=
  py_try_except
    (let* data := read_json file in
     let* has := py_lift (py_contains data key) in
     let* data' := if has then py_lift (py_setitem data key (JArr [])) else py_ret data in
     let* _ := write_file file (json_dump data') in
     print ok_msg)
    json_or_io_error
    (fun e => print (err_msg e)).

(** The pattern ["Generator_*.json"] of line 201 on a name: the prefix,
    the suffix, and room for both. *)
Definition is_generator_log (n : string) : bool :=
  starts_with_str "Generator_" n && ends_with_str ".json" n && (15 <=? String.length n).

(** Line 201: [glob.glob(os.path.join(generators_folder,
    "Generator_*.json"))], in directory order. *)
Definition glob_generators (d : path) : PyM world (list path) :=
  fun w =>
    match fs_lookup (w_fs w) d with
    | Some NDir =>
        (Ok ((fun n => d ++ [n]) <$>
               filter (fun n => is_generator_log n = true)
                 (omap (fun e => child_name d e.1) (w_fs w))), w)
    | _ => (Ok [], w)
    end.

(** Lines 170-217. *)
Definition clear_trash_task : PyM world unit :=
  let* save_path := select_save in
  match save_path with
  | None => py_ret tt
  | Some sp =>
      let trash_folder := sp ++ ["Trash"] in
      let trash_file := trash_folder ++ ["Trash.json"] in
      let generators_folder := trash_folder ++ ["Generators"] in
      let* ex := path_exists trash_file in
      let* _ := if ex then clear_json_field trash_file "Items" (MsgClearedTrash trash_file) MsgTrashError
                else py_ret tt in
      let* exg := path_exists generators_folder in
      let* _ := if exg then
                  let* files := glob_generators generators_folder in
                  py_for files (fun gf =>
                    clear_json_field gf "GeneratedItems" (MsgClearedGenerated gf) (MsgGeneratorError gf))
                else py_ret tt in
      print MsgAllCleared
  end.
End SaveEditor.

(** ** Running the editor on given files *)

(** The dict [clear_json_field] writes back: the list under [key]
    emptied when the key is there. *)
Definition cleared (kvs : list (string * json)) (key : string) : list (string * json) :=
  if bool_decide (key ∈ kvs.*1) then dict_set kvs key (JArr []) else kvs.

Lemma cleared_wf kvs key :
  json_wf (JObj kvs) = true -> json_wf (JObj (cleared kvs key)) = true.
Proof. unfold cleared. case_bool_decide; [|done]. intros. by apply json_wf_dict_set. Qed.

Lemma cleared_cleared kvs key : cleared (cleared kvs key) key = cleared kvs key.
Proof.
  unfold cleared. destruct (bool_decide (key ∈ kvs.*1)) eqn:Hk; [|by rewrite Hk].
  apply bool_decide_eq_true in Hk.
  rewrite (bool_decide_eq_true_2 (key ∈ (dict_set kvs key (JArr [])).*1)).
  - apply dict_set_set.
  - by rewrite dict_set_keys.
Qed.

Section Run.
Context `{JsonCodec}.

Lemma read_json_run p b w :
  fs_lookup (w_fs w) p = Some (NFile b) -> read_json p w = (json_load b, w).
Proof. intros Hp. unfold read_json, open_file, read_all, py_lift. world_run Hp. by destruct (json_load b). Qed.

Lemma write_file_run p b d w :
  fs_lookup (w_fs w) p = Some (NFile b) -> fs_lookup (w_fs w) (removelast p) = Some NDir ->
  write_file p d w = (Ok tt, set_fs (fs_update (w_fs w) p (NFile d)) w).
Proof. intros Hp Hd. unfold write_file. rewrite Hp. by rewrite decide_True. Qed.

Lemma clear_json_field_obj_run file key ok err b kvs w :
  fs_lookup (w_fs w) file = Some (NFile b) ->
  fs_lookup (w_fs w) (removelast file) = Some NDir ->
  json_load b = Ok (JObj kvs) ->
  clear_json_field file key ok err w =
    (Ok tt, add_stdout ok (set_fs (fs_update (w_fs w) file
                                     (NFile (json_dump (JObj (cleared kvs key))))) w)).
Proof.
  intros Hp Hd Hl. unfold clear_json_field, py_try_except.
  rewrite (py_bind_Ok _ _ _ (JObj kvs) w) by (rewrite (read_json_run _ b); congruence).
  unfold py_bind at 1, py_lift. simpl. unfold cleared.
  case_bool_decide; unfold py_bind; cbn -[write_file print];
    rewrite (write_file_run _ b) by done; reflexivity.
Qed.
End Run.

(** C9. Clearing a field of a JSON object (lines 184-194, 202-212):
    the file is rewritten once, "Cleared ..." is printed, and the new
    file loads back as a dict with the same keys in the same order, the
    list under [key] emptied when the key is there, every other value
    unchanged. *)
Theorem clear_json_field_object `{JsonCodec} (file : path) (key : string) (ok : msg)
    (err : exc -> msg) (b : bytes) (kvs : list (string * json)) (w : world) :
  fs_lookup (w_fs w) file = Some (NFile b) ->
  fs_lookup (w_fs w) (removelast file) = Some NDir ->
  json_load b = Ok (JObj kvs) ->
  exists b', clear_json_field file key ok err w =
      (Ok tt, add_stdout ok (set_fs (fs_update (w_fs w) file (NFile b')) w)) /\
    exists kvs', json_load b' = Ok (JObj kvs') /\ kvs'.*1 = kvs.*1 /\
      forall k, dict_lookup kvs' k =
        if decide (k = key /\ key ∈ kvs.*1) then Some (JArr []) else dict_lookup kvs k.
Proof.
  intros Hp Hd Hl. eexists. split; [by eapply clear_json_field_obj_run|].
  exists (cleared kvs key). split.
  { apply json_load_dump, cleared_wf. by eapply json_load_wf. }
  unfold cleared. case_bool_decide as Hk.
  - split; [by apply dict_set_keys|]. intros k.
    rewrite dict_lookup_set. repeat case_decide; naive_solver.
  - split; [done|]. intros k. rewrite decide_False by naive_solver. done.
Qed.

Lemma removelast_neq (p : path) : p <> [] -> removelast p <> p.
Proof.
  intros Hp Heq. pose proof (app_removelast_last ""%string Hp) as E.
  rewrite Heq in E. apply (f_equal length) in E. rewrite length_app in E. simpl in E. lia.
Qed.

(** C10. Clearing is idempotent: running [clear_json_field] a second time
    on the file it rewrote leaves the file system as the first run left
    it. *)
Theorem clear_json_field_idempotent `{JsonCodec} (file : path) (key : string) (ok : msg)
    (err : exc -> msg) (b : bytes) (kvs : list (string * json)) (w : world) :
  fs_lookup (w_fs w) file = Some (NFile b) ->
  fs_lookup (w_fs w) (removelast file) = Some NDir ->
  json_load b = Ok (JObj kvs) ->
  w_fs (snd (clear_json_field file key ok err (snd (clear_json_field file key ok err w))))
    = w_fs (snd (clear_json_field file key ok err w)).
Proof.
  intros Hp Hd Hl. rewrite (clear_json_field_obj_run _ _ _ _ b kvs w) by done. simpl.
  assert (file <> []) as Hne by (intros ->; simpl in *; congruence).
  rewrite (clear_json_field_obj_run _ _ _ _ (json_dump (JObj (cleared kvs key))) (cleared kvs key));
    simpl; rewrite ?fs_lookup_update.
  - rewrite cleared_cleared. by rewrite fs_update_id by (by rewrite fs_lookup_update, decide_True).
  - by rewrite decide_True.
  - rewrite decide_False; [done|]. by apply not_eq_sym, removelast_neq.
  - apply json_load_dump, cleared_wf. by eapply json_load_wf.
Qed.

(** C11. A file [json.load] rejects is left untouched: a
    [JSONDecodeError] is reported ("Error modifying ...") and the task
    goes on, but a [UnicodeDecodeError] (a file that is not UTF-8) is
    not among the exceptions caught (lines 196, 214) and ends the
    program. *)
Theorem clear_json_field_load_error `{JsonCodec} (file : path) (key : string) (ok : msg)
    (err : exc -> msg) (b : bytes) (e : exc) (w : world) :
  fs_lookup (w_fs w) file = Some (NFile b) ->
  json_load b = Raise e ->
  clear_json_field file key ok err w =
    if bool_decide (e = JSONDecodeError) then (Ok tt, add_stdout (err e) w) else (Raise e, w).
Proof.
  intros Hp Hl. unfold clear_json_field, py_try_except.
  rewrite (py_bind_Raise _ _ _ e w) by (rewrite (read_json_run _ b); congruence).
  unfold json_or_io_error.
  destruct (json_load_error b e Hl) as [-> | ->]; simpl; done.
Qed.

(** ** The prompt loop of [select_save] *)

Lemma select_loop_step fuel games w l ls :
  w_stdin w = l :: ls ->
  select_loop (S fuel) games w =
    let w' := set_stdin ls (add_stdout (MsgPrompt "Select a save number: ") w) in
    if String.eqb l "0" then (Ok None, w')
    else if valid_choice (length games) l
    then (Ok ((fun e => e.2) <$> games !! (digits_value l - 1)), w')
    else select_loop fuel games (add_stdout MsgInvalidSelection w').
Proof.
  intros Hin. simpl. unfold py_bind at 1, py_input. rewrite Hin. simpl.
  by destruct (String.eqb l "0"), (valid_choice (length games) l).
Qed.

Lemma select_loop_eof fuel games w :
  w_stdin w = [] ->
  select_loop (S fuel) games w = (Raise EOFError, add_stdout (MsgPrompt "Select a save number: ") w).
Proof. intros Hin. simpl. unfold py_bind at 1, py_input. by rewrite Hin. Qed.

Lemma valid_choice_lookup (games : list (string * json * path)) choice :
  valid_choice (length games) choice = true ->
  exists e, games !! (digits_value choice - 1) = Some e.
Proof.
  unfold valid_choice. intros [[_ H1]%andb_true_iff H2]%andb_true_iff.
  apply Nat.leb_le in H1, H2. apply lookup_lt_is_Some. lia.
Qed.

(** A line the prompt loop rejects: not ["0"], and not a number of a
    listed save (line 166). *)
Definition rejected_choice (n : nat) (l : string) : bool :=
  negb (String.eqb l "0") && negb (valid_choice n l).

(** What the prompt loop prints for the lines [pre] it rejects. *)
Definition rejected_output (pre : list string) : list msg :=
  mjoin (map (fun _ => [MsgPrompt "Select a save number: "; MsgInvalidSelection]) pre).

Lemma select_loop_reject fuel games w l ls :
  w_stdin w = l :: ls -> rejected_choice (length games) l = true ->
  select_loop (S fuel) games w =
    select_loop fuel games
      (log_io (set_stdin ls w) [MsgPrompt "Select a save number: "; MsgInvalidSelection] []).
Proof.
  intros Hin Hr. apply andb_true_iff in Hr as [H0 Hv]. apply negb_true_iff in H0, Hv.
  rewrite (select_loop_step _ _ _ l ls Hin). cbv zeta. rewrite H0, Hv.
  unfold add_stdout, log_io, set_stdin. simpl. rewrite <-!app_assoc. reflexivity.
Qed.

(** C12. The prompt loop of [select_save] (lines 162-168), given one
    iteration per console line, never runs out of fuel and does what
    lines 163-168 say: it reads lines up to the first one that is ["0"]
    or the number of a listed save, printing the prompt and "Invalid
    selection" for each line before it; on ["0"] it returns [None], on
    a number [k] it returns the path of save [k - 1]; when every line
    is rejected it raises [EOFError] after the last prompt. *)
Theorem select_loop_spec (fuel : nat) (games : list (string * json * path)) (w : world) :
  length (w_stdin w) < fuel ->
  match select_loop fuel games w with
  | (Ok res, w') => exists pre c,
      Forall (fun l => rejected_choice (length games) l = true) pre /\
      w_stdin w = pre ++ c :: w_stdin w' /\
      w_stdout w' = w_stdout w ++ rejected_output pre ++ [MsgPrompt "Select a save number: "] /\
      ((c = "0" /\ res = None) \/
       (c <> "0" /\ valid_choice (length games) c = true /\
        exists e, games !! (digits_value c - 1) = Some e /\ res = Some e.2))
  | (Raise e, w') =>
      e = EOFError /\ Forall (fun l => rejected_choice (length games) l = true) (w_stdin w) /\
      w_stdin w' = [] /\
      w_stdout w' = w_stdout w ++ rejected_output (w_stdin w) ++ [MsgPrompt "Select a save number: "]
  end.
Proof.
  revert w. induction fuel as [|fuel IH]; intros w Hf; [lia|].
  destruct (w_stdin w) as [|l ls] eqn:Hin.
  { rewrite select_loop_eof by done. simpl. rewrite Hin. by split_and!. }
  destruct (rejected_choice (length games) l) eqn:Hr.
  - rewrite (select_loop_reject _ _ _ l ls) by done.
    set (w2 := log_io (set_stdin ls w) _ _).
    specialize (IH w2 ltac:(simpl in *; lia)).
    destruct (select_loop fuel games w2) as [[res|e] w'].
    + destruct IH as (pre & c & Hpre & Hi & Ho & Hc). exists (l :: pre), c.
      split; [by constructor|]. split; [simpl in Hi; by rewrite Hi|].
      split; [|done]. rewrite Ho. simpl. by rewrite <-!app_assoc.
    + destruct IH as (-> & Hall & Hi & Ho). simpl in Hall, Ho.
      split; [done|]. split; [by constructor|]. split; [done|].
      rewrite Ho. simpl. by rewrite <-!app_assoc.
  - apply andb_false_iff in Hr. rewrite (select_loop_step _ _ _ l ls Hin). cbv zeta.
    destruct (String.eqb l "0") eqn:H0.
    + exists [], l. apply String.eqb_eq in H0. split; [done|]. split; [done|].
      split; [by rewrite app_nil_l|]. by left.
    + destruct (valid_choice (length games) l) eqn:Hv; [|destruct Hr as [? | ?]; discriminate].
      destruct (valid_choice_lookup games l Hv) as [e He].
      exists [], l. split; [done|]. split; [done|]. split; [done|].
      right. split; [by apply String.eqb_neq|]. split; [done|]. exists e. by rewrite He.
Qed.

(** ** The listing printed by [select_save] *)

Lemma py_for_print {A} (xs : list A) (f : A -> msg) w :
  py_for xs (fun x s => (Ok tt, add_stdout (f x) s)) w = (Ok tt, log_io w (map f xs) []).
Proof.
  revert w. induction xs as [|x xs IH]; intros w; simpl; [by rewrite log_io_nil|].
  unfold py_bind at 1, print, py_modify. rewrite IH, add_stdout_log_io, log_io_log_io. done.
Qed.

Lemma map_zip_seq {A B} (g : nat -> A -> B) k (l : list A) :
  map (fun ie => g ie.1 ie.2) (zip (seq k (length l)) l) = imap (fun j x => g (k + j) x) l.
Proof.
  revert k. induction l as [|x l IH]; intros k; [done|]. simpl. rewrite Nat.add_0_r, IH.
  f_equal. apply imap_ext. intros j y _. simpl. f_equal. lia.
Qed.

(** Lines 153-160 and the call of the loop: with saves found, the
    listing is printed ([enumerate(save_games, 1)]), then the prompt
    loop runs with one iteration per line left. *)
Lemma select_save_run `{JsonCodec} games w w1 :
  get_save_games w = (Ok games, w1) -> games <> [] ->
  select_save w = select_loop (S (length (w_stdin w1))) games
    (log_io w1 ([MsgAvailable; MsgReturnOption] ++
                imap (fun k g => MsgSaveOption (S k) g.1.2) games) []).
Proof.
  intros E Hne. unfold select_save. rewrite (py_bind_Ok _ _ _ games w1) by done.
  destruct games as [|g gs]; [done|]. unfold py_bind at 1 2, print, py_modify.
  unfold py_bind at 1.
  rewrite (py_for_print _ (fun ie : nat * (string * json * path) => MsgSaveOption ie.1 ie.2.1.2)).
  unfold py_bind, py_get_state.
  rewrite (map_zip_seq (fun i g => MsgSaveOption i g.1.2) 1 (g :: gs)).
  rewrite !add_stdout_log_io, !log_io_log_io. done.
Qed.


(** ** The save editor never runs out of fuel and only consumes input *)

Lemma select_loop_wb fuel games w :
  length (w_stdin w) < fuel ->
  fst (select_loop fuel games w) <> Raise OutOfFuel /\
  exists k, w_stdin (snd (select_loop fuel games w)) = drop k (w_stdin w).
Proof.
  revert w. induction fuel as [|fuel IH]; intros w Hf; [lia|].
  destruct (w_stdin w) as [|l ls] eqn:Hin.
  - rewrite select_loop_eof by done. split; [done|]. exists 0. simpl. by rewrite Hin.
  - rewrite (select_loop_step _ _ _ l ls) by done. simpl. simpl in Hf.
    destruct (String.eqb l "0"); [split; [done|]; by exists 1|].
    destruct (valid_choice (length games) l); [split; [done|]; by exists 1|].
    destruct (IH (add_stdout MsgInvalidSelection
                   (set_stdin ls (add_stdout (MsgPrompt "Select a save number: ") w))))
      as [H1 [k Hk]]; [simpl; lia|].
    split; [done|]. exists (S k). rewrite Hk. done.
Qed.

Lemma wb_read_json `{JsonCodec} p : wb (read_json p).
Proof.
  unfold read_json. solve_wb. apply wb_lift. intros Hl.
  destruct (json_load_error _ _ Hl); discriminate.
Qed.

Lemma wb_lift_json {A} (o : outcome A) :
  (forall e, o = Raise e -> e = TypeError \/ e = AttributeError) -> wb (py_lift o).
Proof. intros Ho. apply wb_lift. intros Hl. destruct (Ho _ Hl); discriminate. Qed.

Ltac solve_wb_json :=
  solve_wb; try (apply wb_lift_json; intros ?; unfold py_get, py_contains, py_setitem;
                 repeat case_match; intros [= <-]; auto).

#[export] Hint Resolve wb_read_json : pywb.

Lemma wb_first_steam_id d folders : wb (first_steam_id d folders).
Proof. induction folders; simpl; solve_wb. Qed.

#[export] Hint Resolve wb_first_steam_id : pywb.

Lemma wb_get_saves_directory : wb get_saves_directory.
Proof.
  unfold get_saves_directory, expand_appdata.
  apply wb_bind; [by apply wb_state|]. intros a. solve_wb.
Qed.

Lemma wb_get_save_games `{JsonCodec} : wb get_save_games.
Proof.
  unfold get_save_games. apply wb_bind; [apply wb_get_saves_directory|]. intros [d|]; solve_wb.
  generalize (sort_strings a). intros folders.
  induction folders; simpl; [solve_wb|]. apply wb_bind; [|intros; solve_wb].
  unfold save_entry. solve_wb_json.
Qed.

Lemma wb_select_save `{JsonCodec} : wb select_save.
Proof.
  unfold select_save. apply wb_bind; [apply wb_get_save_games|]. intros games.
  destruct games as [|g gs]; [solve_wb|].
  do 3 (apply wb_bind; [solve_wb | intros]).
  intros w. unfold py_bind, py_get_state. cbn -[select_loop]. apply select_loop_wb. lia.
Qed.

Lemma wb_glob_generators d : wb (glob_generators d).
Proof.
  intros w. unfold glob_generators. split; [by destruct (fs_lookup _ _) as [[]|]|].
  exists 0. by destruct (fs_lookup _ _) as [[]|].
Qed.

Lemma wb_clear_json_field `{JsonCodec} file key ok err : wb (clear_json_field file key ok err).
Proof. unfold clear_json_field. solve_wb_json. Qed.

#[export] Hint Resolve wb_glob_generators wb_clear_json_field : pywb.

Lemma wb_clear_trash_task `{JsonCodec} : wb clear_trash_task.
Proof.
  unfold clear_trash_task. apply wb_bind; [apply wb_select_save|]. intros [sp|]; solve_wb.
Qed.

#[export] Hint Resolve wb_clear_trash_task : pywb.

(** ** Exceptions that escape the save editor *)

Lemma first_steam_id_no_raise base folders w e : fst (first_steam_id base folders w) <> Raise e.
Proof.
  revert w. induction folders as [|f fs IH]; intros w; simpl; py_unfold; unfold path_isdir; simpl;
    [done|]. case_match; [done | apply IH].
Qed.

Lemma first_steam_id_dir base folders w p w' :
  first_steam_id base folders w = (Ok (Some p), w') -> w' = w /\ fs_lookup (w_fs w) p = Some NDir.
Proof.
  revert w. induction folders as [|f fs IH]; intros w; simpl; py_unfold; unfold path_isdir; simpl;
    [done|].
  destruct (bool_decide _) eqn:Hd; simpl; [|apply IH].
  destruct (is_digits f); simpl; [|apply IH].
  intros [= <- <-]. split; [done|]. by apply bool_decide_eq_true in Hd.
Qed.

(** The Steam ID folder [get_saves_directory] returns is a directory. *)
Lemma get_saves_directory_dir w d w' :
  get_saves_directory w = (Ok (Some d), w') -> fs_lookup (w_fs w') d = Some NDir.
Proof.
  unfold get_saves_directory, expand_appdata, print, py_modify, path_exists, listdir,
    add_stdout, log_io.
  py_unfold. simpl. generalize (match w_appdata w with Some p => p | None => ["%APPDATA%"] end).
  intros ad. destruct (fs_lookup (w_fs w) (saves_base_of ad)) as [[c|]|] eqn:Hb; simpl;
    rewrite ?Hb; simpl; try done.
  destruct (first_steam_id _ _ _) as [[[p|]|e'] w1] eqn:E; simpl; try done.
  intros [= -> <-]. by destruct (first_steam_id_dir _ _ _ _ _ E) as [-> ?].
Qed.

(** [os.listdir] on a saves path that exists but is a file. *)
Lemma get_saves_directory_raise w e :
  fst (get_saves_directory w) = Raise e -> e = NotADirectoryError.
Proof.
  unfold get_saves_directory, expand_appdata, print, py_modify, path_exists, listdir,
    add_stdout, log_io.
  py_unfold. simpl. generalize (match w_appdata w with Some p => p | None => ["%APPDATA%"] end).
  intros ad. destruct (fs_lookup (w_fs w) (saves_base_of ad)) as [[c|]|] eqn:Hb; simpl;
    rewrite ?Hb; simpl.
  - intros H; by injection H.
  - destruct (first_steam_id _ _ _) as [[[p|]|e'] w'] eqn:E; simpl; try done.
    intros _. exfalso. match type of E with first_steam_id ?b ?f ?w0 = _ =>
      apply (first_steam_id_no_raise b f w0 e'); by rewrite E end.
  - done.
Qed.

(** Lines 117-120 as a search: the first entry, in [os.listdir] order,
    that is a directory with an all-digit name. *)
Lemma first_steam_id_run base folders w :
  first_steam_id base folders w =
    (Ok ((fun f => base ++ [f]) <$>
           List.find (fun f => bool_decide (fs_lookup (w_fs w) (base ++ [f]) = Some NDir)
                               && is_digits f) folders), w).
Proof.
  induction folders as [|f fs IH]; simpl; py_unfold; unfold path_isdir; simpl; [done|].
  destruct (bool_decide _ && is_digits f); simpl; [done | apply IH].
Qed.

(** C22. [get_saves_directory] (lines 108-123) on every branch: it
    prints the saves path built from [%APPDATA%] (or the unexpanded
    variable when it is unset); a missing path prints "Could not locate
    the Saves directory" and returns [None]; a path that is a file makes
    [os.listdir] raise [NotADirectoryError]; otherwise it returns the
    first entry, in directory order, that is a directory with an
    all-digit name, or prints "No valid Steam ID folder" and returns
    [None]. Nothing else changes. *)
Theorem get_saves_directory_spec (w : world) :
  let base := saves_base_of (match w_appdata w with Some p => p | None => ["%APPDATA%"] end) in
  get_saves_directory w =
    match fs_lookup (w_fs w) base with
    | None => (Ok None, log_io w [MsgSavesPath base; MsgNoSavesDir] [])
    | Some (NFile _) => (Raise NotADirectoryError, log_io w [MsgSavesPath base] [])
    | Some NDir =>
        match List.find (fun f => bool_decide (fs_lookup (w_fs w) (base ++ [f]) = Some NDir)
                                  && is_digits f)
                (omap (fun e => child_name base e.1) (w_fs w)) with
        | Some f => (Ok (Some (base ++ [f])), log_io w [MsgSavesPath base] [])
        | None => (Ok None, log_io w [MsgSavesPath base; MsgNoSteamId] [])
        end
    end.
Proof.
  intros base. unfold get_saves_directory, expand_appdata, print, py_modify, path_exists, listdir.
  py_unfold. simpl. fold base. rewrite !add_stdout_log_io. simpl.
  destruct (fs_lookup (w_fs w) base) as [[c|]|] eqn:Hb; simpl; rewrite ?Hb; simpl.
  - done.
  - rewrite first_steam_id_run. simpl.
    destruct (List.find _ _); simpl; [done|]. by rewrite add_stdout_log_io, log_io_log_io.
  - by rewrite add_stdout_log_io, log_io_log_io.
Qed.

Lemma save_entry_raise `{JsonCodec} d folder w e :
  fst (save_entry d folder w) = Raise e -> e = UnicodeDecodeError \/ e = AttributeError.
Proof.
  unfold save_entry, read_json, open_file, read_all, path_isdir, path_exists, py_try_except,
    py_lift, py_get, print, py_modify.
  py_unfold. simpl. repeat case_match; simpl; intros; simplify_eq; auto.
  all: match goal with H : json_load _ = Raise _ |- _ =>
         destruct (json_load_error _ _ H); subst; auto; by vm_compute in * end.
Qed.

Lemma collect_saves_raise `{JsonCodec} d folders w e :
  fst (collect_saves d folders w) = Raise e -> e = UnicodeDecodeError \/ e = AttributeError.
Proof.
  revert w. induction folders as [|f fs IH]; intros w; simpl; py_unfold; [done|].
  destruct (save_entry d f w) as [[es1|e1] w1] eqn:E1; simpl.
  - destruct (collect_saves d fs w1) as [[es2|e2] w2] eqn:E2; simpl; [done|].
    intros [= <-]. apply (IH w1). by rewrite E2.
  - intros [= <-]. apply (save_entry_raise d f w). by rewrite E1.
Qed.

(** C19. [get_save_games] (lines 125-147) lets exactly three kinds of
    exception escape: [NotADirectoryError] when the saves path is a
    file, [UnicodeDecodeError] from a [Game.json] that is not UTF-8, and
    [AttributeError] from [data.get] on a [Game.json] that is not a JSON
    object (line 142); unreadable or malformed files are only
    reported. *)
Theorem get_save_games_escapes `{JsonCodec} (w : world) (e : exc) :
  fst (get_save_games w) = Raise e ->
  e = NotADirectoryError \/ e = UnicodeDecodeError \/ e = AttributeError.
Proof.
  unfold get_save_games. py_unfold.
  destruct (get_saves_directory w) as [[[d|]|e1] w1] eqn:E1; simpl; [|done|].
  - destruct (listdir d w1) as [[fs|e2] w2] eqn:E2; simpl.
    + intros He. right. by apply (collect_saves_raise d (sort_strings fs) w2).
    + unfold listdir in E2. rewrite (get_saves_directory_dir w d w1 E1) in E2. discriminate.
  - intros [= <-]. left. apply (get_saves_directory_raise w). by rewrite E1.
Qed.

(** C20. A document that is neither a dict nor a list or string without
    the key makes [key in data] or [data[key] = []] raise [TypeError]
    (lines 188-189, 206-207), which the handler does not catch: the
    exception escapes and the file is not written. *)
Theorem clear_json_field_not_dict `{JsonCodec} (file : path) (key : string) (ok : msg)
    (err : exc -> msg) (b : bytes) (j : json) (w : world) :
  fs_lookup (w_fs w) file = Some (NFile b) ->
  json_load b = Ok j ->
  match j with JObj _ => False | JArr _ | JStr _ => py_contains j key = Ok true | _ => True end ->
  clear_json_field file key ok err w = (Raise TypeError, w).
Proof.
  intros Hp Hl Hj. unfold clear_json_field, py_try_except.
  rewrite (py_bind_Ok _ _ _ j w) by (rewrite (read_json_run _ b); congruence).
  unfold py_bind, py_lift. destruct j; simpl; try contradiction; try done;
    simpl in Hj; injection Hj as Hj; by rewrite Hj.
Qed.

(** ** The scan of [get_save_games] on readable saves *)

(** The test of line 138 on [folder]. *)
Definition save_candidate (w : world) (d : path) (folder : string) : bool :=
  bool_decide (fs_lookup (w_fs w) (d ++ [folder]) = Some NDir) &&
  starts_with_str "SaveGame_" folder &&
  bool_decide (is_Some (fs_lookup (w_fs w) ((d ++ [folder]) ++ ["Game.json"]))).

(** [data.get("OrganisationName", "Unknown Save")] on a dict. *)
Definition org_name (kvs : list (string * json)) : json :=
  match dict_lookup kvs "OrganisationName" with Some v => v | None => JStr "Unknown Save" end.

(** Every listed candidate's [Game.json] is a file that loads as a dict
    whose organisation name is [orgs folder]. *)
Definition saves_readable `{JsonCodec} (w : world) (d : path) (folders : list string)
    (orgs : string -> json) : Prop :=
  forall f, f ∈ folders -> save_candidate w d f = true ->
    exists b kvs, fs_lookup (w_fs w) ((d ++ [f]) ++ ["Game.json"]) = Some (NFile b) /\
      json_load b = Ok (JObj kvs) /\ orgs f = org_name kvs.

Lemma save_entry_run `{JsonCodec} d f orgs w :
  saves_readable w d [f] orgs ->
  save_entry d f w = (Ok (if save_candidate w d f then [(f, orgs f, d ++ [f])] else []), w).
Proof.
  intros Hr. unfold save_entry, path_isdir, path_exists. py_unfold. simpl.
  unfold save_candidate in Hr |- *.
  destruct (bool_decide _ && _ && _) eqn:G; simpl; [|done].
  destruct (Hr f) as (b & kvs & Hb & Hl & Ho); [set_solver | done |].
  unfold py_try_except. rewrite (read_json_run _ b) by done. rewrite Hl.
  unfold py_lift, py_get. simpl. by rewrite Ho.
Qed.

Lemma collect_saves_run `{JsonCodec} d folders orgs w :
  saves_readable w d folders orgs ->
  collect_saves d folders w =
    (Ok ((fun f => (f, orgs f, d ++ [f])) <$> filter (fun f => save_candidate w d f = true) folders), w).
Proof.
  induction folders as [|f fs IH]; intros Hr; simpl; [done|].
  rewrite (py_bind_Ok _ _ _ _ w) by (apply save_entry_run; intros x Hx; apply Hr; set_solver).
  rewrite (py_bind_Ok _ _ _ _ w) by (apply IH; intros x Hx; apply Hr; set_solver).
  unfold py_ret. rewrite filter_cons. by destruct (save_candidate w d f).
Qed.

(** C21. When every [SaveGame_] candidate's [Game.json] loads as a dict,
    [get_save_games] (lines 125-147) prints nothing more than the saves
    directory lookup and returns, in [sorted] order of the folder
    names, one [(folder, OrganisationName or "Unknown Save", path)]
    per folder that is a directory named [SaveGame_*] holding a
    [Game.json], and no other. *)
Theorem get_save_games_spec `{JsonCodec} (w w1 : world) (d : path) (orgs : string -> json) :
  get_saves_directory w = (Ok (Some d), w1) ->
  saves_readable w1 d (sort_strings (omap (fun e => child_name d e.1) (w_fs w1))) orgs ->
  get_save_games w =
    (Ok ((fun f => (f, orgs f, d ++ [f])) <$>
           filter (fun f => save_candidate w1 d f = true)
             (sort_strings (omap (fun e => child_name d e.1) (w_fs w1)))), w1).
Proof.
  intros E Hr. unfold get_save_games.
  rewrite (py_bind_Ok _ _ _ (Some d) w1) by done.
  rewrite (py_bind_Ok _ _ _ _ w1)
    by (unfold listdir; by rewrite (get_saves_directory_dir w d w1 E)).
  by apply collect_saves_run.
Qed.

(** ** The glob pattern of line 201 *)

(** The names ["Generator_*.json"] matches: the prefix, any middle
    (empty included), the suffix. *)
Definition generator_glob (n : string) : Prop :=
  exists mid, n = ("Generator_" ++ mid ++ ".json")%string.

Lemma is_generator_log_iff (n : string) : is_generator_log n = true <-> generator_glob n.
Proof.
  unfold is_generator_log, generator_glob.
  rewrite !andb_true_iff, starts_with_str_spec, ends_with_str_spec, Nat.leb_le, string_length_list.
  split.
  - intros [[[R HR] [Sf HS]] Hl].
    assert (Hlen : length (String.list_ascii_of_string n) = 10 + length R)
      by (rewrite HR, length_app; reflexivity).
    exists (String.string_of_list_ascii (take (length R - 5) R)).
    apply list_ascii_of_string_inj. rewrite !list_ascii_of_string_app,
      String.list_ascii_of_string_of_list_ascii, HR. f_equal.
    rewrite <-(take_drop (length R - 5) R) at 1. f_equal.
    assert (HS' : length Sf = length (String.list_ascii_of_string n) - 5)
      by (rewrite HS, length_app; simpl; lia).
    transitivity (drop (length Sf) (String.list_ascii_of_string n)).
    + assert (E : length Sf - length (String.list_ascii_of_string "Generator_") = length R - 5)
        by (simpl; lia).
      by rewrite HR, drop_app_ge, E by (simpl; lia).
    + by rewrite HS, drop_app_length.
  - intros [mid ->]. rewrite !list_ascii_of_string_app. split; [split|].
    + by exists (String.list_ascii_of_string mid ++ String.list_ascii_of_string ".json").
    + exists (String.list_ascii_of_string "Generator_" ++ String.list_ascii_of_string mid).
      by rewrite app_assoc.
    + rewrite !length_app. simpl. lia.
Qed.

#[export] Instance generator_glob_dec n : Decision (generator_glob n).
Proof.
  destruct (is_generator_log n) eqn:E; [left | right]; rewrite <-is_generator_log_iff; congruence.
Defined.

(** The test [glob_generators] applies to a directory entry
    (line 201) accepts exactly the names of the form
    ["Generator_" + middle + ".json"], as [glob] does, the empty middle
    included. *)
Theorem is_generator_log_glob (n : string) : is_generator_log n = true <-> generator_glob n.
Proof. apply is_generator_log_iff. Qed.

(** ** Witnesses *)

Definition example_trash_path : path := ["S"; "SaveGame_1"; "Trash"; "Trash.json"].

Definition example_trash_kvs : list (string * json) :=
  [("DataType", JStr "TrashData"); ("Items", JArr [JInt 1; JInt 2]); ("DataVersion", JInt 0)].

Definition example_save_world (b : bytes) : world :=
  mkWorld [(["S"; "SaveGame_1"; "Trash"], NDir); (example_trash_path, NFile b)] None None [] [] [].

Lemma clear_json_field_object_witness :
  let b := json_dump (JObj example_trash_kvs) in
  let w := example_save_world b in
  fs_lookup (w_fs w) example_trash_path = Some (NFile b) /\
  fs_lookup (w_fs w) (removelast example_trash_path) = Some NDir /\
  json_load b = Ok (JObj example_trash_kvs) /\
  exists b', clear_json_field example_trash_path "Items" MsgAllCleared MsgTrashError w =
      (Ok tt, add_stdout MsgAllCleared (set_fs (fs_update (w_fs w) example_trash_path (NFile b')) w)) /\
    exists kvs', json_load b' = Ok (JObj kvs') /\ kvs'.*1 = example_trash_kvs.*1 /\
      forall k, dict_lookup kvs' k =
        if decide (k = "Items" /\ "Items" ∈ example_trash_kvs.*1) then Some (JArr [])
        else dict_lookup example_trash_kvs k.
Proof.
  intros b w.
  assert (Hp : fs_lookup (w_fs w) example_trash_path = Some (NFile b)) by reflexivity.
  assert (Hd : fs_lookup (w_fs w) (removelast example_trash_path) = Some NDir) by reflexivity.
  assert (Hl : json_load b = Ok (JObj example_trash_kvs)) by (vm_compute; reflexivity).
  split; [done|]. split; [done|]. split; [done|].
  exact (clear_json_field_object example_trash_path "Items" MsgAllCleared MsgTrashError
           b example_trash_kvs w Hp Hd Hl).
Defined.

Lemma clear_json_field_idempotent_witness :
  let b := json_dump (JObj example_trash_kvs) in
  let w := example_save_world b in
  fs_lookup (w_fs w) example_trash_path = Some (NFile b) /\
  fs_lookup (w_fs w) (removelast example_trash_path) = Some NDir /\
  json_load b = Ok (JObj example_trash_kvs) /\
  w_fs (snd (clear_json_field example_trash_path "Items" MsgAllCleared MsgTrashError
     (snd (clear_json_field example_trash_path "Items" MsgAllCleared MsgTrashError w))))
  = w_fs (snd (clear_json_field example_trash_path "Items" MsgAllCleared MsgTrashError w)).
Proof.
  intros b w.
  assert (Hp : fs_lookup (w_fs w) example_trash_path = Some (NFile b)) by reflexivity.
  assert (Hd : fs_lookup (w_fs w) (removelast example_trash_path) = Some NDir) by reflexivity.
  assert (Hl : json_load b = Ok (JObj example_trash_kvs)) by (vm_compute; reflexivity).
  split; [done|]. split; [done|]. split; [done|].
  exact (clear_json_field_idempotent example_trash_path "Items" MsgAllCleared MsgTrashError
           b example_trash_kvs w Hp Hd Hl).
Defined.

Lemma clear_json_field_load_error_witness :
  let w := example_save_world [x00] in
  fs_lookup (w_fs w) example_trash_path = Some (NFile [x00]) /\
  json_load [x00] = Raise JSONDecodeError /\
  clear_json_field example_trash_path "Items" MsgAllCleared MsgTrashError w =
    if bool_decide (JSONDecodeError = JSONDecodeError)
    then (Ok tt, add_stdout (MsgTrashError JSONDecodeError) w) else (Raise JSONDecodeError, w).
Proof.
  intros w.
  assert (Hp : fs_lookup (w_fs w) example_trash_path = Some (NFile [x00])) by reflexivity.
  assert (Hl : json_load [x00] = Raise JSONDecodeError) by (vm_compute; reflexivity).
  split; [done|]. split; [done|].
  exact (clear_json_field_load_error example_trash_path "Items" MsgAllCleared MsgTrashError
           [x00] JSONDecodeError w Hp Hl).
Defined.

Definition example_games : list (string * json * path) :=
  [("SaveGame_1", JStr "Org", ["S"; "SaveGame_1"])].

Lemma select_loop_spec_witness :
  let w := mkWorld [] None None ["7"; "1"] [] [] in
  length (w_stdin w) < 3 /\
  match select_loop 3 example_games w with
  | (Ok res, w') => exists pre c,
      Forall (fun l => rejected_choice (length example_games) l = true) pre /\
      w_stdin w = pre ++ c :: w_stdin w' /\
      w_stdout w' = w_stdout w ++ rejected_output pre ++ [MsgPrompt "Select a save number: "] /\
      ((c = "0" /\ res = None) \/
       (c <> "0" /\ valid_choice (length example_games) c = true /\
        exists e, example_games !! (digits_value c - 1) = Some e /\ res = Some e.2))
  | (Raise e, w') =>
      e = EOFError /\ Forall (fun l => rejected_choice (length example_games) l = true) (w_stdin w) /\
      w_stdin w' = [] /\
      w_stdout w' = w_stdout w ++ rejected_output (w_stdin w) ++ [MsgPrompt "Select a save number: "]
  end.
Proof.
  intros w. assert (Hf : length (w_stdin w) < 3) by (simpl; lia).
  split; [done|]. exact (select_loop_spec 3 example_games w Hf).
Defined.

(** A save game whose [Game.json] holds a JSON list. *)
Definition example_list_game_world : world :=
  let base := saves_base_of ["C:"; "Roaming"] in
  mkWorld [(base, NDir); (base ++ ["42"], NDir); (base ++ ["42"; "SaveGame_1"], NDir);
           (base ++ ["42"; "SaveGame_1"; "Game.json"], NFile (json_dump (JArr [])))]
    None (Some ["C:"; "Roaming"]) [] [] [].

Lemma get_save_games_escapes_witness :
  fst (get_save_games example_list_game_world) = Raise AttributeError /\
  (AttributeError = NotADirectoryError \/ AttributeError = UnicodeDecodeError \/
   AttributeError = AttributeError).
Proof.
  assert (He : fst (get_save_games example_list_game_world) = Raise AttributeError)
    by (vm_compute; reflexivity).
  split; [exact He | exact (get_save_games_escapes example_list_game_world AttributeError He)].
Defined.

Lemma clear_json_field_not_dict_witness :
  let j := JArr [JStr "Items"] in
  let w := example_save_world (json_dump j) in
  fs_lookup (w_fs w) example_trash_path = Some (NFile (json_dump j)) /\
  json_load (json_dump j) = Ok j /\ py_contains j "Items" = Ok true /\
  clear_json_field example_trash_path "Items" MsgAllCleared MsgTrashError w = (Raise TypeError, w).
Proof.
  intros j w.
  assert (Hp : fs_lookup (w_fs w) example_trash_path = Some (NFile (json_dump j))) by reflexivity.
  assert (Hl : json_load (json_dump j) = Ok j) by (vm_compute; reflexivity).
  assert (Hc : py_contains j "Items" = Ok true) by reflexivity.
  split; [done|]. split; [done|]. split; [done|].
  exact (clear_json_field_not_dict example_trash_path "Items" MsgAllCleared MsgTrashError
           (json_dump j) j w Hp Hl Hc).
Defined.

Definition example_scan_dir : path := saves_base_of ["C:"; "Roaming"] ++ ["42"].

(** Two saves listed out of order, a save without [Game.json], and a
    folder that is not a save. *)
Definition example_scan_world : world :=
  let base := saves_base_of ["C:"; "Roaming"] in
  mkWorld [(base, NDir); (example_scan_dir, NDir);
           (example_scan_dir ++ ["SaveGame_2"], NDir);
           (example_scan_dir ++ ["SaveGame_2"; "Game.json"],
              NFile (json_dump (JObj [("OrganisationName", JStr "Hyland")])));
           (example_scan_dir ++ ["SaveGame_1"], NDir);
           (example_scan_dir ++ ["SaveGame_1"; "Game.json"], NFile (json_dump (JObj [])));
           (example_scan_dir ++ ["SaveGame_3"], NDir);
           (example_scan_dir ++ ["Backups"], NDir)]
    None (Some ["C:"; "Roaming"]) [] [] [].

Definition example_orgs (f : string) : json :=
  if String.eqb f "SaveGame_2" then JStr "Hyland" else JStr "Unknown Save".

Lemma get_save_games_spec_witness :
  let w := example_scan_world in
  let w1 := snd (get_saves_directory w) in
  get_saves_directory w = (Ok (Some example_scan_dir), w1) /\
  saves_readable w1 example_scan_dir
    (sort_strings (omap (fun e => child_name example_scan_dir e.1) (w_fs w1))) example_orgs /\
  get_save_games w =
    (Ok ((fun f => (f, example_orgs f, example_scan_dir ++ [f])) <$>
           filter (fun f => save_candidate w1 example_scan_dir f = true)
             (sort_strings (omap (fun e => child_name example_scan_dir e.1) (w_fs w1)))), w1) /\
  fst (get_save_games w) =
    Ok [("SaveGame_1", JStr "Unknown Save", example_scan_dir ++ ["SaveGame_1"]);
        ("SaveGame_2", JStr "Hyland", example_scan_dir ++ ["SaveGame_2"])].
Proof.
  intros w w1.
  assert (E : get_saves_directory w = (Ok (Some example_scan_dir), w1)) by (vm_compute; reflexivity).
  assert (Hr : saves_readable w1 example_scan_dir
    (sort_strings (omap (fun e => child_name example_scan_dir e.1) (w_fs w1))) example_orgs).
  { intros f Hf Hc. vm_compute in Hf.
    repeat (apply elem_of_cons in Hf as [->|Hf]); try (vm_compute in Hc; discriminate);
      try (apply elem_of_nil in Hf; contradiction).
    - eexists _, []. split; [reflexivity|]. split; [vm_compute; reflexivity | reflexivity].
    - eexists _, [("OrganisationName", JStr "Hyland")].
      split; [reflexivity|]. split; [vm_compute; reflexivity | reflexivity]. }
  split; [exact E|]. split; [exact Hr|].
  split; [exact (get_save_games_spec w w1 example_scan_dir example_orgs E Hr)|].
  vm_compute. reflexivity.
Defined.
