(* ===== verification/Clearing.v ===== *)
(** * Clearing a save's trash refines its specification (src/main.py, lines 170-217)

    [clears_trash sp fs fs'] is what option 1 promises once save [sp] is
    chosen: [fs'] is [fs] where [Trash/Trash.json] has its [Items]
    emptied and every [Trash/Generators/Generator_*.json] its
    [GeneratedItems] emptied, each only if it holds a dict, and nothing
    else differs.  The file-level statement is pointwise, through
    [clear_target]; [clear_trash_task_refines] proves that the code
    implements it on a well-formed file system whose target files are
    dicts. *)

From S2P Require Import Prelude Json World SaveEditor.

Section Clearing.
Context `{JsonCodec}.

(** ** The specification *)

(** [q] is an entry of directory [g] whose name matches
    ["Generator_*.json"]. *)
Definition gen_target (g q : path) : bool :=
  match child_name g q with Some n => bool_decide (generator_glob n) | None => false end.

(** The key option 1 empties in file [q] when save [sp] is chosen. *)
Definition clear_target (sp q : path) : option string :=
  if decide (q = (sp ++ ["Trash"]) ++ ["Trash.json"]) then Some "Items"
  else if gen_target ((sp ++ ["Trash"]) ++ ["Generators"]) q then Some "GeneratedItems"
  else None.

(** A file with the list under [key] emptied, when it holds a dict. *)
Definition cleared_node (key : string) (n : option node) : option node :=
  match n with
  | Some (NFile b) =>
      match json_load b with
      | Ok (JObj kvs) => Some (NFile (json_dump (JObj (cleared kvs key))))
      | _ => n
      end
  | _ => n
  end.

Definition clears_trash (sp : path) (fs fs' : list (path * node)) : Prop :=
  forall q, fs_lookup fs' q =
    match clear_target sp q with
    | Some key => cleared_node key (fs_lookup fs q)
    | None => fs_lookup fs q
    end.

(** Every target of [sp] is absent or a file holding a dict. *)
Definition trash_readable (sp : path) (fs : list (path * node)) : Prop :=
  forall q key, clear_target sp q = Some key ->
    fs_lookup fs q = None \/
    exists b kvs, fs_lookup fs q = Some (NFile b) /\ json_load b = Ok (JObj kvs).

(** ** Clearing a list of distinct files *)

(** A dict file whose directory exists. *)
Definition dict_file (fs : list (path * node)) (q : path) : Prop :=
  (exists b kvs, fs_lookup fs q = Some (NFile b) /\ json_load b = Ok (JObj kvs)) /\
  fs_lookup fs (removelast q) = Some NDir.

Lemma cleared_node_dict fs q key b kvs :
  fs_lookup fs q = Some (NFile b) -> json_load b = Ok (JObj kvs) ->
  cleared_node key (fs_lookup fs q) = Some (NFile (json_dump (JObj (cleared kvs key)))).
Proof. intros Hq Hl. by rewrite Hq; simpl; rewrite Hl. Qed.

(** Overwriting a file keeps the other dict files dict files. *)
Lemma dict_file_update fs q0 c q :
  q <> q0 -> dict_file fs q -> is_Some (fs_lookup fs q0) -> fs_lookup fs q0 <> Some NDir ->
  dict_file (fs_update fs q0 (NFile c)) q.
Proof.
  intros Hne [(b & kvs & Hq & Hl) Hd] _ Hf. split.
  - exists b, kvs. rewrite fs_lookup_update, decide_False by congruence. done.
  - rewrite fs_lookup_update. case_decide; [subst; congruence | done].
Qed.

(** Lines 201-215 on distinct dict files: each is rewritten with [key]
    emptied, in order, and nothing else changes. *)
Lemma clear_files_run key (ok : path -> msg) (err : path -> exc -> msg) (L : list path) w :
  NoDup L -> (forall q, q ∈ L -> dict_file (w_fs w) q) ->
  exists w', py_for L (fun gf => clear_json_field gf key (ok gf) (err gf)) w = (Ok tt, w') /\
    forall q, fs_lookup (w_fs w') q =
      if decide (q ∈ L) then cleared_node key (fs_lookup (w_fs w) q) else fs_lookup (w_fs w) q.
Proof.
  intros HL. revert w. induction HL as [|q0 L Hq0 HL IH]; intros w Hd.
  { exists w. split; [done|]. intros q. by rewrite decide_False by set_solver. }
  destruct (Hd q0) as [(b & kvs & Hb & Hl) Hp]; [set_solver|].
  set (c := json_dump (JObj (cleared kvs key))).
  set (w1 := add_stdout (ok q0) (set_fs (fs_update (w_fs w) q0 (NFile c)) w)).
  destruct (IH w1) as (w' & Hrun & Hlook).
  { intros q Hq. apply dict_file_update; [set_solver | apply Hd; set_solver | by rewrite Hb | congruence]. }
  exists w'. split.
  - simpl. rewrite (py_bind_Ok _ _ _ tt w1); [done|]. by apply (clear_json_field_obj_run _ _ _ _ b kvs).
  - intros q. rewrite Hlook. simpl. rewrite !fs_lookup_update.
    destruct (decide (q = q0)) as [->|Hne].
    + rewrite (decide_False (P:=q0 ∈ L)), (decide_True (P:=q0 = q0)), (decide_True (P:=q0 ∈ q0 :: L))
        by (done || set_solver).
      by rewrite (cleared_node_dict _ _ _ b kvs).
    + rewrite !(decide_False (P:=q0 = q)) by congruence.
      destruct (decide (q ∈ L)) as [Hq|Hq].
      * by rewrite (decide_True (P:=q ∈ q0 :: L)) by set_solver.
      * by rewrite (decide_False (P:=q ∈ q0 :: L)) by set_solver.
Qed.

(** ** [glob.glob] on the generators folder *)

Lemma omap_fst {B} (f : path -> option B) (fs : list (path * node)) :
  omap (fun e => f e.1) fs = omap f fs.*1.
Proof. induction fs as [|[q n] fs IH]; [done|]. cbn. destruct (f q); by rewrite IH. Qed.

Definition gen_files (g : path) (fs : list (path * node)) : list path :=
  (fun n => g ++ [n]) <$> filter (fun n => is_generator_log n = true) (omap (child_name g) fs.*1).

Lemma glob_generators_dir g w :
  fs_lookup (w_fs w) g = Some NDir -> glob_generators g w = (Ok (gen_files g (w_fs w)), w).
Proof. intros Hg. unfold glob_generators, gen_files. by rewrite Hg, (omap_fst (child_name g)). Qed.

Lemma elem_of_gen_files g fs q : q ∈ gen_files g fs <-> gen_target g q = true /\ q ∈ fs.*1.
Proof.
  unfold gen_files, gen_target. rewrite list_elem_of_fmap. split.
  - intros (n & -> & Hn). apply list_elem_of_filter in Hn as [Hn Hin].
    apply list_elem_of_omap in Hin as (q & Hq & Hc).
    rewrite child_name_app, bool_decide_eq_true, <-is_generator_log_iff.
    split; [done|]. by rewrite <-(child_name_Some _ _ _ Hc).
  - intros [Hn Hq]. destruct (child_name g q) as [n|] eqn:Hc; [|done].
    rewrite bool_decide_eq_true, <-is_generator_log_iff in Hn.
    exists n. split; [by apply child_name_Some|].
    apply list_elem_of_filter. split; [done|]. apply list_elem_of_omap. by exists q.
Qed.

Lemma gen_files_nodup g fs : NoDup fs.*1 -> NoDup (gen_files g fs).
Proof.
  intros Hnd. apply NoDup_fmap_2_strong; [intros x y _ _; apply app_inj_tail|].
  apply NoDup_filter, NoDup_omap_inj; [done|].
  intros x y z Hx Hy. by rewrite (child_name_Some _ _ _ Hx), (child_name_Some _ _ _ Hy).
Qed.

(** Under a [g] that is not a directory nothing exists. *)
Lemma gen_target_absent g q fs :
  fs_wf fs = true -> g <> [] -> fs_lookup fs g <> Some NDir -> gen_target g q = true ->
  fs_lookup fs q = None.
Proof.
  intros Hwf Hg Hd Ht. unfold gen_target in Ht.
  destruct (child_name g q) as [n|] eqn:Hc; [|done]. apply child_name_Some in Hc as ->.
  destruct (fs_lookup fs (g ++ [n])) eqn:E; [|done]. exfalso. apply Hd.
  rewrite <-(removelast_last g n). apply fs_wf_parent; [done | |].
  - apply fs_lookup_is_Some. by rewrite E.
  - rewrite length_app. destruct g; [done|]. simpl. lia.
Qed.

(** Every generator log below [g] that exists holds a dict. *)
Definition gens_readable (g : path) (fs : list (path * node)) : Prop :=
  forall q, gen_target g q = true -> q ∈ fs.*1 ->
    exists b kvs, fs_lookup fs q = Some (NFile b) /\ json_load b = Ok (JObj kvs).

(** Lines 200-215. *)
Lemma generators_run (g : path) key ok err w :
  fs_wf (w_fs w) = true -> g <> [] -> gens_readable g (w_fs w) ->
  exists w', (if bool_decide (is_Some (fs_lookup (w_fs w) g))
              then (let* files := glob_generators g in
                    py_for files (fun gf => clear_json_field gf key (ok gf) (err gf)))
              else py_ret tt) w = (Ok tt, w') /\
    forall q, fs_lookup (w_fs w') q =
      if gen_target g q then cleared_node key (fs_lookup (w_fs w) q) else fs_lookup (w_fs w) q.
Proof.
  intros Hwf Hg Hr.
  assert (Hnone : fs_lookup (w_fs w) g <> Some NDir -> forall q,
            (if gen_target g q then cleared_node key (fs_lookup (w_fs w) q) else fs_lookup (w_fs w) q)
            = fs_lookup (w_fs w) q).
  { intros Hd q. destruct (gen_target g q) eqn:Ht; [|done].
    by rewrite (gen_target_absent g q (w_fs w)). }
  destruct (fs_lookup (w_fs w) g) as [[c|]|] eqn:Eg.
  - exists w. rewrite bool_decide_true by eauto.
    rewrite (py_bind_Ok _ _ _ [] w) by (unfold glob_generators; by rewrite Eg).
    split; [done|]. intros q. by rewrite Hnone by congruence.
  - rewrite bool_decide_true by eauto.
    destruct (clear_files_run key ok err (gen_files g (w_fs w)) w) as (w' & Hrun & Hlook).
    + by apply gen_files_nodup, fs_wf_nodup.
    + intros q Hq. apply elem_of_gen_files in Hq as [Ht Hq]. split; [by apply Hr|].
      unfold gen_target in Ht. destruct (child_name g q) as [n|] eqn:Hc; [|done].
      apply child_name_Some in Hc as ->. by rewrite removelast_last.
    + exists w'. rewrite (py_bind_Ok _ _ _ _ w) by (by apply glob_generators_dir). split; [done|].
      intros q. rewrite Hlook. destruct (decide (q ∈ gen_files g (w_fs w))) as [Hq|Hq].
      * apply elem_of_gen_files in Hq as [-> _]. done.
      * destruct (gen_target g q) eqn:Ht; [|done].
        assert (fs_lookup (w_fs w) q = None) as ->; [|done].
        destruct (fs_lookup (w_fs w) q) eqn:E; [|done]. exfalso. apply Hq.
        apply elem_of_gen_files. split; [done|]. apply fs_lookup_is_Some. by rewrite E.
  - exists w. rewrite bool_decide_false by (intros [? ?]; discriminate). split; [done|].
    intros q. by rewrite Hnone by congruence.
Qed.

(** Lines 183-197. *)
Lemma trash_run (t : path) key okm errm w :
  fs_wf (w_fs w) = true -> 2 <= length t ->
  (fs_lookup (w_fs w) t = None \/
   exists b kvs, fs_lookup (w_fs w) t = Some (NFile b) /\ json_load b = Ok (JObj kvs)) ->
  exists w', (if bool_decide (is_Some (fs_lookup (w_fs w) t))
              then clear_json_field t key okm errm else py_ret tt) w = (Ok tt, w') /\
    fs_wf (w_fs w') = true /\ (w_fs w').*1 = (w_fs w).*1 /\
    forall q, fs_lookup (w_fs w') q =
      if decide (q = t) then cleared_node key (fs_lookup (w_fs w) q) else fs_lookup (w_fs w) q.
Proof.
  intros Hwf Hl [Hn|(b & kvs & Hb & Hj)].
  - exists w. rewrite Hn, bool_decide_false by (intros [? ?]; discriminate).
    split; [done|]. split; [done|]. split; [done|]. intros q. case_decide; [subst; by rewrite Hn|done].
  - rewrite bool_decide_true by (rewrite Hb; eauto).
    eexists. split.
    { apply (clear_json_field_obj_run _ _ _ _ b kvs); [done | | done].
      apply fs_wf_parent; [done | apply fs_lookup_is_Some; rewrite Hb; eauto | done]. }
    simpl. split; [by rewrite (fs_wf_update _ _ b) | split; [apply fs_update_keys; rewrite Hb; eauto|]].
    intros q. rewrite fs_lookup_update.
    case_decide; subst; [rewrite decide_True by done; by rewrite (cleared_node_dict _ _ _ b kvs)|].
    by rewrite decide_False by congruence.
Qed.

Lemma trash_not_generator sp :
  gen_target ((sp ++ ["Trash"]) ++ ["Generators"]) ((sp ++ ["Trash"]) ++ ["Trash.json"]) = false.
Proof.
  unfold gen_target, child_name. rewrite drop_ge; [done|]. rewrite !length_app. simpl. lia.
Qed.

(** C25. Refinement: once save [sp] is chosen, [clear_trash_task]
    (lines 170-217) returns normally and leaves exactly the file system
    [clears_trash] specifies: [Trash.json] with [Items] emptied, every
    [Generators/Generator_*.json] with [GeneratedItems] emptied, nothing
    else changed; provided the file system is well formed and the
    target files that exist hold dicts. *)
Theorem clear_trash_task_refines (w w1 : world) (sp : path) :
  select_save w = (Ok (Some sp), w1) -> fs_wf (w_fs w1) = true -> trash_readable sp (w_fs w1) ->
  fst (clear_trash_task w) = Ok tt /\ clears_trash sp (w_fs w1) (w_fs (snd (clear_trash_task w))).
Proof.
  intros Hsel Hwf Hr. unfold clear_trash_task.
  rewrite (py_bind_Ok _ _ _ (Some sp) w1) by exact Hsel. cbv beta iota zeta.
  set (t := (sp ++ ["Trash"]) ++ ["Trash.json"]). set (g := (sp ++ ["Trash"]) ++ ["Generators"]).
  rewrite (py_bind_Ok _ _ _ _ w1) by reflexivity.
  destruct (trash_run t "Items" (MsgClearedTrash t) MsgTrashError w1)
    as (w2 & Hrun2 & Hwf2 & Hk2 & Hl2); [done | unfold t; rewrite !length_app; simpl; lia | |].
  { assert (Ht : clear_target sp t = Some "Items") by (unfold clear_target; by rewrite decide_True).
    destruct (Hr t "Items" Ht) as [?|?]; [by left | by right]. }
  rewrite (py_bind_Ok _ _ _ _ w2) by exact Hrun2.
  rewrite (py_bind_Ok _ _ _ _ w2) by reflexivity.
  destruct (generators_run g "GeneratedItems" MsgClearedGenerated MsgGeneratorError w2)
    as (w3 & Hrun3 & Hl3); [done | unfold g; by destruct sp | |].
  { intros q Hq Hin. assert (q <> t) by (intros ->; unfold g, t in Hq; by rewrite trash_not_generator in Hq).
    rewrite Hl2, decide_False by done. rewrite Hk2 in Hin.
    assert (Hc : clear_target sp q = Some "GeneratedItems")
      by (unfold clear_target; fold t g; by rewrite decide_False, Hq).
    destruct (Hr q _ Hc) as [Hn|?]; [|done].
    apply fs_lookup_is_Some in Hin. rewrite Hn in Hin. by destruct Hin. }
  rewrite (py_bind_Ok _ _ _ _ w3) by exact Hrun3. split; [done|].
  intros q. simpl. rewrite Hl3, Hl2. unfold clear_target. fold t g.
  destruct (decide (q = t)) as [->|Hne]; [unfold g, t; by rewrite trash_not_generator|].
  by destruct (gen_target g q).
Qed.
End Clearing.

(** ** Witness *)

(** The directories above [p]. *)
Definition dirs_above (p : path) : list (path * node) :=
  (fun k => (take k p, NDir)) <$> seq 1 (length p - 1).

Definition example_clear_save : path :=
  saves_base_of ["C:"; "Roaming"] ++ ["42"; "SaveGame_1"].

(** A well-formed saves tree with one save whose trash, one generator
    log and one other file of the generators folder are not empty. *)
Definition example_clear_world : world :=
  let sp := example_clear_save in
  mkWorld
    (dirs_above sp ++
     [(sp, NDir);
      (sp ++ ["Game.json"], NFile (json_dump (JObj [("OrganisationName", JStr "Benzies")])));
      (sp ++ ["Trash"], NDir);
      (sp ++ ["Trash"; "Trash.json"], NFile (json_dump (JObj [("Items", JArr [JInt 1])])));
      (sp ++ ["Trash"; "Generators"], NDir);
      (sp ++ ["Trash"; "Generators"; "Generator_a.json"],
         NFile (json_dump (JObj [("GeneratedItems", JArr [JInt 2])])));
      (sp ++ ["Trash"; "Generators"; "notes.json"],
         NFile (json_dump (JObj [("GeneratedItems", JArr [JInt 3])])))])
    None (Some ["C:"; "Roaming"]) ["1"] [] [].

Lemma clear_trash_task_refines_witness :
  let w := example_clear_world in
  let w1 := snd (select_save w) in
  select_save w = (Ok (Some example_clear_save), w1) /\ fs_wf (w_fs w1) = true /\
  trash_readable example_clear_save (w_fs w1) /\
  fst (clear_trash_task w) = Ok tt /\
  clears_trash example_clear_save (w_fs w1) (w_fs (snd (clear_trash_task w))).
Proof.
  intros w w1.
  assert (Hs : select_save w = (Ok (Some example_clear_save), w1)) by (vm_compute; reflexivity).
  assert (Hwf : fs_wf (w_fs w1) = true) by (vm_compute; reflexivity).
  assert (Hr : trash_readable example_clear_save (w_fs w1)).
  { clear Hs Hwf. remember (w_fs w1) as fs eqn:Hfs. vm_compute in Hfs.
    intros q key Hc. destruct (decide (fs_lookup fs q = None)) as [E|E]; [by left|right].
    assert (Hq : is_Some (fs_lookup fs q)) by (destruct (fs_lookup fs q); [eauto|done]).
    apply fs_lookup_is_Some in Hq. rewrite Hfs in Hq. vm_compute in Hq. rewrite Hfs.
    repeat (apply elem_of_cons in Hq as [->|Hq]); try (apply elem_of_nil in Hq; contradiction);
      vm_compute in Hc; try discriminate.
    - exists (json_dump (JObj [("Items", JArr [JInt 1])])), [("Items", JArr [JInt 1])].
      split; [vm_compute; reflexivity | vm_compute; reflexivity].
    - exists (json_dump (JObj [("GeneratedItems", JArr [JInt 2])])), [("GeneratedItems", JArr [JInt 2])].
      split; [vm_compute; reflexivity | vm_compute; reflexivity]. }
  split; [exact Hs|]. split; [exact Hwf|]. split; [exact Hr|].
  exact (clear_trash_task_refines w w1 example_clear_save Hs Hwf Hr).
Defined.
