(* ===== verification/Menu.v ===== *)
(** * The menu loop (src/main.py, lines 219-251)

    [main] prints the banner and runs [while True]: print the menu, read
    an option, dispatch to [clear_trash_task] (1), [permanent_trash_gen]
    (2: [limit = True], 3: [limit = False]) or exit (5).  The loop gets
    one iteration per console line; every iteration reads a line, so
    this is enough, and [main] always ends with an exception: [SystemExit]
    from [exit()], [EOFError] when the input runs out, or an exception
    one of the commands lets escape. *)

From S2P Require Import Prelude ByteFind Json World Patcher SaveEditor.

Section Menu.
Context `{BytesFind} `{JsonCodec}.

(** Lines 223-227. *)
Definition print_menu : PyM world unit :=
  py_for [0; 1; 2; 3; 4] (fun n => print (MsgMenuLine n)).

(** Line 231: [not opt.isnumeric() or len(opt) > 1]. *)
Definition invalid_option (opt : string) : bool :=
  negb (is_digits opt) || (1 <? String.length opt).

(** Lines 222-251.  [OutOfFuel] is not a Python outcome. *)
Fixpoint main_loop (fuel : nat) : PyM world unit :=
  match fuel with
  | O => py_raise OutOfFuel
  | S fuel' =>
      let* _ := print_menu in
      let* opt := py_input "Type your option number: " in
      let* _ := print MsgSeparator in
      let* _ := if invalid_option opt then print MsgInvalidInput else py_ret tt in
      if String.eqb opt "1" then
        let* _ := clear_trash_task in
        main_loop fuel'
      else if String.eqb opt "2" then
        let* _ := permanent_trash_gen true in
        main_loop fuel'
      else if String.eqb opt "3" then
        let* _ := permanent_trash_gen false in
        main_loop fuel'
      else if String.eqb opt "5" then
        let* _ := print MsgExiting in
        let* _ := print MsgThanks in
        py_raise SystemExit
      else main_loop fuel'
  end.

(** Lines 219-251. *)
Definition main : PyM world unit :=
  let* _ := print MsgBanner in
  let* w := py_get_state in
  main_loop (S (length (w_stdin w))).
End Menu.

(** The task an option runs before the loop goes on (lines 234-245):
    the [continue] arms, and nothing for any other line but 5. *)
Definition task_of `{BytesFind} `{JsonCodec} (opt : string) : PyM world unit :=
  if String.eqb opt "1" then clear_trash_task
  else if String.eqb opt "2" then permanent_trash_gen true
  else if String.eqb opt "3" then permanent_trash_gen false
  else py_ret tt.

(** The console lines one iteration prints before dispatching. *)
Definition menu_prefix (opt : string) : list msg :=
  [MsgMenuLine 0; MsgMenuLine 1; MsgMenuLine 2; MsgMenuLine 3; MsgMenuLine 4;
   MsgPrompt "Type your option number: "; MsgSeparator] ++
  (if invalid_option opt then [MsgInvalidInput] else []).

Section Run.
Context `{BytesFind} `{JsonCodec}.

Lemma wb_task_of opt : wb (task_of opt).
Proof. unfold task_of. repeat case_match; auto with pywb. Qed.

Lemma print_menu_run w :
  print_menu w = (Ok tt, log_io w [MsgMenuLine 0; MsgMenuLine 1; MsgMenuLine 2;
                                   MsgMenuLine 3; MsgMenuLine 4] []).
Proof. unfold print_menu, py_for, print, py_modify, py_bind, py_ret. simpl. by autorewrite with pyrw. Qed.

Lemma main_loop_step fuel w opt rest :
  w_stdin w = opt :: rest ->
  main_loop (S fuel) w =
    (let w' := log_io (set_stdin rest w) (menu_prefix opt) [] in
     if String.eqb opt "1" then (let* _ := clear_trash_task in main_loop fuel) w'
     else if String.eqb opt "2" then (let* _ := permanent_trash_gen true in main_loop fuel) w'
     else if String.eqb opt "3" then (let* _ := permanent_trash_gen false in main_loop fuel) w'
     else if String.eqb opt "5" then (Raise SystemExit, log_io w' [MsgExiting; MsgThanks] [])
     else main_loop fuel w').
Proof.
  intros Hin. cbn [main_loop].
  rewrite (py_bind_Ok _ _ _ tt _) by apply print_menu_run.
  rewrite (py_bind_Ok _ _ _ opt _) by (apply py_input_run; exact Hin).
  rewrite (py_bind_Ok _ _ _ tt _) by apply print_run.
  unfold menu_prefix.
  destruct (invalid_option opt);
    (rewrite (py_bind_Ok _ _ _ tt _) by first [apply print_run | reflexivity]);
    autorewrite with pyrw; simpl;
    repeat case_match; try done.
  all: unfold py_bind; rewrite !print_run; simpl; by autorewrite with pyrw.
Qed.

Lemma main_loop_eof fuel w :
  w_stdin w = [] ->
  main_loop (S fuel) w =
    (Raise EOFError, log_io w [MsgMenuLine 0; MsgMenuLine 1; MsgMenuLine 2; MsgMenuLine 3;
                             MsgMenuLine 4; MsgPrompt "Type your option number: "] []).
Proof.
  intros Hin. cbn [main_loop].
  rewrite (py_bind_Ok _ _ _ tt _) by apply print_menu_run.
  unfold py_bind, py_input. simpl. rewrite Hin. by autorewrite with pyrw.
Qed.

(** Running a well-behaved command and then the rest of the loop ends
    with an exception other than [OutOfFuel]. *)
Lemma then_loop_ends (m : PyM world unit) fuel w :
  wb m ->
  (forall w', length (w_stdin w') < fuel ->
     exists e, fst (main_loop fuel w') = Raise e /\ e <> OutOfFuel) ->
  length (w_stdin w) < fuel ->
  exists e, fst ((let* _ := m in main_loop fuel) w) = Raise e /\ e <> OutOfFuel.
Proof.
  intros Hm IH Hf. unfold py_bind. destruct (Hm w) as [Hm1 [k Hk]].
  destruct (m w) as [[[]|e] w'] eqn:E; simpl in *.
  - apply IH. rewrite Hk, length_drop. lia.
  - exists e. split; [done|]. intros ->. by apply Hm1.
Qed.

Lemma main_loop_ends fuel w :
  length (w_stdin w) < fuel -> exists e, fst (main_loop fuel w) = Raise e /\ e <> OutOfFuel.
Proof.
  revert w. induction fuel as [|fuel IH]; intros w Hf; [lia|].
  destruct (w_stdin w) as [|opt rest] eqn:Hin.
  - rewrite main_loop_eof by done. by exists EOFError.
  - rewrite (main_loop_step _ _ opt rest) by done. simpl in Hf.
    assert (length (w_stdin (log_io (set_stdin rest w) (menu_prefix opt) [])) < fuel)
      by (simpl; lia).
    repeat case_match; try (apply then_loop_ends; auto with pywb); try (by apply IH).
    by exists SystemExit.
Qed.

(** One iteration on a line other than 5: the prefix is printed, the
    task runs, and if it returns, the next iteration starts in the
    world it leaves. *)
Lemma main_loop_continue fuel w opt rest w' :
  w_stdin w = opt :: rest -> opt <> "5" ->
  task_of opt (log_io (set_stdin rest w) (menu_prefix opt) []) = (Ok tt, w') ->
  main_loop (S fuel) w = main_loop fuel w'.
Proof.
  intros Hin H5 Ht. rewrite (main_loop_step _ _ opt rest) by done. unfold task_of in Ht.
  cbv zeta. unfold py_bind.
  destruct (String.eqb opt "1"); [by rewrite Ht|].
  destruct (String.eqb opt "2"); [by rewrite Ht|].
  destruct (String.eqb opt "3"); [by rewrite Ht|].
  destruct (String.eqb opt "5") eqn:E5; [by apply String.eqb_eq in E5|].
  unfold py_ret in Ht. by simplify_eq.
Qed.

(** The menu serves a sequence of lines none of which is 5, each task
    returning normally: the step relation of [while True]. *)
Inductive serves : world -> world -> Prop :=
  | serves_done w : serves w w
  | serves_step w opt rest w' w'' :
      w_stdin w = opt :: rest -> opt <> "5" ->
      task_of opt (log_io (set_stdin rest w) (menu_prefix opt) []) = (Ok tt, w') ->
      serves w' w'' -> serves w w''.

Lemma serves_loop w w'' fuel :
  serves w w'' -> length (w_stdin w) < fuel ->
  exists fuel', main_loop fuel w = main_loop fuel' w'' /\ length (w_stdin w'') < fuel'.
Proof.
  intros Hs. revert fuel. induction Hs as [w|w opt rest w' w'' Hin H5 Ht Hs IH]; intros fuel Hf;
    [by exists fuel|].
  destruct fuel as [|fuel]; [lia|].
  rewrite (main_loop_continue fuel w opt rest w') by done.
  apply IH. destruct (wb_task_of opt (log_io (set_stdin rest w) (menu_prefix opt) []))
    as [_ [k Hk]].
  rewrite Ht in Hk. simpl in Hk. rewrite Hk, length_drop. simpl. rewrite Hin in Hf. simpl in Hf. lia.
Qed.
End Run.

(** C13. [main] always ends, and always with an exception: the
    [while True] loop (lines 222-251) never returns, and with one
    iteration per console line the model never runs out of fuel, since
    every iteration reads a line and no command adds to the input. *)
Theorem main_terminates `{BytesFind} `{JsonCodec} (w : world) :
  exists e, fst (main w) = Raise e /\ e <> OutOfFuel.
Proof.
  unfold main. rewrite (py_bind_Ok _ _ _ tt _) by apply print_run.
  unfold py_bind, py_get_state. cbn -[main_loop]. apply main_loop_ends. simpl. lia.
Qed.

(** C14. Typing 5 (lines 247-251) prints the exit lines and ends the
    program with [SystemExit], consuming only that line. *)
Theorem main_exit_on_5 `{BytesFind} `{JsonCodec} (w : world) (rest : list string) :
  w_stdin w = "5" :: rest ->
  main w = (Raise SystemExit,
            log_io (set_stdin rest w) (MsgBanner :: menu_prefix "5" ++ [MsgExiting; MsgThanks]) []).
Proof.
  intros Hin. unfold main. rewrite (py_bind_Ok _ _ _ tt _) by apply print_run.
  unfold py_bind at 1, py_get_state. cbn -[main_loop].
  rewrite (main_loop_step _ _ "5" rest) by done. simpl. by autorewrite with pyrw.
Qed.

(** C15. Option 2 when the game is not installed ends the whole program
    with the [TypeError] of [open(None)]: nothing in [main] catches it. *)
Theorem main_option2_without_game `{BytesFind} `{JsonCodec} (w : world) (rest : list string) :
  w_stdin w = "2" :: rest ->
  (forall sp, w_steam_install w = Some sp -> sp <> [] ->
     fs_lookup (w_fs w) (game_assembly_of sp) = None) ->
  fst (main w) = Raise TypeError.
Proof.
  intros Hin Hmiss. unfold main. rewrite (py_bind_Ok _ _ _ tt _) by apply print_run.
  unfold py_bind at 1, py_get_state. cbn -[main_loop].
  rewrite (main_loop_step _ _ "2" rest) by done. simpl.
  unfold py_bind at 1.
  destruct (permanent_trash_gen_no_path true
              (log_io (set_stdin rest (add_stdout MsgBanner w)) (menu_prefix "2") []))
    as [Hte _]; [exact Hmiss|].
  destruct (permanent_trash_gen true _) as [[] w'] eqn:E; simpl in *; congruence.
Qed.

(** C16. Any other line (lines 231-245 fall through) prints the menu,
    the prompt and the separator, plus "Invalid input" only when the
    line is not a single digit, and the loop goes on with the next line:
    "4" is neither run nor reported as invalid. *)
Theorem main_loop_other_input `{BytesFind} `{JsonCodec} (fuel : nat) (w : world)
    (opt : string) (rest : list string) :
  w_stdin w = opt :: rest ->
  opt ∉ ["1"; "2"; "3"; "5"] ->
  main_loop (S fuel) w = main_loop fuel (log_io (set_stdin rest w) (menu_prefix opt) []).
Proof.
  intros Hin Hopt. rewrite (main_loop_step _ _ opt rest) by done. simpl.
  repeat case_match; try done; exfalso; apply Hopt;
    repeat match goal with H : String.eqb _ _ = true |- _ => apply String.eqb_eq in H end;
    subst; set_solver.
Qed.

(** C23. Liveness of the menu: from any world in which the menu has
    served a sequence of lines other than 5, each task returning, and
    the next line is 5, [main] exits with [SystemExit]; the loop never
    loses the exit option, whatever the tasks before did to the world. *)
Theorem main_exits_after_served `{BytesFind} `{JsonCodec} (w w'' : world) (rest : list string) :
  serves (add_stdout MsgBanner w) w'' -> w_stdin w'' = "5" :: rest ->
  fst (main w) = Raise SystemExit.
Proof.
  intros Hs Hin.
  assert (E : main w = main_loop (S (length (w_stdin w))) (add_stdout MsgBanner w)) by reflexivity.
  rewrite E. destruct (serves_loop _ _ (S (length (w_stdin w))) Hs) as (fuel & -> & Hf); [simpl; lia|].
  destruct fuel as [|fuel]; [lia|]. by rewrite (main_loop_step _ _ "5" rest).
Qed.

(** ** Witnesses *)

Definition example_menu_world (inp : list string) : world :=
  mkWorld [(example_dll_path, NFile example_dll)] None None inp [] [].

Lemma main_exit_on_5_witness :
  let w := example_menu_world ["5"; "1"] in
  w_stdin w = "5" :: ["1"] /\
  main w = (Raise SystemExit,
            log_io (set_stdin ["1"] w) (MsgBanner :: menu_prefix "5" ++ [MsgExiting; MsgThanks]) []).
Proof.
  intros w. assert (Hin : w_stdin w = "5" :: ["1"]) by reflexivity.
  split; [done|]. exact (main_exit_on_5 w ["1"] Hin).
Defined.

Lemma main_option2_without_game_witness :
  let w := example_menu_world ["2"] in
  w_stdin w = "2" :: [] /\
  (forall sp, w_steam_install w = Some sp -> sp <> [] ->
     fs_lookup (w_fs w) (game_assembly_of sp) = None) /\
  fst (main w) = Raise TypeError.
Proof.
  intros w. assert (Hin : w_stdin w = "2" :: []) by reflexivity.
  assert (Hmiss : forall sp, w_steam_install w = Some sp -> sp <> [] ->
            fs_lookup (w_fs w) (game_assembly_of sp) = None) by (intros sp Hsp; discriminate Hsp).
  split; [done|]. split; [done|]. exact (main_option2_without_game w [] Hin Hmiss).
Defined.

Lemma main_loop_other_input_witness :
  let w := example_menu_world ["4"; "5"] in
  w_stdin w = "4" :: ["5"] /\ "4" ∉ ["1"; "2"; "3"; "5"] /\
  main_loop 2 w = main_loop 1 (log_io (set_stdin ["5"] w) (menu_prefix "4") []) /\
  menu_prefix "4" = [MsgMenuLine 0; MsgMenuLine 1; MsgMenuLine 2; MsgMenuLine 3; MsgMenuLine 4;
                     MsgPrompt "Type your option number: "; MsgSeparator].
Proof.
  intros w. assert (Hin : w_stdin w = "4" :: ["5"]) by reflexivity.
  assert (Hopt : "4" ∉ ["1"; "2"; "3"; "5"]) by (vm_compute; set_solver).
  split; [done|]. split; [done|]. split; [exact (main_loop_other_input 1 w "4" ["5"] Hin Hopt)|].
  reflexivity.
Defined.

Lemma main_exits_after_served_witness :
  let w := example_menu_world ["1"; "4"; "5"] in
  let w1 := log_io (set_stdin ["4"; "5"] (add_stdout MsgBanner w)) (menu_prefix "1") [] in
  let w2 := snd (task_of "1" w1) in
  let w3 := log_io (set_stdin ["5"] w2) (menu_prefix "4") [] in
  serves (add_stdout MsgBanner w) w3 /\ w_stdin w3 = "5" :: [] /\ fst (main w) = Raise SystemExit.
Proof.
  intros w w1 w2 w3.
  assert (Hs : serves (add_stdout MsgBanner w) w3).
  { apply (serves_step _ "1" ["4"; "5"] w2); [reflexivity | discriminate | vm_compute; reflexivity|].
    apply (serves_step _ "4" ["5"] w3); [vm_compute; reflexivity | discriminate | reflexivity |].
    apply serves_done. }
  assert (Hin : w_stdin w3 = "5" :: []) by (vm_compute; reflexivity).
  split; [exact Hs|]. split; [exact Hin|]. exact (main_exits_after_served w w3 [] Hs Hin).
Defined.
