(* ===== verification/Frame.v ===== *)
(** * What the program may change on disk (all of src/main.py)

    The tool overwrites files but never creates, deletes or retypes an
    entry of the file system, and the only files it writes are the game
    DLL under the Steam directory ([modify_trash_limit], lines 89-97) and
    the trash files of a save game under the saves directory
    ([clear_trash_task], lines 191-192 and 209-210).  [frame w w'] says
    that of a run from [w] to [w']; [stable m] says it of every run of
    [m].  The composition lemmas are proved for the monad's combinators,
    once, and each function of the program is [stable] by them, with
    postconditions carrying where the written paths come from. *)

From S2P Require Import Prelude ByteFind Json World Patcher SaveEditor Clearing Menu.

(** ** The frame relation *)

(** The kind of an entry: [Some true] a file, [Some false] a directory,
    [None] nothing. *)
Definition node_kind (n : option node) : option bool :=
  match n with Some (NFile _) => Some true | Some NDir => Some false | None => None end.

(** [%APPDATA%] as [expand_appdata] reads it. *)
Definition appdata_of (w : world) : path :=
  match w_appdata w with Some p => p | None => ["%APPDATA%"] end.

(** A trash file of a save folder [save] (line 179 or lines 180 and 201). *)
Definition trash_file_of (rest : path) : Prop :=
  rest = ["Trash.json"] \/
  exists n, rest = ["Generators"; n] /\ starts_with_str "Generator_" n = true /\
            ends_with_str ".json" n = true.

(** The files the program may write in world [w]: the DLL the registry
    points to, or a trash file of a [SaveGame_] folder of a Steam ID
    folder of the saves directory. *)
Definition writable (w : world) (q : path) : Prop :=
  (exists sp, w_steam_install w = Some sp /\ q = game_assembly_of sp) \/
  (exists id save rest, q = saves_base_of (appdata_of w) ++ [id; save; "Trash"] ++ rest /\
     is_digits id = true /\ starts_with_str "SaveGame_" save = true /\ trash_file_of rest).

Record frame (w w' : world) : Prop := {
  frame_kind : forall q, node_kind (fs_lookup (w_fs w') q) = node_kind (fs_lookup (w_fs w) q);
  frame_steam : w_steam_install w' = w_steam_install w;
  frame_appdata : w_appdata w' = w_appdata w;
  frame_only : forall q, fs_lookup (w_fs w') q <> fs_lookup (w_fs w) q -> writable w q;
  (** the entries, in [os.listdir] order *)
  frame_keys : (w_fs w').*1 = (w_fs w).*1
}.

Lemma writable_frame w w' q : frame w w' -> writable w' q <-> writable w q.
Proof. intros [_ Hs Ha _ _]. unfold writable, appdata_of. by rewrite Hs, Ha. Qed.

#[export] Instance frame_preorder : PreOrder frame.
Proof.
  split.
  - intros w. split; done.
  - intros w1 w2 w3 [K12 S12 A12 O12 D12] [K23 S23 A23 O23 D23]. split.
    + intros q. by rewrite K23, K12.
    + by rewrite S23, S12.
    + by rewrite A23, A12.
    + intros q Hq. destruct (decide (fs_lookup (w_fs w2) q = fs_lookup (w_fs w1) q)) as [E|E].
      * rewrite <-E in Hq. apply (writable_frame w1 w2); [by split|]. by apply O23.
      * by apply O12.
    + by rewrite D23, D12.
Qed.

(** A world update that leaves the file system, the registry and
    [APPDATA] alone. *)
Lemma frame_same_fs w w' :
  w_fs w' = w_fs w -> w_steam_install w' = w_steam_install w -> w_appdata w' = w_appdata w ->
  frame w w'.
Proof. intros Hf Hs Ha. split; rewrite ?Hf; done. Qed.

(** Overwriting a writable file. *)
Lemma frame_update_file w p c c' :
  fs_lookup (w_fs w) p = Some (NFile c) -> writable w p ->
  frame w (set_fs (fs_update (w_fs w) p (NFile c')) w).
Proof.
  intros Hp Hw. split; try done; simpl; try (intros q; rewrite fs_lookup_update).
  - case_decide; [subst; by rewrite Hp | done].
  - case_decide; [by subst | done].
  - apply fs_update_keys. by rewrite Hp.
Qed.

(** ** Stable statements *)

Definition stable {A} (m : PyM world A) : Prop := forall w, frame w (snd (m w)).

Lemma stable_ret {A} (a : A) : stable (py_ret a).
Proof. intros w. reflexivity. Qed.

Lemma stable_raise {A} (e : exc) : stable (@py_raise world A e).
Proof. intros w. reflexivity. Qed.

Lemma stable_lift {A} (o : outcome A) : stable (py_lift o).
Proof. intros w. reflexivity. Qed.

Lemma stable_get_state : stable py_get_state.
Proof. intros w. reflexivity. Qed.

(** Bind, with what the first statement guarantees of its result in the
    world it leaves. *)
Lemma stable_bind_post {A B} (m : PyM world A) (Q : A -> world -> Prop) (k : A -> PyM world B) :
  stable m -> (forall w a w', m w = (Ok a, w') -> Q a w') ->
  (forall a w, Q a w -> frame w (snd (k a w))) -> stable (py_bind m k).
Proof.
  intros Hm HQ Hk w. unfold py_bind. specialize (Hm w).
  destruct (m w) as [[a|e] w'] eqn:E; simpl in *; [|done].
  etrans; [exact Hm|]. apply Hk. by eapply HQ.
Qed.

Lemma stable_bind {A B} (m : PyM world A) (k : A -> PyM world B) :
  stable m -> (forall a, stable (k a)) -> stable (py_bind m k).
Proof. intros Hm Hk. apply (stable_bind_post m (fun _ _ => True)); [done | done | intros a ? _; apply Hk]. Qed.

Lemma stable_try {A} (m : PyM world A) (c : exc -> bool) (h : exc -> PyM world A) :
  stable m -> (forall e, stable (h e)) -> stable (py_try_except m c h).
Proof.
  intros Hm Hh w. unfold py_try_except. specialize (Hm w).
  destruct (m w) as [[a|e] w'] eqn:E; simpl in *; [done|].
  destruct (c e); simpl; [|done]. etrans; [exact Hm|]. apply Hh.
Qed.

(** A loop whose body is stable on the elements it runs on. *)
Lemma stable_for_in {A} (xs : list A) (body : A -> PyM world unit) :
  (forall x, x ∈ xs -> stable (body x)) -> stable (py_for xs body).
Proof.
  induction xs as [|x xs IH]; intros Hb; simpl; [apply stable_ret|].
  apply stable_bind; [apply Hb; set_solver|]. intros _. apply IH. set_solver.
Qed.

Lemma stable_for {A} (xs : list A) (body : A -> PyM world unit) :
  (forall x, stable (body x)) -> stable (py_for xs body).
Proof. intros Hb. by apply stable_for_in. Qed.

(** ** The primitives *)

(** Statements that read the world or only log to the console. *)
Ltac stable_prim :=
  intros ?w; repeat (case_match; simpl); apply frame_same_fs; reflexivity.

Lemma stable_print m : stable (print m).
Proof. unfold print, py_modify. stable_prim. Qed.

Lemma stable_input prompt : stable (py_input prompt).
Proof. unfold py_input. stable_prim. Qed.

Lemma stable_path_exists p : stable (path_exists p).
Proof. unfold path_exists. stable_prim. Qed.

Lemma stable_path_isdir p : stable (path_isdir p).
Proof. unfold path_isdir. stable_prim. Qed.

Lemma stable_listdir d : stable (listdir d).
Proof. unfold listdir. stable_prim. Qed.

Lemma stable_open_file p : stable (open_file p).
Proof. unfold open_file. stable_prim. Qed.

Lemma stable_read_all h : stable (read_all h).
Proof. unfold read_all. stable_prim. Qed.

Lemma stable_glob_generators d : stable (glob_generators d).
Proof. unfold glob_generators. stable_prim. Qed.

Create HintDb pyframe discriminated.
#[export] Hint Resolve stable_ret stable_raise stable_lift stable_get_state stable_print
  stable_input stable_path_exists stable_path_isdir stable_listdir stable_open_file
  stable_read_all stable_glob_generators : pyframe.

(** Prove [stable] of a statement that writes nothing. *)
Ltac solve_stable :=
  repeat match goal with
  | |- stable (py_bind _ _) => apply stable_bind; intros
  | |- stable (py_try_except _ _ _) => apply stable_try; intros
  | |- stable (py_for _ _) => apply stable_for; intros
  | |- stable (match ?x with _ => _ end) => destruct x
  | |- stable (if ?b then _ else _) => destruct b
  | |- stable _ => eauto with pyframe
  end.

(** ** Statements stable under a precondition *)

Definition stable_at (P : world -> Prop) {A} (m : PyM world A) : Prop :=
  forall w, P w -> frame w (snd (m w)).

(** A precondition that every run keeps. *)
Definition frame_closed (P : world -> Prop) : Prop := forall w w', frame w w' -> P w -> P w'.

Lemma stable_at_of {A} (P : world -> Prop) (m : PyM world A) : stable m -> stable_at P m.
Proof. intros Hm w _. apply Hm. Qed.

(** Bind: [Q] is what the first statement leaves for the second, in the
    world it leaves. *)
Lemma stable_at_weaken {A} (P' P : world -> Prop) (m : PyM world A) :
  stable_at P' m -> (forall w, P w -> P' w) -> stable_at P m.
Proof. intros Hm HP w Hw. by apply Hm, HP. Qed.

Lemma stable_at_bind {A B} (P : world -> Prop) (Q : A -> world -> Prop)
    (m : PyM world A) (k : A -> PyM world B) :
  stable_at P m -> (forall w a w', P w -> m w = (Ok a, w') -> Q a w') ->
  (forall a, stable_at (Q a) (k a)) -> stable_at P (py_bind m k).
Proof.
  intros Hm HQ Hk w Hw. unfold py_bind. specialize (Hm w Hw).
  destruct (m w) as [[a|e] w'] eqn:E; simpl in *; [|done].
  etrans; [exact Hm|]. apply Hk. by eapply HQ.
Qed.

Lemma stable_at_bind_closed {A B} (P : world -> Prop) (m : PyM world A) (k : A -> PyM world B) :
  frame_closed P -> stable_at P m -> (forall a, stable_at P (k a)) -> stable_at P (py_bind m k).
Proof.
  intros HP Hm Hk. apply (stable_at_bind P (fun _ => P)); [done| |done].
  intros w a w' Hw E. apply (HP w); [|done]. specialize (Hm w Hw). by rewrite E in Hm.
Qed.

Lemma stable_at_try {A} (P : world -> Prop) (m : PyM world A) (c : exc -> bool)
    (h : exc -> PyM world A) :
  frame_closed P -> stable_at P m -> (forall e, stable_at P (h e)) ->
  stable_at P (py_try_except m c h).
Proof.
  intros HP Hm Hh w Hw. unfold py_try_except. specialize (Hm w Hw).
  destruct (m w) as [[a|e] w'] eqn:E; simpl in *; [done|].
  destruct (c e); simpl; [|done]. etrans; [exact Hm|]. apply Hh. by apply (HP w).
Qed.

Lemma stable_at_for_in {A} (P : world -> Prop) (xs : list A) (body : A -> PyM world unit) :
  frame_closed P -> (forall x, x ∈ xs -> stable_at P (body x)) -> stable_at P (py_for xs body).
Proof.
  intros HP. induction xs as [|x xs IH]; intros Hb; simpl; [by apply stable_at_of, stable_ret|].
  apply stable_at_bind_closed; [done | apply Hb; set_solver|]. intros _. apply IH. set_solver.
Qed.

Lemma frame_closed_writable (R : path -> Prop) :
  frame_closed (fun w => forall p, R p -> writable w p).
Proof. intros w w' Hf Hw p Hp. apply (writable_frame w w'); auto. Qed.

Lemma frame_closed_writable_at (q : path) : frame_closed (fun w => writable w q).
Proof. intros w w' Hf Hw. by apply (writable_frame w w'). Qed.

Lemma frame_closed_and (P1 P2 : world -> Prop) :
  frame_closed P1 -> frame_closed P2 -> frame_closed (fun w => P1 w /\ P2 w).
Proof. intros H1 H2 w w' Hf [??]. split; [by apply (H1 w) | by apply (H2 w)]. Qed.

Lemma frame_closed_kind (q : path) (k : option bool) :
  frame_closed (fun w => node_kind (fs_lookup (w_fs w) q) = k).
Proof. intros w w' Hf Hk. by rewrite (frame_kind _ _ Hf). Qed.

Lemma frame_log_io w w' ms ws : frame w w' -> frame w (log_io w' ms ws).
Proof. intros Hf. etrans; [exact Hf|]. by apply frame_same_fs. Qed.

(** ** Writes *)

Lemma stable_seek_write h off data : stable_at (fun w => writable w h) (seek_write h off data).
Proof.
  intros w Hh. unfold seek_write. destruct (fs_lookup (w_fs w) h) as [[c|]|] eqn:E; simpl;
    [|reflexivity..].
  unfold set_file. apply frame_log_io. by apply (frame_update_file w h c).
Qed.

(** [open(p, "w")] on a file that exists: the file stays a file. *)
Lemma stable_write_file p data :
  stable_at (fun w => node_kind (fs_lookup (w_fs w) p) = Some true /\ writable w p)
    (write_file p data).
Proof.
  intros w [Hk Hw]. unfold write_file.
  destruct (fs_lookup (w_fs w) p) as [[c|]|] eqn:E; simpl in Hk; try discriminate.
  case_decide; simpl; [|reflexivity]. by apply (frame_update_file w p c).
Qed.

#[export] Hint Resolve frame_closed_writable_at frame_closed_writable frame_closed_kind
  stable_seek_write stable_write_file : pyframe.

(** Prove [stable_at P] of a statement that writes only through the
    lemmas above. *)
Ltac solve_closed :=
  repeat first [apply frame_closed_and | apply frame_closed_writable_at | apply frame_closed_writable
                | apply frame_closed_kind].

Ltac solve_stable_at_with tac :=
  repeat match goal with
  | |- stable_at _ (py_bind _ _) => tac
  | |- stable_at _ (py_bind _ _) => apply stable_at_bind_closed; [solve_closed | | intros]
  | |- stable_at _ (py_try_except _ _ _) => apply stable_at_try; [solve_closed | | intros]
  | |- stable_at _ (match ?x with _ => _ end) => destruct x
  | |- stable_at _ (if ?b then _ else _) => destruct b
  | |- stable_at _ _ => solve [eauto with pyframe]
  | |- stable_at _ _ => eapply stable_at_weaken; [solve [eauto with pyframe] | intros ? ?; tauto]
  | |- stable_at _ _ => apply stable_at_of; solve_stable; fail
  end.

Ltac solve_stable_at := solve_stable_at_with fail.

(** ** The patcher writes only the DLL it was given *)

Lemma stable_find_pattern `{BytesFind} p pat : stable (find_pattern p pat).
Proof. unfold find_pattern. solve_stable. Qed.

Lemma stable_find_all_patterns `{BytesFind} p pat : stable (find_all_patterns p pat).
Proof. unfold find_all_patterns. solve_stable. Qed.

Lemma open_file_ok p w h w' : open_file p w = (Ok h, w') -> p = Some h.
Proof. unfold open_file. repeat case_match; congruence. Qed.

Lemma stable_write_crt_sites f offs pat lim :
  stable_at (fun w => writable w f) (write_crt_sites f offs pat lim).
Proof.
  unfold write_crt_sites. apply stable_at_for_in; [solve_closed|]. intros off Hoff.
  apply stable_at_bind_closed; [solve_closed | apply stable_seek_write|]. intros _.
  apply stable_at_of, stable_print.
Qed.

(** The handle [open] returns is the path it was given. *)
Lemma stable_at_open_then {A} (dll_path : option path) (k : path -> PyM world A) :
  (forall f, stable_at (fun w => writable w f /\ forall p, dll_path = Some p -> writable w p) (k f)) ->
  stable_at (fun w => forall p, dll_path = Some p -> writable w p) (py_bind (open_file dll_path) k).
Proof.
  intros Hk. apply (stable_at_bind _ (fun f w => writable w f /\ forall p, dll_path = Some p -> writable w p));
    [by apply stable_at_of, stable_open_file| |done].
    intros w f w' Hw E. assert (w' = w) as -> by (unfold open_file in E; repeat case_match; congruence).
  split; [|done]. apply Hw. by eapply open_file_ok.
Qed.

#[export] Hint Resolve stable_find_pattern stable_find_all_patterns stable_write_crt_sites : pyframe.

Lemma stable_modify_trash_limit `{BytesFind} dll_path limit :
  stable_at (fun w => forall p, dll_path = Some p -> writable w p) (modify_trash_limit dll_path limit).
Proof.
  unfold modify_trash_limit.
  solve_stable_at_with ltac:(eapply stable_at_weaken;
    [apply stable_at_open_then; intros | intros ? ?; tauto]).
Qed.

Lemma stable_of_at {A} (m : PyM world A) : stable_at (fun _ => True) m -> stable m.
Proof. intros Hm w. by apply Hm. Qed.

Lemma stable_get_game_assembly_path : stable get_game_assembly_path.
Proof. unfold get_game_assembly_path, get_steam_install_path. solve_stable; stable_prim. Qed.

(** [get_game_assembly_path] returns the DLL under the registered Steam
    directory. *)
Lemma get_game_assembly_path_ok w a w' :
  get_game_assembly_path w = (Ok a, w') -> forall p, a = Some p -> writable w' p.
Proof.
  intros E p ->. pose proof (stable_get_game_assembly_path w) as Hf. rewrite E in Hf.
  apply (writable_frame w w' p Hf). left.
  unfold get_game_assembly_path, get_steam_install_path, path_exists, print, py_modify in E.
  py_unfold. simpl in E. repeat case_match; simplify_eq; eauto.
Qed.

Lemma stable_permanent_trash_gen `{BytesFind} limit : stable (permanent_trash_gen limit).
Proof.
  apply stable_of_at. unfold permanent_trash_gen.
  apply (stable_at_bind _ (fun a w => forall p, a = Some p -> writable w p)).
  - apply stable_at_of, stable_get_game_assembly_path.
  - intros w a w' _ E. by apply (get_game_assembly_path_ok w).
  - intros a. apply stable_at_bind_closed; [solve_closed | apply stable_modify_trash_limit|].
    intros _. apply stable_at_of, stable_ret.
Qed.

(** ** The save editor writes only trash files of a listed save *)

(** A [SaveGame_] folder of a Steam ID folder of the saves directory. *)
Definition save_path_ok (ad sp : path) : Prop :=
  exists id save, sp = saves_base_of ad ++ [id; save] /\ is_digits id = true /\
    starts_with_str "SaveGame_" save = true.

Lemma first_steam_id_ok base folders w a w' :
  first_steam_id base folders w = (Ok a, w') ->
  forall p, a = Some p -> exists id, p = base ++ [id] /\ is_digits id = true.
Proof.
  revert w. induction folders as [|f fs IH]; intros w; simpl; py_unfold; unfold path_isdir; simpl;
    [by intros [= <- _]|].
  destruct (bool_decide _ && is_digits f) eqn:E; [|apply IH].
  intros [= <- _] p [= <-]. apply andb_true_iff in E. eexists; split; [done | tauto].
Qed.

Lemma get_saves_directory_ok w a w' :
  get_saves_directory w = (Ok a, w') ->
  forall d, a = Some d -> exists id, d = saves_base_of (appdata_of w) ++ [id] /\ is_digits id = true.
Proof.
  unfold get_saves_directory, expand_appdata, print, py_modify, path_exists, listdir.
  py_unfold. simpl. intros E d ->. unfold appdata_of.
  repeat case_match; simplify_eq; by eapply first_steam_id_ok.
Qed.

Lemma save_entry_ok `{JsonCodec} d folder w es w' :
  save_entry d folder w = (Ok es, w') ->
  forall e, e ∈ es -> e.2 = d ++ [folder] /\ starts_with_str "SaveGame_" folder = true.
Proof.
  unfold save_entry, path_isdir, path_exists, py_try_except. py_unfold. simpl.
  destruct (bool_decide _ && _ && _) eqn:G; simpl; [|intros [= <- _]; set_solver].
  apply andb_true_iff in G as [[_ G]%andb_true_iff _].
  repeat case_match; intros [= <- _] x Hx; simplify_eq; set_solver.
Qed.

Lemma collect_saves_ok `{JsonCodec} d folders w es w' :
  collect_saves d folders w = (Ok es, w') ->
  forall e, e ∈ es -> exists f, e.2 = d ++ [f] /\ starts_with_str "SaveGame_" f = true.
Proof.
  revert w es w'. induction folders as [|f fs IH]; intros w es w'; simpl; py_unfold; [intros [= <- _]; set_solver|].
  destruct (save_entry d f w) as [[es1|] w1] eqn:E1; simpl; [|by intros [=]].
  destruct (collect_saves d fs w1) as [[es2|] w2] eqn:E2; simpl; [|by intros [=]].
  intros [= <- _] e He. apply elem_of_app in He as [He|He]; [|by eapply IH].
  exists f. by eapply save_entry_ok.
Qed.

Lemma stable_expand_appdata : stable expand_appdata.
Proof. unfold expand_appdata. stable_prim. Qed.

Lemma stable_first_steam_id base folders : stable (first_steam_id base folders).
Proof. induction folders; simpl; solve_stable. Qed.

#[export] Hint Resolve stable_expand_appdata stable_first_steam_id : pyframe.

Lemma stable_get_saves_directory : stable get_saves_directory.
Proof. unfold get_saves_directory. solve_stable. Qed.

Lemma stable_read_json `{JsonCodec} p : stable (read_json p).
Proof. unfold read_json. solve_stable. Qed.

#[export] Hint Resolve stable_get_saves_directory stable_read_json : pyframe.

Lemma stable_get_save_games `{JsonCodec} : stable get_save_games.
Proof.
  unfold get_save_games. solve_stable. generalize (sort_strings a).
  intros folders. induction folders; simpl; solve_stable. unfold save_entry. solve_stable.
Qed.

Lemma get_save_games_ok `{JsonCodec} w games w' :
  get_save_games w = (Ok games, w') -> forall e, e ∈ games -> save_path_ok (appdata_of w) e.2.
Proof.
  unfold get_save_games. py_unfold.
  destruct (get_saves_directory w) as [[[d|]|] w1] eqn:E1; simpl; [|intros [= <- _]; set_solver|by intros [=]].
  destruct (get_saves_directory_ok w _ _ E1 d eq_refl) as (id & -> & Hid).
  destruct (listdir _ w1) as [[fs|] w2]; simpl; [|by intros [=]].
  intros E e He. destruct (collect_saves_ok _ _ _ _ _ E e He) as (f & -> & Hf).
  exists id, f. by rewrite <-app_assoc.
Qed.

Lemma select_loop_ok fuel (games : list (string * json * path)) w p w' :
  select_loop fuel games w = (Ok (Some p), w') -> exists e, e ∈ games /\ e.2 = p.
Proof.
  revert w. induction fuel as [|fuel IH]; intros w; simpl; py_unfold; unfold py_input; [by intros [=]|].
  destruct (w_stdin w) as [|l ls]; simpl; [by intros [=]|].
  case_match; [by intros [=]|]. case_match.
  - destruct (games !! _) as [e|] eqn:Hl; simpl; intros [= <-].
    exists e. split; [by eapply list_elem_of_lookup_2 | done].
  - unfold print, py_modify. simpl. apply IH.
Qed.

Lemma stable_select_loop fuel games : stable (select_loop fuel games).
Proof. induction fuel; simpl; solve_stable. Qed.

#[export] Hint Resolve stable_get_save_games stable_select_loop : pyframe.

Lemma stable_select_save `{JsonCodec} : stable select_save.
Proof. unfold select_save. solve_stable. Qed.

Lemma select_save_ok `{JsonCodec} w p w' :
  select_save w = (Ok (Some p), w') -> save_path_ok (appdata_of w') p.
Proof.
  intros E. pose proof (stable_select_save w) as Hf. rewrite E in Hf. simpl in Hf.
  unfold appdata_of. rewrite (frame_appdata _ _ Hf). fold (appdata_of w).
  revert E. unfold select_save. py_unfold.
  destruct (get_save_games w) as [[games|] w1] eqn:E1; cbn -[select_loop py_for]; [|by intros [=]].
  destruct games as [|g gs]; [unfold print, py_modify; simpl; by intros [=]|].
  unfold print, py_modify. cbn -[select_loop py_for].
  repeat case_match; cbn -[select_loop]; try by intros [=].
  intros E. destruct (select_loop_ok _ _ _ _ _ E) as (e & He & <-).
  by apply (get_save_games_ok w (g :: gs) w1).
Qed.

Lemma read_json_ok `{JsonCodec} p w j w' :
  read_json p w = (Ok j, w') -> w' = w /\ node_kind (fs_lookup (w_fs w) p) = Some true.
Proof.
  unfold read_json, open_file, read_all, py_lift. py_unfold.
  repeat case_match; simpl; intros; simplify_eq; done.
Qed.

Lemma stable_clear_json_field `{JsonCodec} file key ok err :
  stable_at (fun w => writable w file) (clear_json_field file key ok err).
Proof.
  unfold clear_json_field.
  apply stable_at_try; [solve_closed| |intros; apply stable_at_of, stable_print].
  apply (stable_at_bind _ (fun _ w => node_kind (fs_lookup (w_fs w) file) = Some true /\ writable w file)).
  - apply stable_at_of, stable_read_json.
  - intros w j w' Hw E. by destruct (read_json_ok _ _ _ _ E) as [-> Hk].
  - intros j. solve_stable_at.
Qed.

Lemma glob_generators_ok d w files w' :
  glob_generators d w = (Ok files, w') ->
  forall f, f ∈ files -> exists n, f = d ++ [n] /\ starts_with_str "Generator_" n = true /\
                                   ends_with_str ".json" n = true.
Proof.
  unfold glob_generators. case_match; [case_match|]; intros [= <- _]; try set_solver.
  intros f (x & -> & Hx)%list_elem_of_fmap. apply list_elem_of_filter in Hx as [Hx _].
  unfold is_generator_log in Hx. apply andb_true_iff in Hx as [[??]%andb_true_iff _]. eauto.
Qed.

Lemma frame_closed_const (Q : Prop) : frame_closed (fun _ => Q).
Proof. by intros ???. Qed.

(** The files of a save folder [sp] that [clear_trash_task] writes. *)
Definition trash_of (sp q : path) : Prop :=
  q = (sp ++ ["Trash"]) ++ ["Trash.json"] \/
  exists n, q = ((sp ++ ["Trash"]) ++ ["Generators"]) ++ [n] /\
    starts_with_str "Generator_" n = true /\ ends_with_str ".json" n = true.

Lemma save_path_trash_writable w sp q :
  save_path_ok (appdata_of w) sp -> trash_of sp q -> writable w q.
Proof.
  intros (id & save & -> & Hid & Hs) Hq. right. exists id, save.
  destruct Hq as [->|(n & -> & Hn)].
  - exists ["Trash.json"]. rewrite <-!app_assoc. split; [done|]. split; [done|]. split; [done|].
    by left.
  - exists ["Generators"; n]. rewrite <-!app_assoc. split; [done|]. split; [done|]. split; [done|].
    right. eauto.
Qed.

Lemma stable_clear_trash_task `{JsonCodec} : stable clear_trash_task.
Proof.
  apply stable_of_at. unfold clear_trash_task.
  apply (stable_at_bind _ (fun a w => forall p, a = Some p -> save_path_ok (appdata_of w) p)).
  - apply stable_at_of, stable_select_save.
  - intros w a w' _ E p ->. by eapply select_save_ok.
  - intros [sp|]; [|apply stable_at_of, stable_ret].
    apply (stable_at_weaken (fun w => forall q, trash_of sp q -> writable w q));
      [|intros w Hw q; by apply save_path_trash_writable, Hw].
    apply stable_at_bind_closed; [solve_closed | apply stable_at_of, stable_path_exists |].
    intros ex. apply stable_at_bind_closed; [solve_closed | |].
    { destruct ex; [|apply stable_at_of, stable_ret].
      eapply stable_at_weaken; [apply stable_clear_json_field|]. intros w Hw. apply Hw. by left. }
    intros _. apply stable_at_bind_closed; [solve_closed | apply stable_at_of, stable_path_exists |].
    intros exg. apply stable_at_bind_closed; [solve_closed | | intros _; apply stable_at_of, stable_print].
    destruct exg; [|apply stable_at_of, stable_ret].
    apply (stable_at_bind _ (fun files w => (forall q, trash_of sp q -> writable w q) /\
                                          forall f, f ∈ files -> trash_of sp f)).
    + apply stable_at_of, stable_glob_generators.
    + intros w files w' Hw E. split.
      * assert (w' = w) as -> by (unfold glob_generators in E; repeat case_match; congruence). done.
      * intros f Hf. right. by apply (glob_generators_ok _ w files w').
    + intros files. apply stable_at_for_in.
      { apply frame_closed_and; [apply frame_closed_writable | apply frame_closed_const]. }
      intros f Hf. eapply stable_at_weaken; [apply stable_clear_json_field|].
      intros w [Hw Hfs]. by apply Hw, Hfs.
Qed.

(** ** The menu *)

#[export] Hint Resolve stable_clear_trash_task stable_permanent_trash_gen : pyframe.

Lemma stable_main_loop `{BytesFind} `{JsonCodec} fuel : stable (main_loop fuel).
Proof. induction fuel; simpl; unfold print_menu; solve_stable. Qed.

Lemma stable_main `{BytesFind} `{JsonCodec} : stable main.
Proof. unfold main. solve_stable. apply stable_main_loop. Qed.

(** ** What [main] does to the file system *)

(** C17. Whatever is typed, [main] never creates, deletes or retypes an
    entry of the file system: every path is a file, a directory or
    absent after the run exactly as before.  The writes of lines 89-97
    overwrite a file opened ["r+b"], and those of lines 191-192 and
    209-210 rewrite a file [json.load] has just read. *)
Theorem main_keeps_entries `{BytesFind} `{JsonCodec} (w : world) (q : path) :
  node_kind (fs_lookup (w_fs (snd (main w))) q) = node_kind (fs_lookup (w_fs w) q).
Proof. apply (frame_kind _ _ (stable_main w)). Qed.

(** C18. The only files [main] changes are the DLL under the Steam
    directory of the registry ([game_assembly_of], line 40) and the
    trash files of a [SaveGame_] folder of a Steam ID folder of the
    saves directory: its [Trash/Trash.json] and its
    [Trash/Generators/Generator_*.json]. *)
Theorem main_writes_only_dll_and_trash `{BytesFind} `{JsonCodec} (w : world) (q : path) :
  fs_lookup (w_fs (snd (main w))) q <> fs_lookup (w_fs w) q -> writable w q.
Proof. apply (frame_only _ _ (stable_main w)). Qed.

Lemma node_kind_dir n : node_kind n = Some false <-> n = Some NDir.
Proof. destruct n as [[]|]; naive_solver. Qed.

Lemma parent_ok_frame w w' p : frame w w' -> parent_ok (w_fs w') p = parent_ok (w_fs w) p.
Proof.
  intros Hf. destruct p as [|x [|y p]]; simpl; try done.
  apply bool_decide_ext. rewrite <-!node_kind_dir. by rewrite (frame_kind _ _ Hf).
Qed.

Lemma fs_wf_frame w w' : frame w w' -> fs_wf (w_fs w') = fs_wf (w_fs w).
Proof.
  intros Hf. unfold fs_wf. rewrite (frame_keys _ _ Hf). f_equal.
  induction (w_fs w).*1 as [|p ps IH]; simpl; [done|]. by rewrite IH, (parent_ok_frame w w').
Qed.

(** C24. A type invariant of the world: [main] keeps the file system
    well formed (each path once, every entry below the top level inside
    a directory) and keeps its entries in the same [os.listdir] order,
    whatever is typed. *)
Theorem main_preserves_fs_wf `{BytesFind} `{JsonCodec} (w : world) :
  fs_wf (w_fs w) = true ->
  fs_wf (w_fs (snd (main w))) = true /\ (w_fs (snd (main w))).*1 = (w_fs w).*1.
Proof.
  intros Hwf. pose proof (stable_main w) as Hf.
  split; [by rewrite (fs_wf_frame _ _ Hf) | apply (frame_keys _ _ Hf)].
Qed.

(** ** Witness: clearing the trash of a save game *)

Definition example_appdata : path := ["C:"; "Users"; "player"; "AppData"; "Roaming"].

Definition example_save : path :=
  saves_base_of example_appdata ++ ["76561198000000000"; "SaveGame_1"].

Definition example_trash_json : path := example_save ++ ["Trash"; "Trash.json"].

Definition example_generator_json : path :=
  example_save ++ ["Trash"; "Generators"; "Generator_1.json"].

(** A saves directory with one Steam ID folder and one save game whose
    trash and generator log are not empty. *)
Definition example_saves_world (inp : list string) : world :=
  mkWorld
    (dirs_above (saves_base_of example_appdata) ++
    [(saves_base_of example_appdata, NDir);
     (saves_base_of example_appdata ++ ["76561198000000000"], NDir);
     (example_save, NDir);
     (example_save ++ ["Game.json"],
        NFile (json_dump (JObj [("OrganisationName", JStr "Westville Supply")])));
     (example_save ++ ["Trash"], NDir);
     (example_trash_json, NFile (json_dump (JObj [("Items", JArr [JInt 7; JInt 9])])));
     (example_save ++ ["Trash"; "Generators"], NDir);
     (example_generator_json,
        NFile (json_dump (JObj [("GeneratedItems", JArr [JInt 3])])))])
    None (Some example_appdata) inp [] [].

Lemma main_writes_only_dll_and_trash_witness :
  let w := example_saves_world ["1"; "1"; "5"] in
  fs_lookup (w_fs (snd (main w))) example_trash_json <> fs_lookup (w_fs w) example_trash_json /\
  writable w example_trash_json.
Proof.
  intros w.
  assert (Hq : fs_lookup (w_fs (snd (main w))) example_trash_json
               <> fs_lookup (w_fs w) example_trash_json)
    by (match goal with |- ?a <> ?b => apply (bool_decide_eq_false_1 (a = b)) end;
        vm_compute; reflexivity).
  split; [exact Hq | exact (main_writes_only_dll_and_trash w example_trash_json Hq)].
Defined.

(** End to end on a save game: typing 1, choosing save 1 and typing
    5 rewrites [Trash.json] with [Items] emptied and the generator log
    with [GeneratedItems] emptied, leaves [Game.json] alone, and ends
    with [SystemExit]. *)
Example main_clears_example_save :
  let w := example_saves_world ["1"; "1"; "5"] in
  fst (main w) = Raise SystemExit /\
  fs_lookup (w_fs (snd (main w))) example_trash_json =
    Some (NFile (json_dump (JObj [("Items", JArr [])]))) /\
  fs_lookup (w_fs (snd (main w))) example_generator_json =
    Some (NFile (json_dump (JObj [("GeneratedItems", JArr [])]))) /\
  fs_lookup (w_fs (snd (main w))) (example_save ++ ["Game.json"]) =
    fs_lookup (w_fs w) (example_save ++ ["Game.json"]).
Proof. vm_compute. repeat split. Qed.

Lemma main_preserves_fs_wf_witness :
  let w := example_saves_world ["1"; "1"; "5"] in
  fs_wf (w_fs w) = true /\
  fs_wf (w_fs (snd (main w))) = true /\ (w_fs (snd (main w))).*1 = (w_fs w).*1.
Proof.
  intros w. assert (Hwf : fs_wf (w_fs w) = true) by (vm_compute; reflexivity).
  split; [exact Hwf | exact (main_preserves_fs_wf w Hwf)].
Defined.
