(* ===== verification/Console.v ===== *)
(** * Console text (src/main.py, every [print] and [input] prompt)

    The model records what the program prints as [msg] events (World.v);
    this file gives each event the exact text Python writes for it:
    [msg_text] translates the f-strings of the [print] calls, with
    [hex()] as [py_hex], [str()] of an int as [py_str_int], of a JSON
    value as [py_str_json] (Python's [repr] for lists, dicts and strings
    inside them), and paths joined with the Windows separator by
    [win_join].  [console_out] is the text of a whole run: [print] ends
    each line with a newline, [input] writes its prompt without one.

    The theorems: the console lines of a DLL patch, read back with
    [parse_hex] and [parse_dec], report exactly the offsets written and
    the limit set; [repr] of a string reads back to it ([unrepr]); the
    number printed in front of a save selects it; and three whole
    sessions print the text CPython prints for them. *)

From S2P Require Import Prelude Patterns ByteFind Json World Patcher SaveEditor Menu Frame.
From Stdlib Require Import ZArith NArith HexadecimalString DecimalString
  HexadecimalN DecimalN Ascii.

(** ** Number and string formatting of the Python builtins *)

Section Format.
Local Open Scope string_scope.

Definition nl : string := String "010"%char EmptyString.

(** [hex(n)] for [n >= 0]: "0x" and the lowercase hex digits, "0x0" for
    zero. *)
Definition py_hex (n : nat) : string :=
  "0x" ++ HexadecimalString.NilZero.string_of_uint (N.to_hex_uint (N.of_nat n)).

(** [str(n)] of a non-negative int. *)
Definition py_str_N (n : N) : string :=
  DecimalString.NilZero.string_of_uint (N.to_uint n).

(** [str(z)] of an int. *)
Definition py_str_int (z : Z) : string :=
  if (z <? 0)%Z then "-" ++ py_str_N (Z.abs_N z) else py_str_N (Z.to_N z).

(** [os.path.join] on Windows of components that carry no separator. *)
Definition win_join (p : path) : string := String.concat "\" p.

(** Two lowercase hex digits of a byte, as [repr] writes [\xNN]. *)
Definition hex2 (n : nat) : string :=
  let d k := String.get k "0123456789abcdef" in
  match d (n / 16), d (n mod 16) with
  | Some a, Some b => String a (String b EmptyString)
  | _, _ => EmptyString
  end.

(** [str.isprintable] of a code point below 256 (CPython's
    [Py_UNICODE_ISPRINTABLE]): controls, DEL, U+0080..U+00A0 and the
    soft hyphen U+00AD are not printable. *)
Definition latin1_printable (n : nat) : bool :=
  ((32 <=? n) && negb (n =? 127) && negb ((128 <=? n) && (n <=? 160)) && negb (n =? 173))%nat.

(** One character of [repr(s)] with quote [q]. *)
Definition repr_char (q c : ascii) : string :=
  let n := Ascii.nat_of_ascii c in
  if Ascii.eqb c "\" then "\\"
  else if Ascii.eqb c q then String "\" (String q EmptyString)
  else if (n =? 9)%nat then "\t"
  else if (n =? 10)%nat then "\n"
  else if (n =? 13)%nat then "\r"
  else if latin1_printable n then String c EmptyString
  else "\x" ++ hex2 n.

(** [repr(s)]: single quotes, unless [s] has a single quote and no
    double quote. *)
Definition py_repr_str (s : string) : string :=
  let sq := "'"%char in
  let dq := Ascii.ascii_of_nat 34 in
  let q := if existsb (Ascii.eqb sq) (String.list_ascii_of_string s)
              && negb (existsb (Ascii.eqb dq) (String.list_ascii_of_string s))
           then dq else sq in
  String q (String.concat "" (map (repr_char q) (String.list_ascii_of_string s)) ++ String q EmptyString).

(** [repr] of a value [json.load] returns. *)
Fixpoint py_repr_json (j : json) : string :=
  match j with
  | JNull => "None"
  | JBool true => "True"
  | JBool false => "False"
  | JInt z => py_str_int z
  | JStr s => py_repr_str s
  | JArr l => "[" ++ String.concat ", " (map py_repr_json l) ++ "]"
  | JObj kvs =>
      "{" ++ String.concat ", " (map (fun kv => py_repr_str kv.1 ++ ": " ++ py_repr_json kv.2) kvs)
      ++ "}"
  end.

(** [str] of such a value: a string is itself, the rest is its [repr]. *)
Definition py_str_json (j : json) : string :=
  match j with
  | JStr s => s
  | _ => py_repr_json j
  end.

End Format.

(** ** The text of each message *)

Section Text.
Local Open Scope string_scope.

(** [str(e)] of a caught exception is the operating system's message
    ([[Errno 2] No such file or directory: ...]), which the model does
    not track: it is a parameter of the rendering. *)
Variable exc_str : exc -> string.

(** Lines 223-227; [MsgMenuLine n] is printed for [n] = 0..4 only. *)
Definition menu_line (n : nat) : string :=
  match n with
  | 0 => "____________________________________________"
  | 1 => "1 - Clear trash from a Saved Game"
  | 2 => "2 - Disable trash generation"
  | 3 => "3 - Enable trash generation"
  | _ => "5 - Exit the Mod Menu"
  end.

(** The argument of each [print] call, after f-string formatting. *)
Definition msg_text (m : msg) : string :=
  match m with
  (* line 36 *)
  | MsgSteamNotFound => "Failed to locate Steam installation."
  (* line 44 *)
  | MsgAssemblyNotFound => "Failed to locate Schedule I Game Assembly"
  (* lines 55, 68 *)
  | MsgPatternNotFound => "Error: The expected pattern was not found in the file."
  (* line 81 *)
  | MsgOffsetNotFound => "Offset not found"
  (* line 91 *)
  | MsgModifiedLimit off lim =>
      "Modified at offset " ++ py_hex off ++ " to set max trash limit to " ++ py_str_N lim
  (* line 98 *)
  | MsgModifiedCrt off lim =>
      "Modified trash creation function at offset " ++ py_hex off
        ++ " to have max trash limit " ++ py_str_N lim
  (* line 111 *)
  | MsgSavesPath p => win_join p
  (* line 113 *)
  | MsgNoSavesDir => "Error: Could not locate the Saves directory."
  (* line 122 *)
  | MsgNoSteamId => "Error: No valid Steam ID folder found inside Saves."
  (* line 145 *)
  | MsgReadWarning p => "Warning: Could not read " ++ win_join p
  (* line 154 *)
  | MsgNoSaves => "No save games found."
  (* line 157 *)
  | MsgAvailable => nl ++ "Available Options:"
  (* line 158 *)
  | MsgReturnOption => "0 - Return to Menu"
  (* line 160 *)
  | MsgSaveOption i org => py_str_N (N.of_nat i) ++ " - " ++ py_str_json org
  (* line 168 *)
  | MsgInvalidSelection => "Invalid selection. Please enter a valid number."
  (* line 194 *)
  | MsgClearedTrash p => "Cleared trash in: " ++ win_join p
  (* line 197 *)
  | MsgTrashError e => "Error modifying Trash.json: " ++ exc_str e
  (* line 212 *)
  | MsgClearedGenerated p => "Cleared generated items in: " ++ win_join p
  (* line 215 *)
  | MsgGeneratorError p e => "Error modifying " ++ win_join p ++ ": " ++ exc_str e
  (* line 217 *)
  | MsgAllCleared => "All trash and generated items cleared successfully!"
  (* line 220 *)
  | MsgBanner => "Schedule I Mod Menu - Created by XOWithSauce" ++ nl
  (* lines 223-227 *)
  | MsgMenuLine n => menu_line n
  (* line 229 *)
  | MsgSeparator => "____________________________________________" ++ nl
  (* line 232 *)
  | MsgInvalidInput => "Invalid input. Type your option number and press enter."
  (* line 248 *)
  | MsgExiting => String.concat "" (repeat nl 20) ++ "Exiting in 5 seconds..."
  (* line 249 *)
  | MsgThanks => "Thank you for using the program."
  (* lines 163, 228 *)
  | MsgPrompt prompt => prompt
  end.

(** What reaches standard output: [print] adds [end="\n"], [input]
    writes its prompt as is. *)
Definition console_out (ms : list msg) : string :=
  String.concat "" (map (fun m => match m with
                                  | MsgPrompt _ => msg_text m
                                  | _ => msg_text m ++ nl
                                  end) ms).

End Text.

(** ** Reading the numbers back from the console *)

Section Reading.
Local Open Scope string_scope.

(** [int(s[2:], 16)] of a [hex()] text. *)
Definition parse_hex (s : string) : option nat :=
  match s with
  | String "0" (String "x" digits) =>
      option_map (fun d => N.to_nat (N.of_hex_uint d))
        (HexadecimalString.NilZero.uint_of_string digits)
  | _ => None
  end.

(** [int(s)] of a [str()] text of a non-negative int. *)
Definition parse_dec (s : string) : option N :=
  option_map N.of_uint (DecimalString.NilZero.uint_of_string s).

(** [s.removeprefix(p)] when [s] starts with [p]. *)
Fixpoint strip_prefix (p s : string) : option string :=
  match p, s with
  | EmptyString, _ => Some s
  | String a p', String b s' => if Ascii.eqb a b then strip_prefix p' s' else None
  | String _ _, EmptyString => None
  end.

(** [s.partition(" ")] split before the first space. *)
Fixpoint split_word (s : string) : string * string :=
  match s with
  | EmptyString => (EmptyString, EmptyString)
  | String c s' =>
      if Ascii.eqb c " " then (EmptyString, s)
      else let (w, r) := split_word s' in (String c w, r)
  end.

Definition read_report (pre mid line : string) : option (nat * N) :=
  rest ← strip_prefix pre line;
  let (h, tl) := split_word rest in
  d ← strip_prefix mid tl;
  off ← parse_hex h;
  lim ← parse_dec d;
  Some (off, lim).

(** The offset and limit a "Modified ..." line of lines 91 and 98
    reports; [None] for any other line. *)
Definition read_patch_line (line : string) : option (nat * N) :=
  match read_report "Modified at offset " " to set max trash limit to " line with
  | Some r => Some r
  | None => read_report "Modified trash creation function at offset "
              " to have max trash limit " line
  end.

Fixpoint no_space (s : string) : bool :=
  match s with
  | EmptyString => true
  | String c s' => negb (Ascii.eqb c " ") && no_space s'
  end.

(** [ast.literal_eval] of a string literal [repr] writes: the quote, the
    characters with their escapes, the same quote closing it. *)
Fixpoint str_index (c : ascii) (s : string) : option nat :=
  match s with
  | EmptyString => None
  | String d s' => if Ascii.eqb c d then Some 0 else S <$> str_index c s'
  end.

Definition hex_pair (h1 h2 : ascii) : option ascii :=
  a ← str_index h1 "0123456789abcdef";
  b ← str_index h2 "0123456789abcdef";
  Some (Ascii.ascii_of_nat (16 * a + b)).

Fixpoint unrepr_body (q : ascii) (s : string) : option string :=
  match s with
  | EmptyString => None
  | String c s' =>
      if Ascii.eqb c q then (if s' is EmptyString then Some EmptyString else None)
      else if Ascii.eqb c "\" then
        match s' with
        | String e s'' =>
            if Ascii.eqb e "\" || Ascii.eqb e "'" || (Ascii.nat_of_ascii e =? 34)%nat
            then String e <$> unrepr_body q s''
            else if Ascii.eqb e "t" then String (Ascii.ascii_of_nat 9) <$> unrepr_body q s''
            else if Ascii.eqb e "n" then String (Ascii.ascii_of_nat 10) <$> unrepr_body q s''
            else if Ascii.eqb e "r" then String (Ascii.ascii_of_nat 13) <$> unrepr_body q s''
            else if Ascii.eqb e "x" then
              match s'' with
              | String h1 (String h2 s3) =>
                  d ← hex_pair h1 h2; String d <$> unrepr_body q s3
              | _ => None
              end
            else None
        | EmptyString => None
        end
      else String c <$> unrepr_body q s'
  end.

Definition unrepr (s : string) : option string :=
  match s with
  | String q s' =>
      if Ascii.eqb q "'" || (Ascii.nat_of_ascii q =? 34)%nat then unrepr_body q s' else None
  | EmptyString => None
  end.

End Reading.

(** ** Facts on the readers *)

Section ReadingFacts.
Local Open Scope string_scope.

Lemma strip_prefix_app p s : strip_prefix p (p ++ s) = Some s.
Proof. induction p as [|a p IH]; simpl; [done|]. by rewrite Ascii.eqb_refl. Qed.

Lemma split_word_app x s :
  no_space x = true -> split_word (x ++ String " " s) = (x, String " " s).
Proof.
  induction x as [|c x IH]; simpl; [done|].
  intros [Hc Hx]%andb_prop. apply negb_true_iff in Hc. by rewrite Hc, IH.
Qed.

Lemma hex_digits_no_space d :
  no_space (HexadecimalString.NilZero.string_of_uint d) = true.
Proof.
  assert (forall d, no_space (HexadecimalString.NilEmpty.string_of_uint d) = true) as Hd
    by (intros d'; induction d'; simpl; auto).
  destruct d; simpl; auto.
Qed.

Lemma py_hex_no_space n : no_space (py_hex n) = true.
Proof. apply hex_digits_no_space. Qed.

Lemma hex_uint_not_nil n : N.to_hex_uint n <> Hexadecimal.Nil.
Proof.
  intros H. pose proof (HexadecimalN.Unsigned.of_to n) as E.
  rewrite H in E. simpl in E. subst n. discriminate H.
Qed.

Lemma dec_uint_not_nil n : N.to_uint n <> Decimal.Nil.
Proof.
  intros H. pose proof (DecimalN.Unsigned.of_to n) as E.
  rewrite H in E. simpl in E. subst n. discriminate H.
Qed.

Lemma parse_dec_py_str_N n : parse_dec (py_str_N n) = Some n.
Proof.
  unfold parse_dec, py_str_N.
  cbn -[DecimalString.NilZero.uint_of_string DecimalString.NilZero.string_of_uint].
  rewrite DecimalString.NilZero.usu by apply dec_uint_not_nil. simpl.
  by rewrite DecimalN.Unsigned.of_to.
Qed.

Lemma parse_hex_py_hex n : parse_hex (py_hex n) = Some n.
Proof.
  unfold parse_hex, py_hex. change ("0x" ++ ?s) with (String "0" (String "x" s)).
  cbv beta iota.
  rewrite HexadecimalString.NilZero.usu by apply hex_uint_not_nil. simpl.
  by rewrite HexadecimalN.Unsigned.of_to, Nat2N.id.
Qed.

Lemma read_report_app pre mid off lim :
  read_report pre (String " " mid) (pre ++ py_hex off ++ String " " mid ++ py_str_N lim)
    = Some (off, lim).
Proof.
  unfold read_report. rewrite strip_prefix_app. cbn -[py_hex py_str_N].
  change (String " " mid ++ py_str_N lim) with (String " " (mid ++ py_str_N lim)).
  rewrite split_word_app by apply py_hex_no_space.
  rewrite strip_prefix_app. cbn -[py_hex py_str_N parse_hex parse_dec].
  by rewrite parse_hex_py_hex, parse_dec_py_str_N.
Qed.

Lemma unrepr_repr_char q c t :
  q = "'"%char \/ q = Ascii.ascii_of_nat 34 ->
  unrepr_body q (repr_char q c ++ t) = String c <$> unrepr_body q t.
Proof.
  intros [-> | ->]; destruct c as [[] [] [] [] [] [] [] []]; reflexivity.
Qed.

Lemma unrepr_body_repr q cs :
  q = "'"%char \/ q = Ascii.ascii_of_nat 34 ->
  unrepr_body q (String.concat "" (map (repr_char q) cs) ++ String q EmptyString)
  = Some (String.string_of_list_ascii cs).
Proof.
  intros Hq. induction cs as [|c cs IH].
  - simpl. by rewrite Ascii.eqb_refl.
  - change (map (repr_char q) (c :: cs)) with (repr_char q c :: map (repr_char q) cs).
    rewrite string_concat_empty_cons, string_app_assoc, unrepr_repr_char by done.
    by rewrite IH.
Qed.

(** [str()] of an int, read back by the code's own [isdigit] and
    [int()] ([is_digits], [digits_value]). *)
Lemma digits_value_uint_acc d acc :
  fold_left (fun acc c => 10 * acc + (Ascii.nat_of_ascii c - 48))
    (String.list_ascii_of_string (DecimalString.NilEmpty.string_of_uint d)) acc
  = Nat.of_uint_acc d acc.
Proof.
  revert acc; induction d; intros acc; simpl; rewrite ?IHd, ?Nat.tail_mul_spec;
    f_equal; lia.
Qed.

Lemma pos_of_uint_acc_nat d (p : positive) :
  Pos.to_nat (Pos.of_uint_acc d p) = Nat.of_uint_acc d (Pos.to_nat p).
Proof.
  revert p; induction d; intros p; simpl; rewrite ?IHd, ?Nat.tail_mul_spec;
    f_equal; rewrite ?Pos2Nat.inj_add, ?Pos2Nat.inj_mul; simpl; lia.
Qed.

Lemma nat_of_uint_N d : Nat.of_uint d = N.to_nat (N.of_uint d).
Proof.
  unfold Nat.of_uint. induction d; cbn [Nat.of_uint_acc N.of_uint Pos.of_uint];
    rewrite ?Nat.tail_mul_spec, ?Nat.mul_0_r; [done | exact IHd | ..];
    unfold N.to_nat; by rewrite pos_of_uint_acc_nat.
Qed.

Lemma py_str_N_nonempty n :
  DecimalString.NilZero.string_of_uint (N.to_uint n)
  = DecimalString.NilEmpty.string_of_uint (N.to_uint n).
Proof. pose proof (dec_uint_not_nil n). by destruct (N.to_uint n). Qed.

Lemma digits_value_py_str_N n : digits_value (py_str_N n) = N.to_nat n.
Proof.
  unfold digits_value, py_str_N. rewrite py_str_N_nonempty, digits_value_uint_acc.
  change (Nat.of_uint_acc (N.to_uint n) 0) with (Nat.of_uint (N.to_uint n)).
  by rewrite nat_of_uint_N, DecimalN.Unsigned.of_to.
Qed.

Lemma is_digits_py_str_N n : is_digits (py_str_N n) = true.
Proof.
  unfold is_digits, py_str_N. rewrite py_str_N_nonempty.
  pose proof (dec_uint_not_nil n). destruct (N.to_uint n) as [|d|d|d|d|d|d|d|d|d|d];
    [done|..]; simpl; clear; induction d; simpl; auto.
Qed.

Lemma py_str_N_no_space n : no_space (py_str_N n) = true.
Proof.
  unfold py_str_N. rewrite py_str_N_nonempty. generalize (N.to_uint n).
  intros d; induction d; simpl; auto.
Qed.

End ReadingFacts.

(** ** The patch report *)

Section Report.
Variable exc_str : exc -> string.

Lemma read_patch_line_msgs off lim :
  read_patch_line (msg_text exc_str (MsgModifiedLimit off lim)) = Some (off, lim) /\
  read_patch_line (msg_text exc_str (MsgModifiedCrt off lim)) = Some (off, lim).
Proof.
  unfold read_patch_line, msg_text. split.
  - by rewrite read_report_app.
  - rewrite read_report_app. unfold read_report at 1. simpl. done.
Qed.

Lemma read_crt_lines lim (pat : bytes) (p : path) (l : list nat) :
  omap read_patch_line (map (msg_text exc_str) (map (fun o => MsgModifiedCrt o lim) l))
  = map (fun wr => (wr.1.2, lim)) (map (fun o => (p, o, pat)) l).
Proof.
  induction l as [|o l IH]; [done|]. cbn -[read_patch_line msg_text].
  by rewrite (proj2 (read_patch_line_msgs _ _)), IH.
Qed.

(** The lines [modify_trash_limit] prints, read back: the sites written
    with the limit they report. *)
Lemma read_patch_messages `{BytesFind} p c limit :
  omap read_patch_line (map (msg_text exc_str) (patch_messages c limit))
  = map (fun wr => (wr.1.2, actual_limit_of limit)) (patch_writes p c limit).
Proof.
  unfold patch_messages, patch_writes.
  destruct (bfind c (trash_limit_pattern_of limit) 0) as [[|k]|],
    (occurrences c (trash_crt_pattern_of limit)) as [|o os]; try done.
  cbn -[read_patch_line msg_text].
  by rewrite (proj1 (read_patch_line_msgs _ _)), (proj2 (read_patch_line_msgs _ _)),
    (read_crt_lines _ (trash_crt_pattern_of limit) p).
Qed.

End Report.

(** ** Properties of the console text *)

(** C26. The console report of a patch can be trusted: reading back the
    "Modified ..." lines that [modify_trash_limit] prints (lines 91 and
    98, with [hex()] and [str()] of the values) gives exactly the offsets
    of the [seek]+[write] calls it makes, in order, each with the limit
    [actual_limit] the code computed; every other line it prints reads
    as nothing.  [str(e)] of exceptions is left arbitrary. *)
Theorem patch_report_matches_writes `{BytesFind} (exc_str : exc -> string) (p : path)
    (limit : bool) (c : bytes) (w : world) :
  fs_lookup (w_fs w) p = Some (NFile c) ->
  let w' := snd (modify_trash_limit (Some p) limit w) in
  omap read_patch_line (map (msg_text exc_str) (drop (length (w_stdout w)) (w_stdout w')))
  = map (fun wr => (wr.1.2, actual_limit_of limit)) (drop (length (w_writes w)) (w_writes w')).
Proof.
  intros Hp. rewrite (modify_trash_limit_outputs p limit c) by done. simpl.
  rewrite !drop_app_length. apply read_patch_messages.
Qed.

(** The text of a whole session, as the Python program prints it:
    started with the lines "x" and "5" typed, [main] (lines 219-251)
    writes the banner, the menu, the prompt, the separator, the
    "Invalid input" line, the menu again and the exit lines, character
    for character (the text CPython writes for this input). *)
Example main_transcript_invalid_then_exit (exc_str : exc -> string) :
  console_out exc_str (w_stdout (snd (main (example_menu_world ["x"; "5"])))) =
"Schedule I Mod Menu - Created by XOWithSauce

____________________________________________
1 - Clear trash from a Saved Game
2 - Disable trash generation
3 - Enable trash generation
5 - Exit the Mod Menu
Type your option number: ____________________________________________

Invalid input. Type your option number and press enter.
____________________________________________
1 - Clear trash from a Saved Game
2 - Disable trash generation
3 - Enable trash generation
5 - Exit the Mod Menu
Type your option number: ____________________________________________





















Exiting in 5 seconds...
Thank you for using the program.
"%string.
Proof. vm_compute. reflexivity. Qed.

(** [repr] of a string (how [str()] shows a string inside a list or
    dict org name, line 160) is unambiguous: whatever quote it picks and
    whatever characters it escapes ([\\], the quote, [\t], [\n],
    [\r], [\xNN] for the non-printable code points below 256), reading
    the literal back as Python does gives the original string. *)
Theorem py_repr_str_roundtrip (s : string) : unrepr (py_repr_str s) = Some s.
Proof.
  unfold py_repr_str.
  match goal with |- context [if ?b then _ else _] => destruct b end;
    unfold unrepr; cbv [Ascii.eqb Ascii.nat_of_ascii]; simpl;
    rewrite unrepr_body_repr by auto; by rewrite String.string_of_list_ascii_of_string.
Qed.

(** Typing the decimal text of [i + 1] at the prompt selects save [i]:
    [int()] of [str()] gives the number back, and it passes the
    [isdigit] and range tests of line 166. *)
Lemma select_loop_number fuel (games : list (string * json * path)) i e ls w :
  games !! i = Some e ->
  w_stdin w = py_str_N (N.of_nat (S i)) :: ls ->
  select_loop (S fuel) games w =
    (Ok (Some e.2), set_stdin ls (add_stdout (MsgPrompt "Select a save number: ") w)).
Proof.
  intros Hi Hin. rewrite (select_loop_step _ _ _ _ ls Hin). cbv zeta.
  assert (Hv : digits_value (py_str_N (N.of_nat (S i))) = S i)
    by by rewrite digits_value_py_str_N, Nat2N.id.
  assert (H0 : String.eqb (py_str_N (N.of_nat (S i))) "0" = false).
  { apply String.eqb_neq. intros E. rewrite E in Hv. discriminate Hv. }
  assert (Hc : valid_choice (length games) (py_str_N (N.of_nat (S i))) = true).
  { unfold valid_choice. rewrite is_digits_py_str_N, Hv.
    pose proof (lookup_lt_Some _ _ _ Hi).
    by rewrite (proj2 (Nat.leb_le (S i) (length games))) by lia. }
  rewrite H0, Hc, Hv. simpl. by rewrite Nat.sub_0_r, Hi.
Qed.

Lemma save_option_word (exc_str : exc -> string) k org :
  (split_word (msg_text exc_str (MsgSaveOption k org))).1 = py_str_N (N.of_nat k).
Proof.
  unfold msg_text. change (" - " ++ ?x)%string with (String " " ("- " ++ x)).
  by rewrite split_word_app by apply py_str_N_no_space.
Qed.

(** C28. The number printed in front of a save selects it: once
    [get_save_games] has found the saves, [select_save] (lines 149-168)
    prints "Available Options:", "0 - Return to Menu" and, for the save
    at position [i], the line [MsgSaveOption (i + 1) org] ([enumerate(
    save_games, 1)], lines 159-160); typing the word in front of that
    line makes it print the prompt once, consume that one line and
    return that save's path. *)
Theorem save_number_selects `{JsonCodec} (exc_str : exc -> string)
    (games : list (string * json * path)) (i : nat) (e : string * json * path)
    (ls : list string) (w w1 : world) :
  get_save_games w = (Ok games, w1) ->
  games !! i = Some e ->
  w_stdin w1 = (split_word (msg_text exc_str (MsgSaveOption (S i) e.1.2))).1 :: ls ->
  select_save w =
    (Ok (Some e.2),
     set_stdin ls (log_io w1 ([MsgAvailable; MsgReturnOption] ++
                              imap (fun k g => MsgSaveOption (S k) g.1.2) games ++
                              [MsgPrompt "Select a save number: "]) [])).
Proof.
  intros Hg Hi Hin. rewrite save_option_word in Hin.
  rewrite (select_save_run games w w1 Hg) by (intros ->; discriminate Hi).
  rewrite (select_loop_number _ games i e ls); [|done|exact Hin].
  f_equal. rewrite add_stdout_log_io, log_io_log_io, <-app_assoc. done.
Qed.

(** A patch session, as the Python program prints it: with the
    game installed and its DLL holding the original templates, typing 2,
    3 and 5 prints, character for character, the two "not found" lines
    and "Offset not found" for option 2, the four "Modified ..." lines
    with the offsets in [hex()] for option 3, then the exit lines (the
    text CPython writes for this input); and the DLL is byte for byte
    what it was. *)
Example main_transcript_patch_session (exc_str : exc -> string) :
  let w' := snd (main (set_stdin ["2"; "3"; "5"] (example_world example_dll))) in
  console_out exc_str (w_stdout w') =
"Schedule I Mod Menu - Created by XOWithSauce

____________________________________________
1 - Clear trash from a Saved Game
2 - Disable trash generation
3 - Enable trash generation
5 - Exit the Mod Menu
Type your option number: ____________________________________________

Error: The expected pattern was not found in the file.
Error: The expected pattern was not found in the file.
Offset not found
____________________________________________
1 - Clear trash from a Saved Game
2 - Disable trash generation
3 - Enable trash generation
5 - Exit the Mod Menu
Type your option number: ____________________________________________

Modified at offset 0x1 to set max trash limit to 2000
Modified trash creation function at offset 0x8 to have max trash limit 2000
Modified trash creation function at offset 0x11 to have max trash limit 2000
Modified trash creation function at offset 0x18 to have max trash limit 2000
____________________________________________
1 - Clear trash from a Saved Game
2 - Disable trash generation
3 - Enable trash generation
5 - Exit the Mod Menu
Type your option number: ____________________________________________





















Exiting in 5 seconds...
Thank you for using the program.
"%string /\
  fs_lookup (w_fs w') example_dll_path = Some (NFile example_dll).
Proof. vm_compute. split; reflexivity. Qed.

(** A save-clearing session, as the Python program prints it on
    Windows: with one save game under [%APPDATA%], typing 1, 1 and 5
    prints the saves path (line 111), the list of saves with the
    organisation name, the prompt, the two "Cleared ..." lines with the
    full Windows paths and the success line, then the exit lines,
    character for character the text CPython writes for this input
    (paths joined by [ntpath]). *)
Example main_transcript_clear_session (exc_str : exc -> string) :
  console_out exc_str (w_stdout (snd (main (example_saves_world ["1"; "1"; "5"])))) =
"Schedule I Mod Menu - Created by XOWithSauce

____________________________________________
1 - Clear trash from a Saved Game
2 - Disable trash generation
3 - Enable trash generation
5 - Exit the Mod Menu
Type your option number: ____________________________________________

C:\Users\player\AppData\LocalLow\TVGS\Schedule I\Saves

Available Options:
0 - Return to Menu
1 - Westville Supply
Select a save number: Cleared trash in: C:\Users\player\AppData\LocalLow\TVGS\Schedule I\Saves\76561198000000000\SaveGame_1\Trash\Trash.json
Cleared generated items in: C:\Users\player\AppData\LocalLow\TVGS\Schedule I\Saves\76561198000000000\SaveGame_1\Trash\Generators\Generator_1.json
All trash and generated items cleared successfully!
____________________________________________
1 - Clear trash from a Saved Game
2 - Disable trash generation
3 - Enable trash generation
5 - Exit the Mod Menu
Type your option number: ____________________________________________





















Exiting in 5 seconds...
Thank you for using the program.
"%string.
Proof. vm_compute. reflexivity. Qed.

(** ** Witnesses *)

Lemma patch_report_matches_writes_witness :
  fs_lookup (w_fs (example_world example_dll)) example_dll_path = Some (NFile example_dll) /\
  omap read_patch_line (map (msg_text (fun _ => EmptyString))
    (drop 0 (w_stdout (snd (modify_trash_limit (Some example_dll_path) false
                                 (example_world example_dll))))))
  = map (fun wr => (wr.1.2, actual_limit_of false))
      (drop 0 (w_writes (snd (modify_trash_limit (Some example_dll_path) false
                                   (example_world example_dll))))).
Proof.
  split; [reflexivity|].
  exact (patch_report_matches_writes (fun _ => EmptyString) example_dll_path false
           example_dll (example_world example_dll) eq_refl).
Defined.

Lemma save_number_selects_witness :
  let w := example_saves_world ["1"] in
  let w1 := snd (get_save_games w) in
  let e := ("SaveGame_1", JStr "Westville Supply", example_save) in
  get_save_games w = (Ok [e], w1) /\
  [e] !! 0 = Some e /\
  w_stdin w1 = (split_word (msg_text (fun _ => EmptyString) (MsgSaveOption 1 e.1.2))).1 :: [] /\
  select_save w =
    (Ok (Some e.2),
     set_stdin [] (log_io w1 ([MsgAvailable; MsgReturnOption] ++
                              imap (fun k g => MsgSaveOption (S k) g.1.2) [e] ++
                              [MsgPrompt "Select a save number: "]) [])).
Proof.
  intros w w1 e.
  assert (Hg : get_save_games w = (Ok [e], w1)) by (vm_compute; reflexivity).
  assert (Hin : w_stdin w1 = (split_word (msg_text (fun _ => EmptyString)
                                 (MsgSaveOption 1 e.1.2))).1 :: []) by (vm_compute; reflexivity).
  split; [exact Hg|]. split; [reflexivity|]. split; [exact Hin|].
  exact (save_number_selects (fun _ => EmptyString) [e] 0 e [] w w1 Hg eq_refl Hin).
Defined.
