(* ===== verification/JsonText.v ===== *)
(** * JSON text: [json.dump(data, f, indent=4)] and [json.load(f)]

    The save editor reads each document with [json.load] on a file
    opened as UTF-8 text and writes it back with [json.dump(..., indent=4)]
    (src/main.py, lines 184-191 and 204-210).  Json.v states what the
    code needs of the two calls as the [JsonCodec] interface; this file
    gives Python's json library itself, on text:
    - [dumps_at]: CPython's encoder with [indent=4] and the default
      [ensure_ascii=True] and separators ([","] + newline + indent
      between items, [": "] after a key, ["[]"] and ["{}"] when empty);
    - [utf8_encode] and [utf8_decode]: the strict UTF-8 codec of the
      file's [encoding="utf-8"];
    - [pvalue], [pelems], [pmembers]: CPython's scanner, a
      [PyM text] program whose state is the text not yet read (the
      index [end] of the Python code), with [JSONDecodeError] for
      malformed text, whitespace [ \t\n\r] between tokens, the string
      escapes and strict control-character test of [scanstring], and a
      repeated key keeping its first position and its last value;
    - [text_json_codec]: the instance of [JsonCodec] they make, and
      the save editor's [clear_json_field] run with it.

    The theorems:
    - the text of a well-formed value reads back as the value, through
      the scanner ([pvalue_dumps], [json_loads_dumps]) and through the
      bytes of the file ([text_json_load_dump]);
    - the scanner's fuel, twice the length of the text plus one, is
      never exhausted ([scanner_fuel]: each step that succeeds consumes
      text), so [OutOfFuel] is never raised;
    - every value read is well formed and the only exceptions are
      [JSONDecodeError] and [UnicodeDecodeError] ([scanner_sound],
      [text_json_load_wf], [text_json_load_error]);
    - on thirty-two byte strings and fifteen values taken from CPython 3
      the model returns what CPython returns ([loads_cpython],
      [dumps_cpython]);
    - clearing a field of a file the game wrote without indentation
      writes exactly CPython's indented text of the cleared dict, which
      reads back as that dict ([clear_json_field_text]), even when the
      key is absent and nothing is cleared
      ([clear_json_field_absent_key_rewrites]);
    - a whole session of [main] (1, 1, 5) on three files written by the
      game leaves on disk byte for byte the files CPython leaves
      ([main_text_session]).

    Not modelled: floats, [NaN] and [Infinity] (the saves the tool
    edits hold none, and the model rejects them as [JSONDecodeError]);
    characters above U+00FF inside strings ([string] is Latin-1 here,
    so such text is rejected with [JSONDecodeError] where CPython reads
    it); surrogate pairs in [\u] escapes; the limit of 4300 digits on
    integers and [RecursionError] on deeply nested text. *)

From S2P Require Import Prelude ByteFind Json World SaveEditor Clearing Menu Frame Console.
From Stdlib Require Import ZArith NArith Ascii.

Abbreviation text := (list ascii).

(** ** The encoder *)

Section Encode.

Definition txt (s : string) : text := String.list_ascii_of_string s.

(** The double quote and the backslash. *)
Definition dq : ascii := Ascii.ascii_of_nat 34.
Definition bsl : ascii := "\"%char.

(** One character of a JSON string literal with [ensure_ascii]:
    [S_CHAR] ([' '] to ['~'] but the quote and the backslash) as is, the
    five short escapes, [\u00XX] otherwise. *)
Definition json_esc_char (c : ascii) : text :=
  let n := Ascii.nat_of_ascii c in
  if Ascii.eqb c dq then [bsl; dq]
  else if Ascii.eqb c bsl then [bsl; bsl]
  else if (n =? 8)%nat then txt "\b"%string
  else if (n =? 12)%nat then txt "\f"%string
  else if (n =? 10)%nat then txt "\n"%string
  else if (n =? 13)%nat then txt "\r"%string
  else if (n =? 9)%nat then txt "\t"%string
  else if ((32 <=? n) && (n <=? 126))%nat then [c]
  else txt ("\u00" ++ hex2 n)%string.

Definition json_str (s : string) : text :=
  dq :: mjoin (map json_esc_char (txt s)) ++ [dq].

(** ["\n" + " " * (4 * lvl)] *)
Definition indent (lvl : nat) : text := Ascii.ascii_of_nat 10 :: repeat " "%char (4 * lvl).

(** [sep.join(items)] *)
Fixpoint join (sep : text) (items : list text) : text :=
  match items with
  | [] => []
  | [x] => x
  | x :: items' => x ++ sep ++ join sep items'
  end.

(** [_iterencode] at nesting level [lvl]. *)
Fixpoint dumps_at (lvl : nat) (j : json) : text :=
  match j with
  | JNull => txt "null"%string
  | JBool true => txt "true"%string
  | JBool false => txt "false"%string
  | JInt z => txt (py_str_int z)
  | JStr s => json_str s
  | JArr [] => txt "[]"%string
  | JArr l =>
      ["["%char] ++ indent (S lvl)
        ++ join ([","%char] ++ indent (S lvl)) (map (dumps_at (S lvl)) l)
        ++ indent lvl ++ ["]"%char]
  | JObj [] => txt "{}"%string
  | JObj kvs =>
      ["{"%char] ++ indent (S lvl)
        ++ join ([","%char] ++ indent (S lvl))
             (map (fun kv => json_str kv.1 ++ txt ": "%string ++ dumps_at (S lvl) kv.2) kvs)
        ++ indent lvl ++ ["}"%char]
  end.

End Encode.

(** ** The UTF-8 codec of the file *)

Section Utf8.
Local Open Scope N_scope.

Definition byte_of (n : N) : byte :=
  match Byte.of_N n with Some b => b | None => x00 end.

(** A character of a model string is a code point below 256. *)
Definition utf8_encode_char (c : ascii) : list byte :=
  let n := Ascii.N_of_ascii c in
  if n <? 128 then [byte_of n]
  else [byte_of (192 + n / 64); byte_of (128 + n mod 64)].

Definition utf8_encode (t : text) : list byte := mjoin (map utf8_encode_char t).

Definition cont (b : N) : bool := (128 <=? b) && (b <=? 191).

(** Strict UTF-8 (Unicode table 3-7): no overlong form, no surrogate,
    nothing above U+10FFFF; [None] is [UnicodeDecodeError]. *)
Fixpoint utf8_decode (bs : list N) : option (list N) :=
  match bs with
  | [] => Some []
  | b1 :: r1 =>
      if b1 <? 128 then cons b1 <$> utf8_decode r1
      else if (194 <=? b1) && (b1 <=? 223) then
        match r1 with
        | b2 :: r2 =>
            if cont b2 then cons ((b1 - 192) * 64 + (b2 - 128)) <$> utf8_decode r2 else None
        | [] => None
        end
      else if (224 <=? b1) && (b1 <=? 239) then
        match r1 with
        | b2 :: b3 :: r3 =>
            let lo := if b1 =? 224 then 160 else 128 in
            let hi := if b1 =? 237 then 159 else 191 in
            if (lo <=? b2) && (b2 <=? hi) && cont b3
            then cons ((b1 - 224) * 4096 + (b2 - 128) * 64 + (b3 - 128)) <$> utf8_decode r3
            else None
        | _ => None
        end
      else if (240 <=? b1) && (b1 <=? 244) then
        match r1 with
        | b2 :: b3 :: b4 :: r4 =>
            let lo := if b1 =? 240 then 144 else 128 in
            let hi := if b1 =? 244 then 143 else 191 in
            if (lo <=? b2) && (b2 <=? hi) && cont b3 && cont b4
            then cons ((b1 - 240) * 262144 + (b2 - 128) * 4096 + (b3 - 128) * 64 + (b4 - 128))
                   <$> utf8_decode r4
            else None
        | _ => None
        end
      else None
  end.

End Utf8.

(** ** The scanner *)

Section Scanner.

(** [WHITESPACE = r'[ \t\n\r]*'] *)
Definition is_ws (c : ascii) : bool :=
  let n := Ascii.nat_of_ascii c in ((n =? 32) || (n =? 9) || (n =? 10) || (n =? 13))%nat.

Fixpoint skip_ws (t : text) : text :=
  match t with
  | c :: t' => if is_ws c then skip_ws t' else t
  | [] => []
  end.

(** [t.startswith(p)], and the rest. *)
Fixpoint strip_txt (p t : text) : option text :=
  match p, t with
  | [], _ => Some t
  | a :: p', b :: t' => if Ascii.eqb a b then strip_txt p' t' else None
  | _ :: _, [] => None
  end.

(** One hex digit of a [\uXXXX] escape, either case. *)
Definition hex_val (c : ascii) : option nat :=
  match str_index c "0123456789abcdef"%string with
  | Some v => Some v
  | None => str_index c "0123456789ABCDEF"%string
  end.

Definition cons_str (d : ascii) (o : option (string * text)) : option (string * text) :=
  match o with
  | Some (v, r) => Some (String d v, r)
  | None => None
  end.

(** [scanstring] after the opening quote, strict: the characters up to
    the closing quote, with the escapes of the quote, [\\], [\/], [\b], [\f],
    [\n], [\r], [\t] and [\uXXXX]; a raw control character is an
    error.  A [\u] escape above U+00FF is rejected: the model's strings
    hold code points below 256. *)
Fixpoint scan_chars (t : text) : option (string * text) :=
  match t with
  | [] => None
  | c :: t' =>
      if Ascii.eqb c dq then Some (EmptyString, t')
      else if Ascii.eqb c bsl then
        match t' with
        | [] => None
        | e :: t'' =>
            if Ascii.eqb e dq then cons_str dq (scan_chars t'')
            else if Ascii.eqb e bsl then cons_str bsl (scan_chars t'')
            else if Ascii.eqb e "/" then cons_str "/" (scan_chars t'')
            else if Ascii.eqb e "b" then cons_str (Ascii.ascii_of_nat 8) (scan_chars t'')
            else if Ascii.eqb e "f" then cons_str (Ascii.ascii_of_nat 12) (scan_chars t'')
            else if Ascii.eqb e "n" then cons_str (Ascii.ascii_of_nat 10) (scan_chars t'')
            else if Ascii.eqb e "r" then cons_str (Ascii.ascii_of_nat 13) (scan_chars t'')
            else if Ascii.eqb e "t" then cons_str (Ascii.ascii_of_nat 9) (scan_chars t'')
            else if Ascii.eqb e "u" then
              match t'' with
              | h1 :: h2 :: h3 :: h4 :: t3 =>
                  match hex_val h1, hex_val h2, hex_val h3, hex_val h4 with
                  | Some a, Some b, Some c3, Some d =>
                      let v := ((a * 16 + b) * 16 + c3) * 16 + d in
                      if (v <? 256)%nat then cons_str (Ascii.ascii_of_nat v) (scan_chars t3)
                      else None
                  | _, _, _, _ => None
                  end
              | _ => None
              end
            else None
        end
      else if (Ascii.nat_of_ascii c <? 32)%nat then None
      else cons_str c (scan_chars t')
  end.

Fixpoint digit_run (t : text) : text * text :=
  match t with
  | c :: t' => if is_ascii_digit c then let (d, r) := digit_run t' in (c :: d, r) else ([], t)
  | [] => ([], [])
  end.

(** [int()] of a run of decimal digits, computed in [N]. *)
Definition digits_N (ds : text) : N :=
  fold_left (fun acc c => 10 * acc + (Ascii.N_of_ascii c - 48))%N ds 0%N.

(** [NUMBER_RE] without fraction or exponent: an optional minus, then
    0 or a non-zero digit followed by digits, read with [int()].  A fraction or an exponent makes a float, which the
    model's values do not hold: rejected. *)
Definition scan_number (t : text) : option (Z * text) :=
  let '(neg, t1) := match t with
                    | c :: r => if Ascii.eqb c "-" then (true, r) else (false, t)
                    | [] => (false, t)
                    end in
  let '(ds, r) := digit_run t1 in
  let v := Z.of_N (digits_N ds) in
  let ok := Some (if neg then (- v)%Z else v, r) in
  let leading_zero := match ds with c :: _ :: _ => Ascii.eqb c "0" | _ => false end in
  if (ds : text) is [] then None
  else if leading_zero then None
  else match r with
       | c :: _ => if Ascii.eqb c "." || Ascii.eqb c "e" || Ascii.eqb c "E" then None else ok
       | [] => ok
       end.

(** [scan_once] on anything but a string, an array or an object. *)
Definition scan_scalar (t : text) : option (json * text) :=
  match strip_txt (txt "null") t with
  | Some r => Some (JNull, r)
  | None =>
      match strip_txt (txt "true") t with
      | Some r => Some (JBool true, r)
      | None =>
          match strip_txt (txt "false") t with
          | Some r => Some (JBool false, r)
          | None =>
              match scan_number t with
              | Some (z, r) => Some (JInt z, r)
              | None => None
              end
          end
      end
  end.

Definition peek : PyM text (option ascii) := fun t => (Ok (head t), t).
Definition advance : PyM text unit := py_modify tail.
Definition skip : PyM text unit := py_modify skip_ws.
Definition decode_error {A} : PyM text A := py_raise JSONDecodeError.

Definition lift_scan {A} (f : text -> option (A * text)) : PyM text A :=
  fun t => match f t with
           | Some (a, r) => (Ok a, r)
           | None => (Raise JSONDecodeError, t)
           end.

(** [scan_once], [JSONArray] and [JSONObject]; each call takes one unit
    of fuel. *)
Fixpoint pvalue (fuel : nat) : PyM text json :=
  match fuel with
  | O => py_raise OutOfFuel
  | S f =>
      let* c := peek in
      if decide (c = Some "{"%char) then
        let* _ := advance in
        let* _ := skip in
        let* d := peek in
        if decide (d = Some "}"%char) then let* _ := advance in py_ret (JObj [])
        else pmembers f []
      else if decide (c = Some "["%char) then
        let* _ := advance in
        let* _ := skip in
        let* d := peek in
        if decide (d = Some "]"%char) then let* _ := advance in py_ret (JArr [])
        else pelems f []
      else if decide (c = Some dq) then
        let* _ := advance in
        let* s := lift_scan scan_chars in
        py_ret (JStr s)
      else lift_scan scan_scalar
  end
with pelems (fuel : nat) (acc : list json) : PyM text json :=
  match fuel with
  | O => py_raise OutOfFuel
  | S f =>
      let* v := pvalue f in
      let* _ := skip in
      let* d := peek in
      if decide (d = Some ","%char) then
        let* _ := advance in
        let* _ := skip in
        pelems f (acc ++ [v])
      else if decide (d = Some "]"%char) then
        let* _ := advance in
        py_ret (JArr (acc ++ [v]))
      else decode_error
  end
with pmembers (fuel : nat) (acc : list (string * json)) : PyM text json :=
  match fuel with
  | O => py_raise OutOfFuel
  | S f =>
      let* d := peek in
      if decide (d = Some dq) then
        let* _ := advance in
        let* k := lift_scan scan_chars in
        let* _ := skip in
        let* d := peek in
        if decide (d = Some ":"%char) then
          let* _ := advance in
          let* _ := skip in
          let* v := pvalue f in
          let* _ := skip in
          let* d := peek in
          if decide (d = Some ","%char) then
            let* _ := advance in
            let* _ := skip in
            pmembers f (dict_set acc k v)
          else if decide (d = Some "}"%char) then
            let* _ := advance in
            py_ret (JObj (dict_set acc k v))
          else decode_error
        else decode_error
      else decode_error
  end.

(** [json.loads(s)]: whitespace, one value, whitespace, the end. *)
Definition json_loads (t : text) : outcome json :=
  fst ((let* _ := skip in
        let* v := pvalue (S (2 * length t)) in
        let* _ := skip in
        let* r := py_get_state in
        if r is [] then py_ret v else decode_error) t).

End Scanner.

(** ** The codec *)

(** [json.dump(data, f, indent=4)] to a file opened with
    [encoding="utf-8"]: the bytes written. *)
Definition text_json_dump (j : json) : bytes := utf8_encode (dumps_at 0 j).

(** [json.load(f)] on a file opened with [encoding="utf-8"]: the
    decoding fails first ([UnicodeDecodeError]), then the scanner. *)
Definition text_json_load (b : bytes) : outcome json :=
  match utf8_decode (map Byte.to_N b) with
  | None => Raise UnicodeDecodeError
  | Some cps =>
      if forallb (fun n => (n <? 256)%N) cps
      then json_loads (map Ascii.ascii_of_N cps)
      else Raise JSONDecodeError
  end.

(** ** Facts on characters, whitespace and the UTF-8 codec *)

Section CharFacts.

Lemma utf8_decode_char c r :
  utf8_decode (map Byte.to_N (utf8_encode_char c) ++ r) = cons (Ascii.N_of_ascii c) <$> utf8_decode r.
Proof. destruct c as [[] [] [] [] [] [] [] []]; reflexivity. Qed.

Lemma utf8_decode_encode t :
  utf8_decode (map Byte.to_N (utf8_encode t)) = Some (map Ascii.N_of_ascii t).
Proof.
  induction t as [|c t IH]; [done|].
  change (utf8_encode (c :: t)) with (utf8_encode_char c ++ utf8_encode t).
  by rewrite map_app, utf8_decode_char, IH.
Qed.

Lemma N_of_ascii_lt c : (Ascii.N_of_ascii c < 256)%N.
Proof. destruct c as [[] [] [] [] [] [] [] []]; vm_compute; done. Qed.

Lemma ascii_of_N_of_ascii_map t : map Ascii.ascii_of_N (map Ascii.N_of_ascii t) = t.
Proof.
  induction t as [|c t IH]; [done|]. simpl. by rewrite Ascii.ascii_N_embedding, IH.
Qed.

Lemma scan_chars_esc c t : scan_chars (json_esc_char c ++ t) = cons_str c (scan_chars t).
Proof. destruct c as [[] [] [] [] [] [] [] []]; reflexivity. Qed.

Lemma scan_chars_escaped cs t :
  scan_chars (mjoin (map json_esc_char cs) ++ dq :: t) = Some (String.string_of_list_ascii cs, t).
Proof.
  induction cs as [|c cs IH]; [done|].
  change (mjoin (map json_esc_char (c :: cs))) with (json_esc_char c ++ mjoin (map json_esc_char cs)).
  by rewrite <-app_assoc, scan_chars_esc, IH.
Qed.

Lemma scan_chars_json_str s t : scan_chars (tail (json_str s) ++ t) = Some (s, t).
Proof.
  change (tail (json_str s)) with (mjoin (map json_esc_char (txt s)) ++ [dq]).
  rewrite <-app_assoc. simpl. rewrite scan_chars_escaped.
  by rewrite String.string_of_list_ascii_of_string.
Qed.

Lemma skip_ws_indent k t : skip_ws (indent k ++ t) = skip_ws t.
Proof. unfold indent. generalize (4 * k) as m. intros m. simpl. induction m; simpl; done. Qed.

Lemma skip_ws_stop c t : is_ws c = false -> skip_ws (c :: t) = c :: t.
Proof. simpl. by intros ->. Qed.

Lemma strip_txt_app p t : strip_txt p (p ++ t) = Some t.
Proof. induction p as [|a p IH]; simpl; [done|]. by rewrite Ascii.eqb_refl. Qed.

End CharFacts.

(** ** Facts on the numbers [str()] prints *)

Section NumberFacts.

(** The text after a value in the encoder's output: nothing, the item
    separator or a newline. *)
Definition delim (t : text) : Prop :=
  match t with
  | [] => True
  | c :: _ => c = ","%char \/ c = Ascii.ascii_of_nat 10
  end.

Lemma digits_N_nat ds a :
  fold_left (fun acc c => 10 * acc + (Ascii.N_of_ascii c - 48))%N ds (N.of_nat a)
  = N.of_nat (fold_left (fun acc c => 10 * acc + (Ascii.nat_of_ascii c - 48)) ds a).
Proof.
  revert a; induction ds as [|c ds IH]; intros a; [done|]. cbn [fold_left].
  rewrite <-IH. unfold Ascii.nat_of_ascii.
  by rewrite Nat2N.inj_add, Nat2N.inj_mul, Nat2N.inj_sub, N2Nat.id.
Qed.

Lemma digits_N_py_str_N n : digits_N (txt (py_str_N n)) = n.
Proof.
  pose proof (digits_value_py_str_N n) as H. unfold digits_value in H.
  unfold digits_N, txt. change 0%N with (N.of_nat 0).
  by rewrite digits_N_nat, H, N2Nat.id.
Qed.

Lemma to_uint_D0 n u : N.to_uint n = Decimal.D0 u -> u = Decimal.Nil.
Proof.
  intros E. assert (Hn : N.to_uint n = Decimal.unorm (N.to_uint n))
    by (by rewrite <-DecimalN.Unsigned.to_of, DecimalN.Unsigned.of_to).
  rewrite E, DecimalFacts.unorm_D0 in Hn.
  destruct (Decimal.nzhead u) eqn:Hz;
    [rewrite (proj2 (DecimalFacts.unorm_0 u) Hz) in Hn; by injection Hn
    | by destruct (DecimalFacts.nzhead_nonzero u u0 Hz) | ..];
    rewrite DecimalFacts.unorm_nzhead, Hz in Hn by (rewrite Hz; discriminate);
    discriminate Hn.
Qed.

(** [str(n)]: at least one digit, only digits, no leading zero. *)
Lemma py_str_N_shape n :
  exists d ds, txt (py_str_N n) = d :: ds /\
    Forall (fun c => is_ascii_digit c = true) (d :: ds) /\
    (ds = [] \/ Ascii.eqb d "0" = false).
Proof.
  pose proof (is_digits_py_str_N n) as Hd. unfold is_digits in Hd.
  apply andb_true_iff in Hd as [Hne Hall].
  rewrite List.forallb_forall, <-List.Forall_forall in Hall. unfold txt.
  destruct (String.list_ascii_of_string (py_str_N n)) as [|d ds] eqn:E.
  { destruct (py_str_N n); [done|discriminate]. }
  exists d, ds. split; [done|]. split; [done|].
  unfold py_str_N in E. rewrite py_str_N_nonempty in E.
  destruct (N.to_uint n) eqn:Eu; simpl in E; try discriminate E; injection E as <- <-; auto.
  rewrite (to_uint_D0 n u Eu). by left.
Qed.

Lemma digit_run_app ds t :
  Forall (fun c => is_ascii_digit c = true) ds ->
  delim t -> digit_run (ds ++ t) = (ds, t).
Proof.
  intros Hds Ht. induction Hds as [|c ds Hc _ IH]; simpl.
  - destruct t as [|c t]; [done|]. by destruct Ht as [-> | ->].
  - by rewrite Hc, IH.
Qed.

Lemma scan_number_digits n t (neg : bool) c :
  c = (if neg then Some "-"%char else None) ->
  delim t ->
  scan_number (from_option (fun a => [a]) [] c ++ txt (py_str_N n) ++ t)
  = Some (if neg then (- Z.of_N n)%Z else Z.of_N n, t).
Proof.
  intros -> Ht. destruct (py_str_N_shape n) as (d & ds & E & Hall & Hz).
  pose proof (digits_N_py_str_N n) as Hv. rewrite E in Hv |- *.
  apply Forall_cons in Hall as [Hd0 Hds].
  assert (Hd : Ascii.eqb d "-" = false).
  { destruct (Ascii.eqb_spec d "-"); [by subst|done]. }
  unfold scan_number. destruct neg; simpl; rewrite ?Hd; simpl;
    rewrite Hd0, (digit_run_app ds t) by done; simpl; rewrite Hv;
    (destruct Hz as [-> | Hz0]; [| destruct ds as [|d2 ds]; [| rewrite Hz0]]); simpl;
    (destruct t as [|c t]; [done|]); by destruct Ht as [-> | ->].
Qed.

Lemma scan_number_py_str_int z t :
  delim t -> scan_number (txt (py_str_int z) ++ t) = Some (z, t).
Proof.
  intros Ht. unfold py_str_int. destruct (Z.ltb_spec z 0).
  - assert (E : txt ("-" ++ py_str_N (Z.abs_N z))%string ++ t
                = from_option (fun a => [a]) [] (Some "-"%char) ++ txt (py_str_N (Z.abs_N z)) ++ t)
      by (unfold txt; by rewrite list_ascii_of_string_app).
    rewrite E, (scan_number_digits _ _ true (Some "-"%char)) by done. f_equal. f_equal. lia.
  - pose proof (scan_number_digits (Z.to_N z) t false None (eq_refl _) Ht) as E.
    simpl in E. rewrite E. f_equal. f_equal. lia.
Qed.

End NumberFacts.

(** ** The first character of an encoded value *)

Section HeadFacts.

(** A character that may begin a value's text. *)
Definition value_head (c : ascii) : Prop :=
  c = "n"%char \/ c = "t"%char \/ c = "f"%char \/ c = "-"%char \/ c = dq \/
  c = "["%char \/ c = "{"%char \/ is_ascii_digit c = true.

Lemma py_str_int_head z :
  exists c r, txt (py_str_int z) = c :: r /\ (c = "-"%char \/ is_ascii_digit c = true).
Proof.
  unfold py_str_int. destruct (z <? 0)%Z.
  - exists "-"%char, (txt (py_str_N (Z.abs_N z))). split; [|by left].
    unfold txt. by rewrite list_ascii_of_string_app.
  - destruct (py_str_N_shape (Z.to_N z)) as (d & ds & E & Hall & _).
    exists d, ds. split; [done|]. right. by apply Forall_cons in Hall as [? _].
Qed.

Lemma dumps_head lvl j : exists c r, dumps_at lvl j = c :: r /\ value_head c.
Proof.
  unfold value_head. destruct j as [|[]|z|s|[|e l]|[|kv kvs]]; simpl;
    try (eexists _, _; split; [reflexivity|]; naive_solver).
  destruct (py_str_int_head z) as (c & r & -> & Hc). exists c, r. naive_solver.
Qed.

Lemma value_head_not_ws c : value_head c -> is_ws c = false.
Proof.
  unfold value_head. intros [->|[->|[->|[->|[->|[->|[->|Hd]]]]]]]; try done.
  destruct c as [[] [] [] [] [] [] [] []]; done.
Qed.

Lemma skip_ws_dumps lvl j r : skip_ws (dumps_at lvl j ++ r) = dumps_at lvl j ++ r.
Proof.
  destruct (dumps_head lvl j) as (c & t & -> & Hc). simpl.
  by rewrite value_head_not_ws.
Qed.

End HeadFacts.

(** ** The scanner on an encoded value *)

Section Roundtrip.

(** The fuel [pvalue] needs on the text of [j]: one unit per call. *)
Fixpoint need (j : json) : nat :=
  match j with
  | JArr l => S (sum_list_with (fun e => S (need e)) l)
  | JObj kvs => S (sum_list_with (fun kv => S (need kv.2)) kvs)
  | _ => 1
  end.

Lemma dict_set_fresh kvs k v : k ∉ kvs.*1 -> dict_set kvs k v = kvs ++ [(k, v)].
Proof.
  induction kvs as [|[k' v'] kvs IH]; simpl; [done|].
  intros Hk. rewrite decide_False by set_solver. f_equal. apply IH. set_solver.
Qed.

Lemma pvalue_scalar f c r :
  c <> "{"%char -> c <> "["%char -> c <> dq ->
  pvalue (S f) (c :: r) = lift_scan scan_scalar (c :: r).
Proof.
  intros H1 H2 H3. cbn [pvalue]. unfold py_bind at 1. simpl.
  rewrite !decide_False by congruence. done.
Qed.

Lemma scan_scalar_int z t : delim t -> scan_scalar (txt (py_str_int z) ++ t) = Some (JInt z, t).
Proof.
  intros Ht. destruct (py_str_int_head z) as (c & r & E & Hc).
  assert (Hn : forall a, is_ascii_digit a = false -> a <> "-"%char -> Ascii.eqb a c = false).
  { intros a Ha Hm. destruct (Ascii.eqb_spec a c); [subst|done].
    destruct Hc as [-> | Hd]; congruence. }
  unfold scan_scalar. rewrite E. cbn [txt String.list_ascii_of_string strip_txt app].
  rewrite (Hn "n"%char), (Hn "t"%char), (Hn "f"%char) by done.
  change (c :: r ++ t) with ((c :: r) ++ t). rewrite <-E.
  by rewrite scan_number_py_str_int.
Qed.


(** One step of each scanner function, on the text it reads. *)
Lemma pvalue_arr_empty f r r' :
  skip_ws r = "]"%char :: r' -> pvalue (S f) ("["%char :: r) = (Ok (JArr []), r').
Proof. intros Hr. cbn [pvalue]. unfold py_bind. simpl. by rewrite Hr. Qed.

Lemma pvalue_arr f r r' :
  skip_ws r = r' -> head r' <> Some "]"%char -> pvalue (S f) ("["%char :: r) = pelems f [] r'.
Proof.
  intros Hr Hc. cbn [pvalue]. unfold py_bind. simpl. rewrite Hr.
  by rewrite decide_False.
Qed.

Lemma pvalue_obj_empty f r r' :
  skip_ws r = "}"%char :: r' -> pvalue (S f) ("{"%char :: r) = (Ok (JObj []), r').
Proof. intros Hr. cbn [pvalue]. unfold py_bind. simpl. by rewrite Hr. Qed.

Lemma pvalue_obj f r r' :
  skip_ws r = r' -> head r' <> Some "}"%char -> pvalue (S f) ("{"%char :: r) = pmembers f [] r'.
Proof.
  intros Hr Hc. cbn [pvalue]. unfold py_bind. simpl. rewrite Hr.
  by rewrite decide_False.
Qed.

Lemma pvalue_str f r s r' :
  scan_chars r = Some (s, r') -> pvalue (S f) (dq :: r) = (Ok (JStr s), r').
Proof. intros Hr. cbn [pvalue]. unfold py_bind. simpl. unfold lift_scan. by rewrite Hr. Qed.

Lemma pelems_comma f acc s v r r' :
  pvalue f s = (Ok v, r) -> skip_ws r = ","%char :: r' ->
  pelems (S f) acc s = pelems f (acc ++ [v]) (skip_ws r').
Proof. intros Hv Hr. cbn [pelems]. unfold py_bind at 1. rewrite Hv. unfold py_bind. simpl. by rewrite Hr. Qed.

Lemma pelems_close f acc s v r r' :
  pvalue f s = (Ok v, r) -> skip_ws r = "]"%char :: r' ->
  pelems (S f) acc s = (Ok (JArr (acc ++ [v])), r').
Proof. intros Hv Hr. cbn [pelems]. unfold py_bind at 1. rewrite Hv. unfold py_bind. simpl. by rewrite Hr. Qed.

(** A member [k: v] read, up to the character after it. *)
Lemma pmembers_member f acc r k r1 r2 v r3 :
  scan_chars r = Some (k, r1) -> skip_ws r1 = ":"%char :: r2 -> pvalue f (skip_ws r2) = (Ok v, r3) ->
  pmembers (S f) acc (dq :: r) =
    (let* _ := skip in
     let* d := peek in
     if decide (d = Some ","%char) then
       let* _ := advance in
       let* _ := skip in
       pmembers f (dict_set acc k v)
     else if decide (d = Some "}"%char) then
       let* _ := advance in
       py_ret (JObj (dict_set acc k v))
     else decode_error) r3.
Proof.
  intros Hk Hc Hv. cbn [pmembers]. unfold py_bind at 1 2 3. simpl.
  unfold lift_scan. rewrite Hk. unfold py_bind at 1 2. simpl. rewrite Hc. simpl.
  unfold py_bind at 1 2 3. simpl. by rewrite Hv.
Qed.

Lemma pmembers_comma f acc r k r1 r2 v r3 r4 :
  scan_chars r = Some (k, r1) -> skip_ws r1 = ":"%char :: r2 -> pvalue f (skip_ws r2) = (Ok v, r3) ->
  skip_ws r3 = ","%char :: r4 ->
  pmembers (S f) acc (dq :: r) = pmembers f (dict_set acc k v) (skip_ws r4).
Proof. intros Hk Hc Hv Hr. rewrite (pmembers_member _ _ _ _ _ _ _ _ Hk Hc Hv). unfold py_bind. simpl. by rewrite Hr. Qed.

Lemma pmembers_close f acc r k r1 r2 v r3 r4 :
  scan_chars r = Some (k, r1) -> skip_ws r1 = ":"%char :: r2 -> pvalue f (skip_ws r2) = (Ok v, r3) ->
  skip_ws r3 = "}"%char :: r4 ->
  pmembers (S f) acc (dq :: r) = (Ok (JObj (dict_set acc k v)), r4).
Proof. intros Hk Hc Hv Hr. rewrite (pmembers_member _ _ _ _ _ _ _ _ Hk Hc Hv). unfold py_bind. simpl. by rewrite Hr. Qed.

Lemma delim_indent k r : delim (indent k ++ r).
Proof. by right. Qed.

Lemma delim_comma r : delim (","%char :: r).
Proof. by left. Qed.

Lemma value_head_close c : value_head c -> c <> "]"%char /\ c <> "}"%char.
Proof.
  unfold value_head. intros [->|[->|[->|[->|[->|[->|[->|Hd]]]]]]]; try done.
  split; intros ->; discriminate Hd.
Qed.

(** The text of the items after the first, joined. *)
Lemma join_cons_app {A} (g : A -> text) (sep : text) x l r :
  join sep (map g (x :: l)) ++ r
  = g x ++ (match l with [] => r | _ => sep ++ join sep (map g l) ++ r end).
Proof. destruct l; simpl; [done|]. by rewrite <-!app_assoc. Qed.

Lemma skip_ws_join lvl sep e l r :
  skip_ws (join sep (map (dumps_at lvl) (e :: l)) ++ r) = join sep (map (dumps_at lvl) (e :: l)) ++ r.
Proof. by rewrite !join_cons_app, skip_ws_dumps. Qed.

Lemma head_dumps_not_close lvl e t :
  head (dumps_at lvl e ++ t) <> Some "]"%char /\ head (dumps_at lvl e ++ t) <> Some "}"%char.
Proof.
  destruct (dumps_head lvl e) as (c & r & -> & Hc). simpl.
  destruct (value_head_close c Hc). split; congruence.
Qed.

Lemma forallb_Forall {A} (p : A -> bool) l : forallb p l = true -> Forall (fun x => p x = true) l.
Proof. induction l; simpl; [done|]. intros [? ?]%andb_true_iff. constructor; auto. Qed.

Lemma pelems_dumps lvl es acc f t :
  Forall (fun e => forall f t, need e <= f -> delim t ->
            pvalue f (dumps_at (S lvl) e ++ t) = (Ok e, t)) es ->
  es <> [] ->
  sum_list_with (fun e => S (need e)) es <= f ->
  pelems f acc (join ([","%char] ++ indent (S lvl)) (map (dumps_at (S lvl)) es)
                ++ indent lvl ++ "]"%char :: t) = (Ok (JArr (acc ++ es)), t).
Proof.
  revert acc f. induction es as [|e es IH]; intros acc f Hall Hne Hf; [done|].
  apply Forall_cons in Hall as [He Hes].
  destruct f as [|f]; [simpl in Hf; lia|]. simpl in Hf. rewrite join_cons_app.
  destruct es as [|e2 es].
  - eapply pelems_close; [apply He; [lia | apply delim_indent]|].
    by rewrite skip_ws_indent.
  - rewrite <-app_assoc.
    erewrite pelems_comma; [| apply He; [lia | apply delim_comma] | reflexivity].
    rewrite skip_ws_indent, skip_ws_join, IH by (done || simpl in *; lia).
    by rewrite <-app_assoc.
Qed.

Definition member_text (lvl : nat) (kv : string * json) : text :=
  json_str kv.1 ++ txt ": " ++ dumps_at lvl kv.2.

Lemma pmembers_dumps lvl kvs acc f t :
  Forall (fun kv => forall f t, need kv.2 <= f -> delim t ->
            pvalue f (dumps_at (S lvl) kv.2 ++ t) = (Ok kv.2, t)) kvs ->
  kvs <> [] -> NoDup (acc ++ kvs).*1 ->
  sum_list_with (fun kv => S (need kv.2)) kvs <= f ->
  pmembers f acc (join ([","%char] ++ indent (S lvl)) (map (member_text (S lvl)) kvs)
                  ++ indent lvl ++ "}"%char :: t) = (Ok (JObj (acc ++ kvs)), t).
Proof.
  revert acc f. induction kvs as [|[k v] kvs IH]; intros acc f Hall Hne Hnd Hf; [done|].
  apply Forall_cons in Hall as [He Hes]. simpl in He.
  destruct f as [|f]; [simpl in Hf; lia|]. simpl in Hf. rewrite join_cons_app.
  assert (Hk : k ∉ acc.*1).
  { rewrite fmap_app in Hnd. apply NoDup_app in Hnd as (_ & Hd & _). simpl in Hd. intros Hin.
    apply (Hd k Hin). set_solver. }
  unfold member_text at 1. simpl fst. simpl snd. rewrite <-!app_assoc.
  change (json_str k ++ ?r) with (dq :: (tail (json_str k) ++ r)).
  destruct kvs as [|kv2 kvs].
  - rewrite <-(dict_set_fresh acc k v Hk).
    eapply (pmembers_close _ _ _ _ _ (" "%char :: (dumps_at (S lvl) v ++ _)));
      [apply scan_chars_json_str | reflexivity | |].
    + change (skip_ws (" "%char :: ?x)) with (skip_ws x).
      rewrite skip_ws_dumps. apply He; [lia | apply delim_indent].
    + by rewrite skip_ws_indent.
  - erewrite (pmembers_comma _ _ _ _ _ (" "%char :: (dumps_at (S lvl) v ++ _)));
      [| apply scan_chars_json_str | reflexivity
       | change (skip_ws (" "%char :: ?x)) with (skip_ws x);
         rewrite skip_ws_dumps; apply He; [lia | apply delim_comma]
       | reflexivity].
    + rewrite (dict_set_fresh _ _ _ Hk), skip_ws_indent.
      assert (Hs : skip_ws (join ([","%char] ++ indent (S lvl)) (map (member_text (S lvl)) (kv2 :: kvs))
                            ++ indent lvl ++ "}"%char :: t)
                   = join ([","%char] ++ indent (S lvl)) (map (member_text (S lvl)) (kv2 :: kvs))
                            ++ indent lvl ++ "}"%char :: t)
        by (rewrite join_cons_app; reflexivity).
      rewrite Hs, (IH (acc ++ [(k, v)])); [by rewrite <-app_assoc | done | done | | simpl in *; lia].
      by rewrite <-app_assoc.
Qed.

(** The scanner reads the text of a well-formed value back, whatever
    the nesting level it was written at and whatever separator follows. *)
Lemma pvalue_dumps j :
  forall lvl f t, json_wf j = true -> need j <= f -> delim t ->
  pvalue f (dumps_at lvl j ++ t) = (Ok j, t).
Proof.
  induction j as [| b | z | s | l IH | kvs IH] using json_ind'; intros lvl f t Hwf Hf Ht;
    (destruct f as [|f]; [simpl in Hf; lia|]).
  - reflexivity.
  - by destruct b.
  - destruct (py_str_int_head z) as (c & r & E & Hc). simpl dumps_at. rewrite E.
    assert (Hn : forall a, a <> "-"%char -> is_ascii_digit a = false -> c <> a)
      by (intros a Ha Hd ->; destruct Hc as [-> | Hc]; congruence).
    change ((c :: r) ++ t) with (c :: (r ++ t)).
    rewrite pvalue_scalar by (apply Hn; done).
    change (c :: (r ++ t)) with ((c :: r) ++ t). rewrite <-E.
    unfold lift_scan. by rewrite scan_scalar_int.
  - apply pvalue_str. apply scan_chars_json_str.
  - destruct l as [|e l]; [by apply pvalue_arr_empty|].
    change (forallb json_wf (e :: l) = true) in Hwf.
    simpl in Hf. cbn [dumps_at]. rewrite <-!app_assoc.
    assert (Hs : skip_ws (indent (S lvl) ++ join ([","%char] ++ indent (S lvl))
                   (map (dumps_at (S lvl)) (e :: l)) ++ indent lvl ++ ["]"%char] ++ t)
               = join ([","%char] ++ indent (S lvl)) (map (dumps_at (S lvl)) (e :: l))
                   ++ indent lvl ++ "]"%char :: t)
      by (by rewrite skip_ws_indent, skip_ws_join).
    rewrite (pvalue_arr _ _ _ Hs); [apply pelems_dumps; [|done|simpl; lia] |].
    + apply forallb_Forall in Hwf.
      eapply Forall_impl; [apply Forall_and; split; [exact IH | exact Hwf]|].
      intros x [Hx Hw] f' t'. by apply Hx.
    + rewrite join_cons_app. apply head_dumps_not_close.
  - destruct kvs as [|[k v] kvs]; [by apply pvalue_obj_empty|].
    apply andb_true_iff in Hwf as [Hnd Hall]. apply bool_decide_eq_true in Hnd.
    simpl in Hf. cbn [dumps_at]. rewrite <-!app_assoc.
    assert (Hs : skip_ws (indent (S lvl) ++ join ([","%char] ++ indent (S lvl))
                   (map (member_text (S lvl)) ((k, v) :: kvs)) ++ indent lvl ++ ["}"%char] ++ t)
               = join ([","%char] ++ indent (S lvl)) (map (member_text (S lvl)) ((k, v) :: kvs))
                   ++ indent lvl ++ "}"%char :: t)
      by (by rewrite skip_ws_indent, !join_cons_app).
    change (map (fun kv => json_str kv.1 ++ txt ": " ++ dumps_at (S lvl) kv.2) ((k, v) :: kvs))
      with (map (member_text (S lvl)) ((k, v) :: kvs)).
    rewrite (pvalue_obj _ _ _ Hs); [apply (pmembers_dumps lvl _ []); [|done|done|simpl; lia] |].
    + eapply Forall_impl; [apply Forall_and; split; [exact IH | exact (forallb_Forall _ _ Hall)]|].
      intros x [Hx Hw] f' t'. by apply Hx.
    + by rewrite join_cons_app.
Qed.

(** ** The fuel of [json_loads] is enough *)

Lemma sum_list_with_mono {A} (g h : A -> nat) l :
  Forall (fun x => g x <= h x) l -> sum_list_with g l <= sum_list_with h l.
Proof. induction 1; simpl; lia. Qed.

Lemma sum_list_with_map {A B} (g : B -> nat) (h : A -> B) l :
  sum_list_with g (map h l) = sum_list_with (fun x => g (h x)) l.
Proof. induction l; simpl; lia. Qed.

Lemma join_length (sep : text) items :
  1 <= length sep -> sum_list_with (fun x => S (length x)) items <= S (length (join sep items)).
Proof.
  intros Hs. induction items as [|x [|y items] IH]; simpl in *; [lia|lia|].
  rewrite !length_app. lia.
Qed.

Lemma need_le_length j : forall lvl, need j <= length (dumps_at lvl j).
Proof.
  induction j as [| [] | z | s | l IH | kvs IH] using json_ind'; intros lvl; try (simpl; lia).
  - destruct (py_str_int_head z) as (c & r & E & _). simpl. rewrite E. simpl. lia.
  - destruct l as [|e l]; [simpl; lia|].
    pose proof (join_length ([","%char] ++ indent (S lvl)) (map (dumps_at (S lvl)) (e :: l))
                  ltac:(simpl; lia)) as Hj.
    rewrite sum_list_with_map in Hj.
    assert (sum_list_with (fun x => S (need x)) (e :: l)
            <= sum_list_with (fun x => S (length (dumps_at (S lvl) x))) (e :: l)).
    { apply sum_list_with_mono. eapply Forall_impl; [exact IH|].
      intros x Hx. specialize (Hx (S lvl)). lia. }
    change (need (JArr (e :: l))) with (S (sum_list_with (fun x => S (need x)) (e :: l))).
    cbn [dumps_at]. rewrite !length_app. cbn [length]. lia.
  - destruct kvs as [|kv kvs]; [simpl; lia|].
    pose proof (join_length ([","%char] ++ indent (S lvl))
                  (map (member_text (S lvl)) (kv :: kvs)) ltac:(simpl; lia)) as Hj.
    rewrite sum_list_with_map in Hj.
    assert (sum_list_with (fun x => S (need x.2)) (kv :: kvs)
            <= sum_list_with (fun x => S (length (member_text (S lvl) x))) (kv :: kvs)).
    { apply sum_list_with_mono. eapply Forall_impl; [exact IH|]. intros x Hx. simpl.
      specialize (Hx (S lvl)). unfold member_text. rewrite !length_app. simpl. lia. }
    change (need (JObj (kv :: kvs))) with (S (sum_list_with (fun x => S (need x.2)) (kv :: kvs))).
    cbn [dumps_at].
    change (map (fun kv => json_str kv.1 ++ txt ": " ++ dumps_at (S lvl) kv.2) (kv :: kvs))
      with (map (member_text (S lvl)) (kv :: kvs)).
    rewrite !length_app. cbn [length]. lia.
Qed.

End Roundtrip.

(** ** The scanner never runs out of fuel *)

(** Unfold the scanner's monadic steps on a concrete text. *)
Ltac scan_unfold :=
  unfold py_bind, peek, advance, skip, py_modify, py_ret, decode_error, py_raise, lift_scan;
  simpl.

Section Fuel.

Lemma skip_ws_length t : length (skip_ws t) <= length t.
Proof. induction t as [|c t IH]; simpl; [done|]. destruct (is_ws c); simpl; lia. Qed.

Lemma cons_str_length d o s r :
  cons_str d o = Some (s, r) -> exists s', o = Some (s', r).
Proof. destruct o as [[]|]; simpl; [intros [= _ <-]; by eexists|done]. Qed.

Lemma scan_chars_length t s r : scan_chars t = Some (s, r) -> length r < length t.
Proof.
  revert s r. induction t as [t IH] using (induction_ltof1 _ (@length ascii)); unfold ltof in IH.
  intros s r. destruct t as [|c t]; [done|]. simpl.
  repeat match goal with
         | |- context [if ?b then _ else _] => destruct b
         | |- context [match ?t with [] => _ | _ :: _ => _ end] => is_var t; destruct t
         | |- context [match hex_val ?h with _ => _ end] => destruct (hex_val h)
         end; try done;
    try (intros [= _ <-]; simpl; lia);
    intros (s' & Hs)%cons_str_length; apply IH in Hs; simpl in *; lia.
Qed.

Lemma strip_txt_length p t r : strip_txt p t = Some r -> length t = length p + length r.
Proof.
  revert t. induction p as [|a p IH]; intros t H; destruct t as [|c t]; simpl in H;
    try discriminate; try (injection H as <-; done).
  destruct (Ascii.eqb a c); [|done]. apply IH in H. simpl. lia.
Qed.

Lemma digit_run_length t ds r : digit_run t = (ds, r) -> length t = length ds + length r.
Proof.
  revert ds r. induction t as [|c t IH]; intros ds r; simpl; [by intros [= <- <-]|].
  destruct (is_ascii_digit c); [|by intros [= <- <-]].
  destruct (digit_run t) as [d r'] eqn:E. intros [= <- <-]. simpl. rewrite (IH d r'); done.
Qed.

Lemma scan_number_length t z r : scan_number t = Some (z, r) -> length r < length t.
Proof.
  unfold scan_number.
  assert (Hn : length (snd (match t with
                             | c :: r => if Ascii.eqb c "-" then (true, r) else (false, t)
                             | [] => (false, t) end)) <= length t).
  { destruct t as [|c t]; [done|]. destruct (Ascii.eqb c "-"); simpl; lia. }
  destruct (match t with c :: r => _ | [] => _ end) as [neg t1] eqn:E1. simpl in Hn.
  destruct (digit_run t1) as [ds r'] eqn:E2. apply digit_run_length in E2.
  destruct ds as [|d ds]; [done|].
  repeat match goal with
         | |- context [if ?b then _ else _] => destruct b
         | |- context [match ?t with [] => _ | _ :: _ => _ end] => is_var t; destruct t
         end; try done; intros [= _ <-]; simpl in *; lia.
Qed.

Lemma scan_scalar_length t v r : scan_scalar t = Some (v, r) -> length r < length t.
Proof.
  unfold scan_scalar.
  destruct (strip_txt (txt "null") t) as [r1|] eqn:E1;
    [intros [= _ <-]; apply strip_txt_length in E1; simpl in E1; lia|].
  destruct (strip_txt (txt "true") t) as [r1|] eqn:E2;
    [intros [= _ <-]; apply strip_txt_length in E2; simpl in E2; lia|].
  destruct (strip_txt (txt "false") t) as [r1|] eqn:E3;
    [intros [= _ <-]; apply strip_txt_length in E3; simpl in E3; lia|].
  destruct (scan_number t) as [[z r1]|] eqn:E4; [|done].
  intros [= _ <-]. by apply scan_number_length in E4.
Qed.

(** A scanner step that does not exhaust its fuel, and that consumes
    text when it succeeds. *)
Definition fuel_ok (res : outcome json * text) (t : text) : Prop :=
  fst res <> Raise OutOfFuel /\ forall v r, res = (Ok v, r) -> length r < length t.

Lemma fuel_ok_weaken res t t' : fuel_ok res t' -> length t' <= length t -> fuel_ok res t.
Proof. intros [H1 H2] Hl. split; [done|]. intros v r Hr. specialize (H2 v r Hr). lia. Qed.

Lemma fuel_ok_error t r : fuel_ok (Raise JSONDecodeError, r) t.
Proof. split; [discriminate | by intros ? ? [=]]. Qed.

Lemma fuel_ok_ret v r t : length r < length t -> fuel_ok (Ok v, r) t.
Proof. intros Hl. split; [discriminate|]. by intros ? ? [= _ <-]. Qed.

Lemma fuel_ok_scan {A} (g : text -> option (A * text)) (k : A -> json) t :
  (forall a r, g t = Some (a, r) -> length r < length t) ->
  fuel_ok (match g t with Some (a, r) => (Ok (k a), r) | None => (Raise JSONDecodeError, t) end) t.
Proof.
  intros Hg. destruct (g t) as [[a r]|] eqn:E; [|apply fuel_ok_error].
  apply fuel_ok_ret. by apply (Hg a).
Qed.

Lemma length_tail_skip t : length (tail (skip_ws t)) <= length t.
Proof. pose proof (skip_ws_length t). destruct (skip_ws t); simpl in *; lia. Qed.

Lemma fuel_ok_raise e r r' t t' : fuel_ok (Raise e, r) t -> fuel_ok (Raise e, r') t'.
Proof. intros [H _]. split; [done | by intros ? ? [=]]. Qed.

Lemma length_tail_head {A} (u : list A) c : head u = Some c -> length (tail u) < length u.
Proof. destruct u; simpl; [done | lia]. Qed.

Lemma scanner_fuel f :
  (forall t, 2 * length t < f -> fuel_ok (pvalue f t) t) /\
  (forall acc t, 2 * length t + 1 < f -> fuel_ok (pelems f acc t) t) /\
  (forall acc t, 2 * length t + 1 < f -> fuel_ok (pmembers f acc t) t).
Proof.
  induction f as [|f (IHv & IHe & IHm)]; [repeat split; intros; lia|].
  split; [|split].
  - intros [|c t] Ht; [apply fuel_ok_error|]. simpl in Ht.
    pose proof (skip_ws_length t). pose proof (length_tail_skip t).
    cbn [pvalue]. scan_unfold. change (tail (c :: t)) with t.
    case_decide; [|case_decide; [|case_decide]].
    + case_decide; [apply fuel_ok_ret; simpl; lia|].
      eapply fuel_ok_weaken; [apply IHm; simpl; lia | simpl; lia].
    + case_decide; [apply fuel_ok_ret; simpl; lia|].
      eapply fuel_ok_weaken; [apply IHe; simpl; lia | simpl; lia].
    + change (tail (c :: t)) with t.
      destruct (scan_chars t) as [[s r]|] eqn:E; [|apply fuel_ok_error].
      apply fuel_ok_ret. apply scan_chars_length in E. simpl; lia.
    + destruct (scan_scalar (c :: t)) as [[v r]|] eqn:E; [|apply fuel_ok_error].
      apply fuel_ok_ret. by apply scan_scalar_length in E.
  - intros acc t Ht. cbn [pelems]. scan_unfold.
    destruct (pvalue f t) as [[v|e] t1] eqn:E;
      [|apply (fuel_ok_raise _ t1 _ t); rewrite <-E; apply IHv; lia].
    destruct (IHv t ltac:(lia)) as [_ Hv]. specialize (Hv v t1 E).
    pose proof (skip_ws_length t1).
    case_decide as Hc; [|case_decide as Hc'; [|apply fuel_ok_error]].
    + apply length_tail_head in Hc. pose proof (skip_ws_length (tail (skip_ws t1))).
      eapply fuel_ok_weaken; [apply IHe|]; lia.
    + apply fuel_ok_ret. apply length_tail_head in Hc'. lia.
  - intros acc t Ht. cbn [pmembers]. scan_unfold.
    case_decide as Hq; [|apply fuel_ok_error]. apply length_tail_head in Hq.
    destruct (scan_chars (tail t)) as [[k t1]|] eqn:E; [|apply fuel_ok_error].
    apply scan_chars_length in E. pose proof (skip_ws_length t1).
    case_decide as Hc; [|apply fuel_ok_error]. apply length_tail_head in Hc.
    pose proof (skip_ws_length (tail (skip_ws t1))).
    destruct (pvalue f (skip_ws (tail (skip_ws t1)))) as [[v|e] t2] eqn:E2;
      [|apply (fuel_ok_raise _ t2 _ (skip_ws (tail (skip_ws t1)))); rewrite <-E2; apply IHv; lia].
    destruct (IHv (skip_ws (tail (skip_ws t1))) ltac:(lia)) as [_ Hv].
    specialize (Hv v t2 E2). pose proof (skip_ws_length t2).
    case_decide as Hc2; [|case_decide as Hc3; [|apply fuel_ok_error]].
    + apply length_tail_head in Hc2. pose proof (skip_ws_length (tail (skip_ws t2))).
      eapply fuel_ok_weaken; [apply IHm|]; lia.
    + apply fuel_ok_ret. apply length_tail_head in Hc3. lia.
Qed.

End Fuel.

(** ** Values read are well formed, and only malformed text raises *)

Section Sound.

(** What a scanner step may return: a well-formed value, or one of the
    two exceptions it raises. *)
Definition sound_res (o : outcome json) : Prop :=
  match o with
  | Ok v => json_wf v = true
  | Raise e => e = JSONDecodeError \/ e = OutOfFuel
  end.

Lemma sound_error (r : text) : sound_res (fst (@Raise json JSONDecodeError, r)).
Proof. by left. Qed.

Lemma scan_scalar_wf t v r : scan_scalar t = Some (v, r) -> json_wf v = true.
Proof.
  unfold scan_scalar. repeat case_match; by intros [= <- _].
Qed.

Lemma json_wf_arr l : Forall (fun v => json_wf v = true) l -> json_wf (JArr l) = true.
Proof. induction 1; simpl; [done|]. by apply andb_true_iff. Qed.

Lemma scanner_sound f :
  (forall t, sound_res (fst (pvalue f t))) /\
  (forall acc t, Forall (fun v => json_wf v = true) acc -> sound_res (fst (pelems f acc t))) /\
  (forall acc t, json_wf (JObj acc) = true -> sound_res (fst (pmembers f acc t))).
Proof.
  induction f as [|f (IHv & IHe & IHm)]; [repeat split; intros; by right|].
  split; [|split].
  - intros [|c t]; [apply sound_error|]. cbn [pvalue]. scan_unfold.
    case_decide; [|case_decide; [|case_decide]].
    + case_decide; [done|]. by apply IHm.
    + case_decide; [done|]. by apply IHe.
    + destruct (scan_chars (tail (c :: t))) as [[s r]|]; [done | apply sound_error].
    + destruct (scan_scalar (c :: t)) as [[v r]|] eqn:E; [|apply sound_error].
      by apply scan_scalar_wf in E.
  - intros acc t Hacc. cbn [pelems]. scan_unfold.
    specialize (IHv t). destruct (pvalue f t) as [[v|e] t1]; [|done]. simpl in IHv.
    case_decide; [|case_decide; [|apply sound_error]].
    + apply IHe. apply Forall_app. auto.
    + apply json_wf_arr, Forall_app. auto.
  - intros acc t Hacc. cbn [pmembers]. scan_unfold.
    case_decide; [|apply sound_error].
    destruct (scan_chars (tail t)) as [[k t1]|]; [|apply sound_error]. simpl.
    case_decide; [|apply sound_error].
    specialize (IHv (skip_ws (tail (skip_ws t1)))).
    destruct (pvalue f _) as [[v|e] t2]; [|done]. simpl in IHv.
    case_decide; [|case_decide; [|apply sound_error]].
    + by apply IHm, json_wf_dict_set.
    + by apply json_wf_dict_set.
Qed.

End Sound.

(** ** The codec *)

(** Unfold [json_loads] down to its call of the scanner. *)
Ltac loads_unfold :=
  unfold json_loads, py_bind, skip, py_modify, py_get_state, py_ret, decode_error, py_raise;
  cbv beta iota zeta.

Section Codec.

Lemma json_loads_dumps j : json_wf j = true -> json_loads (dumps_at 0 j) = Ok j.
Proof.
  intros Hwf. pose proof (skip_ws_dumps 0 j []) as Hs. rewrite app_nil_r in Hs.
  pose proof (need_le_length j 0) as Hn.
  assert (Hp : pvalue (S (2 * length (dumps_at 0 j))) (dumps_at 0 j) = (Ok j, [])).
  { rewrite <-(app_nil_r (dumps_at 0 j)) at 2. apply pvalue_dumps; [done | lia | done]. }
  loads_unfold. rewrite Hs, Hp. done.
Qed.

Lemma json_loads_wf t v : json_loads t = Ok v -> json_wf v = true.
Proof.
  loads_unfold.
  destruct (scanner_sound (S (2 * length t))) as [Hv _].
  specialize (Hv (skip_ws t)). destruct (pvalue _ _) as [[w|e] r]; [|done]. simpl in Hv.
  destruct (skip_ws r); [by intros [= <-] | done].
Qed.

Lemma json_loads_error t e : json_loads t = Raise e -> e = JSONDecodeError.
Proof.
  loads_unfold.
  destruct (scanner_sound (S (2 * length t))) as [Hv _].
  specialize (Hv (skip_ws t)). pose proof (skip_ws_length t).
  destruct (scanner_fuel (S (2 * length t))) as [Hf _].
  specialize (Hf (skip_ws t) ltac:(lia)).
  destruct (pvalue _ _) as [[w|e'] r]; simpl in Hv, Hf.
  - destruct (skip_ws r); [done | by intros [= <-]].
  - intros [= <-]. destruct Hv as [? | ->]; [done | by destruct Hf].
Qed.

Lemma text_json_load_dump j : json_wf j = true -> text_json_load (text_json_dump j) = Ok j.
Proof.
  intros Hwf. unfold text_json_load, text_json_dump. rewrite utf8_decode_encode.
  assert (Hall : forallb (fun n => (n <? 256)%N) (map Ascii.N_of_ascii (dumps_at 0 j)) = true).
  { apply forallb_forall. intros n [c [<- _]]%in_map_iff. apply N.ltb_lt. apply N_of_ascii_lt. }
  rewrite Hall, ascii_of_N_of_ascii_map. by apply json_loads_dumps.
Qed.

Lemma text_json_load_wf b j : text_json_load b = Ok j -> json_wf j = true.
Proof.
  unfold text_json_load. destruct (utf8_decode _); [|done].
  case_match; [apply json_loads_wf | done].
Qed.

Lemma text_json_load_error b e : text_json_load b = Raise e ->
  e = JSONDecodeError \/ e = UnicodeDecodeError.
Proof.
  unfold text_json_load. destruct (utf8_decode _); [|intros [= <-]; by right].
  case_match; [intros He; left; by apply json_loads_error in He | intros [= <-]; by left].
Qed.

End Codec.

(** The instance of the interface of Json.v given by Python's json
    library on UTF-8 text. *)
#[export] Instance text_json_codec : JsonCodec := {|
  json_load := text_json_load;
  json_dump := text_json_dump;
  json_load_dump := text_json_load_dump;
  json_load_wf := text_json_load_wf;
  json_load_error := text_json_load_error
|}.

(** ** Conformance with CPython

    Test vectors produced by CPython 3 ([json.dumps(v, indent=4)] on
    fifteen values, and [bytes.decode("utf-8")] followed by
    [json.loads] on thirty-two byte strings, valid and malformed): the
    model gives the same text, value or exception on each. *)

Definition sa (l : list nat) : string := String.string_of_list_ascii (map Ascii.ascii_of_nat l).

Definition dumps_vectors : list (json * list nat) := [
  (JNull, [110;117;108;108]);
  ((JBool true), [116;114;117;101]);
  ((JBool false), [102;97;108;115;101]);
  ((JInt (0)%Z), [48]);
  ((JInt (-7)%Z), [45;55]);
  ((JInt (123456789012345678901234567890)%Z), [49;50;51;52;53;54;55;56;57;48;49;50;51;52;53;54;55;56;57;48;49;50;51;52;53;54;55;56;57;48]);
  ((JStr (sa [])), [34;34]);
  ((JStr (sa [97;34;98;92;99;47;100;8;12;10;13;9;1;127;128;233;255;126;32])), [34;97;92;34;98;92;92;99;47;100;92;98;92;102;92;110;92;114;92;116;92;117;48;48;48;49;92;117;48;48;55;102;92;117;48;48;56;48;92;117;48;48;101;57;92;117;48;48;102;102;126;32;34]);
  ((JArr []), [91;93]);
  ((JObj []), [123;125]);
  ((JArr [(JInt (1)%Z);(JArr [(JInt (2)%Z);(JArr [])]);(JObj [])]), [91;10;32;32;32;32;49;44;10;32;32;32;32;91;10;32;32;32;32;32;32;32;32;50;44;10;32;32;32;32;32;32;32;32;91;93;10;32;32;32;32;93;44;10;32;32;32;32;123;125;10;93]);
  ((JObj [((sa [73;116;101;109;115]), (JArr []))]), [123;10;32;32;32;32;34;73;116;101;109;115;34;58;32;91;93;10;125]);
  ((JObj [((sa [97]), (JObj [((sa [98]), (JArr [(JInt (1)%Z);(JInt (2)%Z)]));((sa [99]), (JObj []))]));((sa [100]), (JStr (sa [120])))]), [123;10;32;32;32;32;34;97;34;58;32;123;10;32;32;32;32;32;32;32;32;34;98;34;58;32;91;10;32;32;32;32;32;32;32;32;32;32;32;32;49;44;10;32;32;32;32;32;32;32;32;32;32;32;32;50;10;32;32;32;32;32;32;32;32;93;44;10;32;32;32;32;32;32;32;32;34;99;34;58;32;123;125;10;32;32;32;32;125;44;10;32;32;32;32;34;100;34;58;32;34;120;34;10;125]);
  ((JArr [(JArr [(JArr [(JArr [])])])]), [91;10;32;32;32;32;91;10;32;32;32;32;32;32;32;32;91;10;32;32;32;32;32;32;32;32;32;32;32;32;91;93;10;32;32;32;32;32;32;32;32;93;10;32;32;32;32;93;10;93]);
  ((JObj [((sa [107]), (JArr [(JObj [((sa [122]), JNull)])]))]), [123;10;32;32;32;32;34;107;34;58;32;91;10;32;32;32;32;32;32;32;32;123;10;32;32;32;32;32;32;32;32;32;32;32;32;34;122;34;58;32;110;117;108;108;10;32;32;32;32;32;32;32;32;125;10;32;32;32;32;93;10;125])
].

Definition loads_vectors : list (list N * outcome json) := [
  ([32;32;91;49;44;32;50;32;44;51;93;32;10]%N, Ok (JArr [(JInt (1)%Z);(JInt (2)%Z);(JInt (3)%Z)]));
  ([91;49;44;93]%N, Raise JSONDecodeError);
  ([123;34;97;34;58;49;44;34;97;34;58;50;44;34;98;34;58;51;125]%N, Ok (JObj [((sa [97]), (JInt (2)%Z));((sa [98]), (JInt (3)%Z))]));
  ([48;49]%N, Raise JSONDecodeError);
  ([45;48]%N, Ok (JInt (0)%Z));
  ([34;92;117;48;48;101;57;92;117;48;48;69;57;34]%N, Ok (JStr (sa [233;233])));
  ([34;195;169;34]%N, Ok (JStr (sa [233])));
  ([255]%N, Raise UnicodeDecodeError);
  ([34;1;34]%N, Raise JSONDecodeError);
  ([123;34;97;34;32;58;32;91;32;93;32;44;32;34;98;34;58;123;32;125;125]%N, Ok (JObj [((sa [97]), (JArr []));((sa [98]), (JObj []))]));
  ([91;49;32;50;93]%N, Raise JSONDecodeError);
  ([]%N, Raise JSONDecodeError);
  ([32;32;32]%N, Raise JSONDecodeError);
  ([110;117;108]%N, Raise JSONDecodeError);
  ([110;117;108;108;32;120]%N, Raise JSONDecodeError);
  ([116;114;117;101;102;97;108;115;101]%N, Raise JSONDecodeError);
  ([91;45;93]%N, Raise JSONDecodeError);
  ([123;34;97;34;58;49;44;125]%N, Raise JSONDecodeError);
  ([123;44;125]%N, Raise JSONDecodeError);
  ([34;92;47;92;98;34]%N, Ok (JStr (sa [47;8])));
  ([34;92;120;34]%N, Raise JSONDecodeError);
  ([91;49;93;93]%N, Raise JSONDecodeError);
  ([9;123;125;13;10]%N, Ok (JObj []));
  ([45;49;50;51;52;53;54;55;56;57;48;49;50;51;52;53;54;55;56;57;48]%N, Ok (JInt (-12345678901234567890)%Z));
  ([123;34;34;58;34;34;125]%N, Ok (JObj [((sa []), (JStr (sa [])))]));
  ([34;97;98;99]%N, Raise JSONDecodeError);
  ([91;116;114;117;101;44;102;97;108;115;101;44;110;117;108;108;93]%N, Ok (JArr [(JBool true);(JBool false);JNull]));
  ([195;40]%N, Raise UnicodeDecodeError);
  ([224;128;128]%N, Raise UnicodeDecodeError);
  ([237;160;128]%N, Raise UnicodeDecodeError);
  ([244;144;128;128]%N, Raise UnicodeDecodeError);
  ([34;194;128;34]%N, Ok (JStr (sa [128])))
].

Example dumps_cpython :
  map (fun p => dumps_at 0 p.1) dumps_vectors = map (fun p => map Ascii.ascii_of_nat p.2) dumps_vectors.
Proof. vm_compute. reflexivity. Qed.

Example loads_cpython :
  map (fun p => text_json_load (map byte_of p.1)) loads_vectors = map snd loads_vectors.
Proof. vm_compute. reflexivity. Qed.

(** ** The save editor on JSON text

    The runs of SaveEditor.v, proved against any [JsonCodec], with
    [text_json_codec]: the bytes [clear_json_field] (src/main.py, lines
    184-194 and 202-212) leaves on disk are the text CPython writes,
    and a file written without indentation is read. *)

(** A [Trash.json] as a program writes it with [json.dumps] and no
    indentation: [{"DataType": "TrashData", "Items": [1, 2],
    "DataVersion": 0}]. *)
Definition compact_trash_bytes : bytes :=
  map (fun n => byte_of (N.of_nat n))
    [123;34;68;97;116;97;84;121;112;101;34;58;32;34;84;114;97;115;104;68;97;116;97;34;44;32;
     34;73;116;101;109;115;34;58;32;91;49;44;32;50;93;44;32;34;68;97;116;97;86;101;114;115;
     105;111;110;34;58;32;48;125].

(** What CPython's [json.dump(data, f, indent=4)] writes for that dict
    with its items cleared. *)
Definition cleared_trash_bytes : bytes :=
  map (fun n => byte_of (N.of_nat n))
    [123;10;32;32;32;32;34;68;97;116;97;84;121;112;101;34;58;32;34;84;114;97;115;104;68;97;
     116;97;34;44;10;32;32;32;32;34;73;116;101;109;115;34;58;32;91;93;44;10;32;32;32;32;34;68;
     97;116;97;86;101;114;115;105;111;110;34;58;32;48;10;125].

Lemma clear_json_field_text_run file key ok err b kvs w :
  fs_lookup (w_fs w) file = Some (NFile b) ->
  fs_lookup (w_fs w) (removelast file) = Some NDir ->
  text_json_load b = Ok (JObj kvs) ->
  @clear_json_field text_json_codec file key ok err w =
    (Ok tt, add_stdout ok (set_fs (fs_update (w_fs w) file
       (NFile (text_json_dump (JObj (cleared kvs key))))) w)) /\
  text_json_load (text_json_dump (JObj (cleared kvs key))) = Ok (JObj (cleared kvs key)).
Proof.
  intros Hp Hd Hl. split.
  - by apply (@clear_json_field_obj_run text_json_codec _ _ _ _ b).
  - apply text_json_load_dump, cleared_wf. by eapply text_json_load_wf.
Qed.

(** With Python's json library on UTF-8 files, clearing a field
    of a file that [json.load] reads as a dict rewrites the file with
    exactly the UTF-8 bytes of [json.dumps(cleared, indent=4)] (the
    list under the key emptied when the key is there), prints the
    success line, and the new file reads back as the cleared dict. *)
Theorem clear_json_field_text file key ok err b kvs w :
  fs_lookup (w_fs w) file = Some (NFile b) ->
  fs_lookup (w_fs w) (removelast file) = Some NDir ->
  text_json_load b = Ok (JObj kvs) ->
  @clear_json_field text_json_codec file key ok err w =
    (Ok tt, add_stdout ok (set_fs (fs_update (w_fs w) file
       (NFile (utf8_encode (dumps_at 0 (JObj (cleared kvs key)))))) w)) /\
  text_json_load (utf8_encode (dumps_at 0 (JObj (cleared kvs key)))) = Ok (JObj (cleared kvs key)).
Proof. apply clear_json_field_text_run. Qed.

Lemma clear_json_field_text_witness :
  let w := example_save_world compact_trash_bytes in
  fs_lookup (w_fs w) example_trash_path = Some (NFile compact_trash_bytes) /\
  fs_lookup (w_fs w) (removelast example_trash_path) = Some NDir /\
  text_json_load compact_trash_bytes = Ok (JObj example_trash_kvs) /\
  (@clear_json_field text_json_codec example_trash_path "Items" MsgAllCleared MsgTrashError w =
    (Ok tt, add_stdout MsgAllCleared (set_fs (fs_update (w_fs w) example_trash_path
       (NFile (utf8_encode (dumps_at 0 (JObj (cleared example_trash_kvs "Items")))))) w)) /\
  text_json_load (utf8_encode (dumps_at 0 (JObj (cleared example_trash_kvs "Items"))))
    = Ok (JObj (cleared example_trash_kvs "Items"))).
Proof.
  intros w. assert (Hl : text_json_load compact_trash_bytes = Ok (JObj example_trash_kvs))
    by (vm_compute; reflexivity).
  split; [reflexivity|]. split; [reflexivity|]. split; [exact Hl|].
  apply (clear_json_field_text _ _ _ _ compact_trash_bytes); [reflexivity | reflexivity | exact Hl].
Defined.

(** The bytes written in that run are CPython's indented text. *)
Example cleared_trash_text :
  text_json_dump (JObj (cleared example_trash_kvs "Items")) = cleared_trash_bytes.
Proof. vm_compute. reflexivity. Qed.

(** ** A whole session on JSON text

    The program run by CPython 3 on Linux with [os.path] set to
    [ntpath], on one save game whose three files the game wrote without
    indentation: typing 1, 1 and 5 leaves the files below on disk. *)

Definition nbytes (l : list nat) : bytes := map (fun n => byte_of (N.of_nat n)) l.

(** [Game.json]: an organisation name and an amount of cash, on one line. *)
Definition session_game_json : bytes := nbytes [
    123; 34; 79; 114; 103; 97; 110; 105; 115; 97; 116; 105; 111; 110; 78; 97; 109;
    101; 34; 58; 32; 34; 87; 101; 115; 116; 118; 105; 108; 108; 101; 32; 83; 117;
    112; 112; 108; 121; 34; 44; 32; 34; 67; 97; 115; 104; 34; 58; 32; 49; 50; 53;
    48; 125].

(** [Trash.json] as the game writes it, without indentation, with two items. *)
Definition session_trash_json : bytes := nbytes [
    123; 34; 68; 97; 116; 97; 84; 121; 112; 101; 34; 58; 32; 34; 84; 114; 97; 115;
    104; 68; 97; 116; 97; 34; 44; 32; 34; 68; 97; 116; 97; 86; 101; 114; 115; 105;
    111; 110; 34; 58; 32; 48; 44; 32; 34; 73; 116; 101; 109; 115; 34; 58; 32; 91;
    123; 34; 73; 68; 34; 58; 32; 34; 99; 105; 103; 97; 114; 101; 116; 116; 101; 34;
    44; 32; 34; 80; 111; 115; 34; 58; 32; 91; 45; 49; 44; 32; 50; 93; 125; 44; 32;
    123; 34; 73; 68; 34; 58; 32; 34; 98; 97; 103; 34; 125; 93; 125].

(** [Generator_1.json], with a string holding a non-ASCII letter, a newline and quotes. *)
Definition session_generator_json : bytes := nbytes [
    123; 34; 71; 101; 110; 101; 114; 97; 116; 101; 100; 73; 116; 101; 109; 115; 34;
    58; 32; 91; 123; 34; 73; 68; 34; 58; 32; 34; 99; 97; 110; 34; 125; 93; 44; 32;
    34; 84; 97; 103; 34; 58; 32; 34; 99; 97; 102; 92; 117; 48; 48; 101; 57; 92; 110;
    92; 34; 120; 92; 34; 34; 125].

(** [Trash.json] after the run of CPython. *)
Definition session_trash_after : bytes := nbytes [
    123; 10; 32; 32; 32; 32; 34; 68; 97; 116; 97; 84; 121; 112; 101; 34; 58; 32; 34;
    84; 114; 97; 115; 104; 68; 97; 116; 97; 34; 44; 10; 32; 32; 32; 32; 34; 68; 97;
    116; 97; 86; 101; 114; 115; 105; 111; 110; 34; 58; 32; 48; 44; 10; 32; 32; 32;
    32; 34; 73; 116; 101; 109; 115; 34; 58; 32; 91; 93; 10; 125].

(** [Generator_1.json] after the run of CPython. *)
Definition session_generator_after : bytes := nbytes [
    123; 10; 32; 32; 32; 32; 34; 71; 101; 110; 101; 114; 97; 116; 101; 100; 73; 116;
    101; 109; 115; 34; 58; 32; 91; 93; 44; 10; 32; 32; 32; 32; 34; 84; 97; 103; 34;
    58; 32; 34; 99; 97; 102; 92; 117; 48; 48; 101; 57; 92; 110; 92; 34; 120; 92; 34;
    34; 10; 125].

Definition text_saves_world (inp : list string) : world :=
  mkWorld
    (dirs_above (saves_base_of example_appdata) ++
    [(saves_base_of example_appdata, NDir);
     (saves_base_of example_appdata ++ ["76561198000000000"], NDir);
     (example_save, NDir);
     (example_save ++ ["Game.json"], NFile session_game_json);
     (example_save ++ ["Trash"], NDir);
     (example_trash_json, NFile session_trash_json);
     (example_save ++ ["Trash"; "Generators"], NDir);
     (example_generator_json, NFile session_generator_json)])
    None (Some example_appdata) inp [] [].

(** The model, with Python's json library, writes byte for byte the
    files CPython writes, leaves [Game.json] alone and exits. *)
Example main_text_session :
  let w := snd (@main py_bytes_find text_json_codec (text_saves_world ["1"; "1"; "5"])) in
  fst (@main py_bytes_find text_json_codec (text_saves_world ["1"; "1"; "5"])) = Raise SystemExit /\
  fs_lookup (w_fs w) example_trash_json = Some (NFile session_trash_after) /\
  fs_lookup (w_fs w) example_generator_json = Some (NFile session_generator_after) /\
  fs_lookup (w_fs w) (example_save ++ ["Game.json"]) = Some (NFile session_game_json).
Proof. vm_compute. repeat split. Qed.

(** A [Trash.json] without [Items], written without indentation. *)
Definition itemless_trash_json : bytes := nbytes [
    123; 34; 68; 97; 116; 97; 84; 121; 112; 101; 34; 58; 32; 34; 84; 114; 97; 115;
    104; 68; 97; 116; 97; 34; 125].

(** With the key absent nothing is cleared, yet the file is rewritten
    in the indented form and the success line is printed. *)
Example clear_json_field_absent_key_rewrites :
  let w := example_save_world itemless_trash_json in
  let w' := snd (@clear_json_field text_json_codec example_trash_path "Items"
                   MsgAllCleared MsgTrashError w) in
  fs_lookup (w_fs w') example_trash_path <> Some (NFile itemless_trash_json) /\
  text_json_load itemless_trash_json = Ok (JObj [("DataType", JStr "TrashData")]) /\
  fs_lookup (w_fs w') example_trash_path
    = Some (NFile (text_json_dump (JObj [("DataType", JStr "TrashData")]))) /\
  w_stdout w' = [MsgAllCleared].
Proof. vm_compute. split; [discriminate | repeat split]. Qed.
